(** * prose: photometric precision, PSF summary, observation report and
      ExoFOP upload

    A shallow embedding of the parts of [prose/observation.py],
    [prose/reports/__init__.py] and [prose/tess/reports/exofop_upload.py]
    that carry the behaviour described in the specification, followed by the
    theorems that settle each statement of the specification and by further
    properties of the same methods and of the methods beside them.

    Conventions.
    - numpy [float64] values are Rocq's primitive binary64 floats; [+], [-],
      [*], [/], [sqrt] and the comparisons are the IEEE operations numpy uses.
    - Library routines whose result depends on an implementation outside the
      repository ([np.mean], [np.median], scipy's [binned_statistic], float
      formatting, the plotting back end, the jinja template) are fields of a
      record passed to the function that calls them.
    - Python exceptions are the [Raise] outcome of the [result] monad.
    - Index arguments are natural numbers where the callers produce no
      negative index; [py_index] and [py_slice] take the integers, negative
      ones included, of the callers that can produce them. *)

From Stdlib Require Import ZArith QArith Qminmax Qround List String Ascii Floats.
From Stdlib Require Import Lia Lqa.
From Stdlib Require Import Permutation Sorted.
From stdpp Require Import base option list strings gmap pretty.

Local Open Scope Z_scope.
Local Open Scope string_scope.
Local Open Scope list_scope.

(** ** Python runtime *)

Module Py.

Inductive exn : Type :=
| AssertionError (msg : string)
| IndexError
| ValueError
| TypeError
| AttributeError
| OverflowError
| FileNotFoundError
| FileExistsError
| IsADirectoryError
| NotADirectoryError
| ConnectionError.

Inductive result (A : Type) : Type :=
| Ok (a : A)
| Raise (e : exn).
Arguments Ok {A} a.
Arguments Raise {A} e.

#[export] Instance result_ret : MRet result := fun _ a => Ok a.
#[export] Instance result_bind : MBind result := fun _ _ f m =>
  match m with
  | Ok a => f a
  | Raise e => Raise e
  end.
#[export] Instance result_fmap : FMap result := fun _ _ f m =>
  match m with
  | Ok a => Ok (f a)
  | Raise e => Raise e
  end.

(** A method that acts on a state [S] and may raise; what was done before
    the exception stays done. *)
Definition prog (S A : Type) : Type := S -> S * result A.

#[export] Instance prog_ret {S} : MRet (prog S) := fun _ a w => (w, Ok a).
#[export] Instance prog_bind {S} : MBind (prog S) := fun _ _ f m w =>
  match m w with
  | (w', Ok a) => f a w'
  | (w', Raise e) => (w', Raise e)
  end.

Definition lift {S A} (r : result A) : prog S A := fun w => (w, r).

(** [for x in l: body(x)] *)
Fixpoint for_each {S A} (l : list A) (body : A -> prog S unit)
  : prog S unit :=
  match l with
  | [] => mret tt
  | x :: l' => _ ← body x; for_each l' body
  end.

(** [assert cond, msg] *)
Definition py_assert (cond : bool) (msg : string) : result unit :=
  if cond then Ok tt else Raise (AssertionError msg).

(** [l[i]] for a non-negative index. *)
Definition getitem {A} (l : list A) (i : nat) : result A :=
  match l !! i with
  | Some x => Ok x
  | None => Raise IndexError
  end.

(** [[f(x) for x in l]] where [f] may raise: the first exception wins. *)
Fixpoint comprehension {A B} (f : A -> result B) (l : list A)
  : result (list B) :=
  match l with
  | [] => Ok []
  | x :: l' => y ← f x; ys ← comprehension f l'; Ok (y :: ys)
  end.

(** [s.startswith(p)] and [s.endswith(p)]. *)
Definition startswith (s p : string) : bool := String.prefix p s.

Definition endswith (s p : string) : bool :=
  (String.length p <=? String.length s)%nat
  && String.eqb
       (String.substring (String.length s - String.length p)
                         (String.length p) s) p.

(** Insertion-ordered [dict]: assigning to a key that is present replaces
    its value where the key stands; a new key goes to the end. *)
Fixpoint dict_set {K V} `{EqDecision K} (d : list (K * V)) (k : K) (v : V)
  : list (K * V) :=
  match d with
  | [] => [(k, v)]
  | (k', v') :: d' =>
      if decide (k' = k) then (k', v) :: d' else (k', v') :: dict_set d' k v
  end.

(** [dict(pairs)], [d.update(pairs)] and the literal [{..., **other, ...}]:
    the pairs are assigned from left to right. *)
Definition dict_update {K V} `{EqDecision K} (d : list (K * V))
    (kvs : list (K * V)) : list (K * V) :=
  fold_left (fun acc kv => dict_set acc kv.1 kv.2) kvs d.

(** [l[start::2] = xs]: an extended-slice assignment needs exactly as many
    values as the slice has positions. *)
Definition slice_positions (start len : nat) : list nat :=
  map (fun k => start + 2 * k)%nat (seq 0 ((len - start + 1) / 2)).

Definition assign_stride2 {A} (l : list A) (start : nat) (xs : list A)
  : result (list A) :=
  let pos := slice_positions start (length l) in
  if decide (length pos = length xs)
  then Ok (fold_left (fun acc ix => <[ix.1 := ix.2]> acc) (zip pos xs) l)
  else Raise ValueError.

End Py.
Export Py.

(** ** numpy on float64 *)

Module Np.

Local Open Scope float_scope.

(** The routines taken from numpy and scipy. *)
Record numpy : Type := {
  (** [np.mean] of a one-dimensional array. *)
  np_mean : list float -> float;
  (** [np.median] of a one-dimensional array. *)
  np_median : list float -> float;
  (** [scipy.stats.binned_statistic(x, values, statistic='std', bins=n)[0]] *)
  binned_std : list float -> list float -> Z -> result (list float);
}.

(** The abscissa handed to [plt.plot] is [np.log] of a flux; the logarithm
    is kept as a symbol around its argument. *)
Inductive logval : Type := np_log (x : float).

(** [np.log(2)] in float64. *)
Definition ln2 : float := 0x1.62e42fefa39efp-1.

(** [int(x)] for a float: truncation towards zero. *)
Definition py_int (x : float) : result Z :=
  match Prim2SF x with
  | S754_zero _ => Ok 0%Z
  | S754_finite s m e =>
      let v := (if 0 <=? e then Z.pos m * 2 ^ e
                else Z.pos m / 2 ^ (- e))%Z in
      Ok (if s then - v else v)%Z
  | S754_infinity _ => Raise OverflowError
  | S754_nan => Raise ValueError
  end.

(** [round(x)] for a float: the nearest integer, a tie going to the even
    one; an infinity and a NaN have none. *)
Definition py_round (x : float) : result Z :=
  match Prim2SF x with
  | S754_zero _ => Ok 0%Z
  | S754_finite s m e =>
      let v := (if 0 <=? e then Z.pos m * 2 ^ e
                else
                  let d := 2 ^ (- e) in
                  let q := Z.pos m / d in
                  let r := Z.pos m mod d in
                  if 2 * r <? d then q
                  else if d <? 2 * r then q + 1
                  else if Z.even q then q else q + 1)%Z in
      Ok (if s then - v else v)%Z
  | S754_infinity _ => Raise OverflowError
  | S754_nan => Raise ValueError
  end.

(** [a / b] on one-dimensional arrays, with numpy's broadcasting of a
    one-element operand. *)
Definition np_divide (a b : list float) : result (list float) :=
  if decide (length a = length b) then Ok (zip_with PrimFloat.div a b)
  else match a, b with
       | [x], _ => Ok (map (fun y => x / y) b)
       | _, [y] => Ok (map (fun x => x / y) a)
       | _, _ => Raise ValueError
       end.

(** [arr[mask]] for a boolean mask. *)
Definition mask_select {A} (arr : list A) (mask : list bool)
  : result (list A) :=
  if decide (length arr = length mask)
  then Ok (map fst (filter (fun xm => xm.2 = true) (zip arr mask)))
  else Raise IndexError.

(** [arr[idxs]] for an integer index array. *)
Definition take {A} (arr : list A) (idxs : list nat) : result (list A) :=
  comprehension (getitem arr) idxs.

(** The order numpy sorts by: NaN after every number. *)
Definition np_le (x y : float) : bool := is_nan y || (x <=? y).

(** [np.argsort]: the indices that put the array in ascending order.
    numpy leaves the order of equal keys open; here equal keys keep their
    positions. *)
Fixpoint insert_by_key (p : nat * float) (l : list (nat * float))
  : list (nat * float) :=
  match l with
  | [] => [p]
  | q :: l' =>
      if np_le q.2 p.2 then q :: insert_by_key p l' else p :: q :: l'
  end.

Definition sort_by_key (l : list (nat * float)) : list (nat * float) :=
  fold_left (fun acc p => insert_by_key p acc) l [].

Definition np_argsort (a : list float) : list nat :=
  map fst (sort_by_key (zip (seq 0 (length a)) a)).

(** [np.max([a, b])] and [np.min([a, b])]: NaN wins. *)
Definition np_max2 (a b : float) : float :=
  if is_nan a || is_nan b then nan else if a <? b then b else a.

Definition np_min2 (a b : float) : float :=
  if is_nan a || is_nan b then nan else if b <? a then b else a.

End Np.
Export Np.

(** ** The observation ([prose/observation.py]) *)

Module Obs.

Local Open Scope float_scope.

(** [self.lcs]: the light curves, with the aperture picked as best. *)
Record lightcurves : Type := {
  best_aperture_id : nat;
}.

(** The attributes of an [Observation] read by the methods below.
    Matrices are indexed [[aperture][star][time]]. *)
Record observation : Type := {
  time : list float;
  exptime : list float;
  sky : list float;
  dx : list float;
  dy : list float;
  fwhm : list float;
  airmass : list float;
  raw_fluxes : list (list (list float));
  raw_errors : list (list (list float));
  apertures_area : list (list float);
  apertures_radii : list (list float);
  lcs : option lightcurves;
  aperture : nat;
  comps : list (list nat);
  diff_fluxes : list (list (list float));
  diff_errors : list (list (list float));
  diff_flux : list float;
  diff_error : list float;
  time_format : string;
  RA : string;
  DEC : string;
  telescope_name : string;
  filter_name : string;
  target_name : string;
  date : string;
}.

(** [self.fluxes.as_array(aperture)]: the flux and error matrices of one
    aperture, one row per star. *)
Definition as_array (self : observation) (a : nat)
  : result (list (list float) * list (list float)) :=
  fl ← getitem (raw_fluxes self) a;
  er ← getitem (raw_errors self) a;
  Ok (fl, er).

(** One [plt.plot(x, y, ...)] call. *)
Record series : Type := {
  s_x : list logval;
  s_y : list float;
  s_fmt : string;
  s_label : string;
}.

(** lines 536-538: the aperture argument, or the best aperture of the
    light curves. *)
Definition pick_aperture (self : observation) (aperture : option nat)
  : result nat :=
  match aperture with
  | Some a => Ok a
  | None =>
      _ ← py_assert (bool_decide (is_Some (lcs self)))
            "You must set 'aperture' kwargs (light-curve not present to pick best aperture id)";
      match lcs self with
      | Some lc => Ok (best_aperture_id lc)
      | None => Raise AttributeError
      end
  end.

(** line 540 *)
Definition bin_count (np : numpy) (self : observation) (bins : float)
  : result Z :=
  py_int (bins / (np_mean np (exptime self) / 86400)).

(** line 551 *)
Definition aperture_area (self : observation) (aperture : nat)
  : result float :=
  row ← getitem (apertures_area self) 0; getitem row aperture.

(** lines 549-550 *)
Definition error_estimates (np : numpy) (self : observation) (n_bin : Z)
    (fluxes : list (list float)) : result (list float) :=
  comprehension
    (fun f => np_median np <$> binned_std np (time self) f n_bin) fluxes.

(** lines 576-578: [np.percentile] of an empty array raises. *)
Definition nonempty {A} (a : list A) : result unit :=
  match a with
  | [] => Raise IndexError
  | _ :: _ => Ok tt
  end.

(** lines 544-579: the curves drawn once the aperture and the number of
    bins are known, in drawing order; the limits of the axes are taken from
    the arrays drawn, which must not be empty: a figure is returned only
    when the limits could be set. Scales, labels and titles are left out. *)
Definition precision_curves (np : numpy) (self : observation)
    (aperture : nat) (n_bin : Z) : result (list series) :=
  '(fluxes, errors) ← as_array self aperture;
  let mean_fluxes := map (np_mean np) fluxes in
  let mean_errors := map (np_mean np) errors in
  error_estimate ← error_estimates np self n_bin fluxes;
  area ← aperture_area self aperture;
  ccd_equation ← np_divide mean_errors mean_fluxes;
  inv_snr_estimate ← np_divide error_estimate mean_fluxes;
  let positive_est := map (fun e => 0 <? e) inv_snr_estimate in
  mean_fluxes ← mask_select mean_fluxes positive_est;
  inv_snr_estimate ← mask_select inv_snr_estimate positive_est;
  ccd_equation ← mask_select ccd_equation positive_est;
  let sorted_fluxes_idxs := np_argsort mean_fluxes in
  let log_fluxes := map np_log mean_fluxes in
  let rms := {| s_x := log_fluxes; s_y := inv_snr_estimate;
                s_fmt := "."; s_label := "flux rms (7.2 min bins)" |} in
  xs ← take log_fluxes sorted_fluxes_idxs;
  photon ← take (map (fun F => sqrt F / F) mean_fluxes) sorted_fluxes_idxs;
  background ←
    take (map (fun F => sqrt (np_mean np (sky self) * area) / F) mean_fluxes)
         sorted_fluxes_idxs;
  ccd ← take ccd_equation sorted_fluxes_idxs;
  _ ← nonempty mean_fluxes;
  Ok [ rms;
       {| s_x := xs; s_y := photon; s_fmt := "--";
          s_label := "photon noise" |};
       {| s_x := xs; s_y := background; s_fmt := "";
          s_label := "background noise" |};
       {| s_x := xs; s_y := ccd; s_fmt := "";
          s_label := "CCD equation" |} ].

(** line 542 *)
Definition bins_check (self : observation) (n_bin : Z) : result unit :=
  py_assert (Z.of_nat (length (time self)) >? n_bin)%Z
    "Your 'bins' size is less than the total exposure".

(** [Observation.plot_precision] *)
Definition plot_precision (np : numpy) (self : observation)
    (bins : float) (aperture : option nat) : result (list series) :=
  aperture ← pick_aperture self aperture;
  n_bin ← bin_count np self bins;
  _ ← bins_check self n_bin;
  precision_curves np self aperture n_bin.

(** Arithmetic the PSF summary is written with: float64 in the program,
    exact rationals for the closed form. *)
Class Arith (T : Type) : Type := {
  a_sub : T -> T -> T;
  a_mul : T -> T -> T;
  a_div : T -> T -> T;
  a_max : T -> T -> T;
  a_min : T -> T -> T;
}.

#[export] Instance float64_arith : Arith float := {|
  a_sub := PrimFloat.sub;
  a_mul := PrimFloat.mul;
  a_div := PrimFloat.div;
  a_max := np_max2;
  a_min := np_min2;
|}.

#[export] Instance exact_arith : Arith Q := {|
  a_sub := Qminus;
  a_mul := Qmult;
  a_div := Qdiv;
  a_max := Qmax;
  a_min := Qmin;
|}.



End Obs.
Export Obs.

(** ** The observation report ([prose/reports/__init__.py]) *)

Module Report.

Local Open Scope float_scope.

(** *** [datetime] and [timedelta] *)

Record datetime : Type := {
  dt_day : Z;        (* proleptic ordinal of the date *)
  dt_hour : Z;
  dt_minute : Z;
  dt_second : Z;
  dt_microsecond : Z;
}.

Record timedelta : Type := {
  td_days : Z;
  td_seconds : Z;
  td_microseconds : Z;
}.

Definition micros (d : datetime) : Z :=
  ((((dt_day d * 24 + dt_hour d) * 60 + dt_minute d) * 60 + dt_second d)
   * 1000000 + dt_microsecond d)%Z.

(** [a - b]: a normalised [timedelta]. *)
Definition dt_sub (a b : datetime) : timedelta :=
  let us := (micros a - micros b)%Z in
  {| td_days := us / 86400000000;
     td_seconds := (us / 1000000) mod 86400;
     td_microseconds := us mod 1000000 |}%Z.

(** [datetimes.min()] and [datetimes.max()] *)
Definition dt_min (l : list datetime) : result datetime :=
  match l with
  | [] => Raise ValueError
  | d :: l' =>
      Ok (fold_left (fun m x => if (micros x <? micros m)%Z then x else m)
                    l' d)
  end.

Definition dt_max (l : list datetime) : result datetime :=
  match l with
  | [] => Raise ValueError
  | d :: l' =>
      Ok (fold_left (fun m x => if (micros m <? micros x)%Z then x else m)
                    l' d)
  end.

(** [%H] and [%M]: two digits. *)
Definition pad2 (n : Z) : string :=
  if (n <? 10)%Z then "0" +:+ pretty n else pretty n.

(** [d.strftime('%H:%M')] *)
Definition strftime_HM (d : datetime) : string :=
  pad2 (dt_hour d) +:+ ":" +:+ pad2 (dt_minute d).

(** [__init__], lines 29-33. *)
Definition obs_duration (min_datetime max_datetime : datetime) : string :=
  let seconds := td_seconds (dt_sub max_datetime min_datetime) in
  let obs_duration_hours := (seconds / 3600)%Z in
  let obs_duration_mins := ((seconds / 60) mod 60)%Z in
  strftime_HM min_datetime +:+ " - " +:+ strftime_HM max_datetime +:+ " "
  +:+ "[" +:+ pretty obs_duration_hours +:+ "h"
  +:+ (if negb (obs_duration_mins =? 0)%Z then pretty obs_duration_mins
       else "")
  +:+ "]".

(** Library routines the report calls. *)
Record runtime : Type := {
  (** [Time(t, format='jd', scale='utc').to_datetime()] for one epoch, or
      the exception it raises for an epoch no [datetime] can hold *)
  to_datetime : float -> result datetime;
  (** [f"{x:.2f}"] *)
  fmt_2f : float -> string;
  (** [str(x)] for a float *)
  str_float : float -> string;
  (** [round(x, 2)] *)
  round2 : float -> float;
}.

(** A value of the metadata table. *)
Inductive cell : Type :=
| CNone
| CStr (s : string)
| CInt (n : Z).

(** [__init__], lines 25-47: [self.obstable]. *)
Definition obstable (np : numpy) (rt : runtime) (self : observation)
  : result (list (string * cell)) :=
  datetimes ← comprehension (to_datetime rt) (time self);
  min_datetime ← dt_min datetimes;
  max_datetime ← dt_max datetimes;
  radius ← (row ← getitem (apertures_radii self) 0;
            getitem row (aperture self));
  Ok [ ("TIC ID", CNone);
       ("Time", CStr (obs_duration min_datetime max_datetime));
       ("RA - DEC", CStr (RA self +:+ " " +:+ DEC self));
       ("Number of images", CInt (Z.of_nat (length (time self))));
       ("GAIA id", CNone);
       ("Mean std · fwhm",
         CStr (fmt_2f rt (np_mean np (fwhm self) / (2 * sqrt (2 * ln2)))
               +:+ " · " +:+ fmt_2f rt (np_mean np (fwhm self))
               +:+ " pixels"));
       ("Best aperture radius",
         CStr (str_float rt (round2 rt radius) +:+ " pixels"));
       ("Telescope", CStr (telescope_name self));
       ("Filter", CStr (filter_name self));
       ("Exposure time",
         CStr (str_float rt (np_mean np (exptime self)) +:+ " s")) ].

(** *** The measurement table *)

(** A column name: a string, or the [None] a slot holds before it is
    assigned. *)
Definition colname : Type := option string.

(** [l = [None] * n; l[::2] = evens; l[1::2] = odds] *)
Definition interleave_slots {A} (evens odds : list A)
  : result (list (option A)) :=
  let slots := replicate (length evens + length odds) None in
  slots ← assign_stride2 slots 0 (map Some evens);
  assign_stride2 slots 1 (map Some odds).

(** A value of the frame's dictionary: an array, or the [None] a slot holds
    before it is assigned (pandas spreads a scalar over the whole column). *)
Definition column : Type := option (list float).

(** The file [df.to_csv(destination, sep=sep, index=False)] writes: a header
    line of column names and one line per row. *)
Record csv_file : Type := {
  csv_sep : string;
  csv_header : list colname;
  csv_rows : list (list (option float));
}.

Definition arrays (cols : list (colname * column)) : list (list float) :=
  omap snd cols.

(** [pd.DataFrame(ordered_dict)]: the arrays must agree in length. *)
Definition dataframe (cols : list (colname * column))
  : result (list (colname * column)) :=
  match arrays cols with
  | [] => Raise ValueError
  | c :: cs =>
      if forallb (fun c' => Nat.eqb (length c') (length c)) cs
      then Ok cols else Raise ValueError
  end.

Definition frame_height (cols : list (colname * column)) : nat :=
  match arrays cols with
  | [] => 0
  | c :: _ => length c
  end.

(** The rows of a frame, one per index value. *)
Definition frame_rows (cols : list (colname * column))
  : list (list (option float)) :=
  map (fun r => map (fun kc : colname * column => kc.2 ≫= (.!! r)) cols)
      (seq 0 (frame_height cols)).

Definition time_column (self : observation) : string :=
  if String.eqb (time_format self) "bjd_tdb" then "BJD-TDB" else "JD-UTC".

(** [to_csv_report], lines 247-273: the table written to [destination]. *)
Definition csv_report (self : observation) (sep : string)
  : result csv_file :=
  comparison_stars ← getitem (comps self) (aperture self);
  let list_diff :=
    map (fun i : nat => "DIFF_FLUX_C" +:+ pretty i) comparison_stars in
  let list_err :=
    map (fun i : nat => "DIFF_ERROR_C" +:+ pretty i) comparison_stars in
  list_columns ← interleave_slots list_diff list_err;
  list_diff_array ←
    comprehension
      (fun i => m ← getitem (diff_fluxes self) (aperture self); getitem m i)
      comparison_stars;
  list_err_array ←
    comprehension
      (fun i => m ← getitem (diff_errors self) (aperture self); getitem m i)
      comparison_stars;
  list_columns_array ← interleave_slots list_diff_array list_err_array;
  let d :=
    dict_update []
      ([ (Some (time_column self), Some (time self));
         (Some "DIFF_FLUX_T1", Some (diff_flux self));
         (Some "DIFF_ERROR_T1", Some (diff_error self)) ]
       ++ dict_update [] (zip list_columns list_columns_array)
       ++ [ (Some "dx", Some (dx self));
            (Some "dy", Some (dy self));
            (Some "FWHM", Some (fwhm self));
            (Some "SKYLEVEL", Some (sky self));
            (Some "AIRMASS", Some (airmass self));
            (Some "EXPOSURE", Some (exptime self)) ]) in
  df ← dataframe d;
  Ok {| csv_sep := sep; csv_header := map fst df;
        csv_rows := frame_rows df |}.

(** *** The file system and the effects of [make] *)

(** An absolute, normalised path: its components from the root. *)
Definition path : Type := list string.

Inductive content : Type :=
| Bytes (s : string)
| Table (c : csv_file).

Inductive node : Type :=
| Dir
| File (c : content).

(** What [make] does to the outside, in the order it does it. *)
Inductive effect : Type :=
| Mkdir (p : path)
| Savefig (p : path)
| ToCsv (p : path)
| Copyfile (src dst : path)
| WriteText (p : path).

Record world : Type := {
  w_fs : gmap path node;
  w_log : list effect;
}.

Definition emit (e : effect) : prog world unit := fun w =>
  ({| w_fs := w_fs w; w_log := w_log w ++ [e] |}, Ok tt).

Definition store (p : path) (n : node) : prog world unit := fun w =>
  ({| w_fs := <[p := n]> (w_fs w); w_log := w_log w |}, Ok tt).

Definition is_dir (w : world) (p : path) : bool :=
  match p with
  | [] => true
  | _ => match w_fs w !! p with Some Dir => true | _ => false end
  end.

(** [path.exists(p)] *)
Definition path_exists (p : path) : prog world bool := fun w =>
  (w, Ok (match p with
          | [] => true
          | _ => bool_decide (is_Some (w_fs w !! p))
          end)).

(** The folders above [p], from the root down. *)
Definition ancestors (p : path) : list path :=
  map (fun k => firstn k p) (seq 1 (length p - 1)).

(** A regular file stands where one of the folders above [p] is needed. *)
Definition under_file (w : world) (p : path) : bool :=
  existsb (fun q => match w_fs w !! q with
                    | Some (File _) => true
                    | _ => false
                    end)
          (ancestors p).

(** The exception of a system call that cannot reach [p], in a world where
    whatever exists lies in a folder that exists: [NotADirectoryError] when
    a regular file stands on the way, [FileNotFoundError] when a folder is
    missing. *)
Definition unreachable (w : world) (p : path) : exn :=
  if under_file w p then NotADirectoryError else FileNotFoundError.

(** [os.mkdir(p)] *)
Definition os_mkdir (p : path) : prog world unit := fun w =>
  match p with
  | [] => (w, Raise FileExistsError)
  | _ =>
      if bool_decide (is_Some (w_fs w !! p)) then (w, Raise FileExistsError)
      else if is_dir w (removelast p)
           then (store p Dir ≫= fun _ => emit (Mkdir p)) w
           else (w, Raise (unreachable w p))
  end.

(** Creating or truncating the file [p] and writing [c] to it. *)
Definition write_file (p : path) (c : content) (e : effect)
  : prog world unit :=
  fun w =>
    if is_dir w p then (w, Raise IsADirectoryError)
    else if is_dir w (removelast p)
         then (store p (File c) ≫= fun _ => emit e) w
         else (w, Raise (unreachable w p)).

(** [shutil.copyfile(src, dst)] *)
Definition copyfile (src dst : path) : prog world unit := fun w =>
  match w_fs w !! src with
  | Some (File c) => write_file dst c (Copyfile src dst) w
  | Some Dir => (w, Raise IsADirectoryError)
  | None => (w, Raise (unreachable w src))
  end.

(** The figures of the report. *)
Inductive plot_kind : Type :=
| Psf
| Comps
| Raw
| Syst
| Stars
| Lc
| LcModel (t0 duration : float).

(** What lies outside the repository: the plotting back end (the picture
    [plt.savefig] writes after a plot method ran, or the exception the
    method raised), the template engine and the folder of templates. *)
Record backend : Type := {
  draw : plot_kind -> result string;
  template_render : list (string * cell) -> string -> string -> string;
  template_folder : path;
}.

(** The attributes of an [ObservationReport] that [make] reads. *)
Record report : Type := {
  obs : observation;
  r_obstable : list (string * cell);
  r_description : string;
}.

(** [self.date[a:b]] *)
Definition slice (s : string) (a b : nat) : string :=
  String.substring a (b - a) s.

(** [__init__] *)
Definition init (np : numpy) (rt : runtime) (o : observation)
  : result report :=
  table ← obstable np rt o;
  Ok {| obs := o;
        r_obstable := table;
        r_description :=
          slice (date o) 0 4 +:+ " " +:+ slice (date o) 4 6 +:+ " "
          +:+ slice (date o) 6 (String.length (date o))
          +:+ " $\cdot$ " +:+ telescope_name o
          +:+ " $\cdot$ " +:+ filter_name o |}.

(** The paths [make_report_folder] stores on the report. *)
Record folders : Type := {
  destination : path;
  report_name : string;
  figure_destination : path;
  measurement_destination : path;
}.

(** [make_report_folder], lines 202-211. *)
Definition make_report_folder (dest : path) : prog world folders :=
  e ← path_exists dest;
  _ ← (if negb e then os_mkdir dest else mret tt);
  let name := List.last dest "" in
  let figs := dest ++ ["figures"] in
  e ← path_exists figs;
  _ ← (if negb e then os_mkdir figs else mret tt);
  mret {| destination := dest;
          report_name := name;
          figure_destination := figs;
          measurement_destination := dest ++ [name +:+ ".txt"] |}.

(** [self.plot_x(); plt.savefig(path.join(destination, name)); plt.close()] *)
Definition plot_and_save (bk : backend) (k : plot_kind) (dest : path)
    (name : string) : prog world unit :=
  png ← lift (draw bk k);
  write_file (dest ++ [name]) (Bytes png) (Savefig (dest ++ [name])).

(** The truth value of an optional float argument. *)
Definition truthy (x : option float) : bool :=
  match x with
  | None => false
  | Some v => negb (v =? 0)
  end.

(** [make_figures], lines 213-235. *)
Definition make_figures (bk : backend) (dest : path)
    (t0 duration : option float) : prog world unit :=
  _ ← plot_and_save bk Psf dest "psf.png";
  _ ← plot_and_save bk Comps dest "comparison.png";
  _ ← plot_and_save bk Raw dest "raw.png";
  _ ← plot_and_save bk Syst dest "systematics.png";
  _ ← plot_and_save bk Stars dest "stars.png";
  _ ← plot_and_save bk Lc dest "lightcurve.png";
  if truthy t0 && bool_decide (is_Some duration)
  then
    match t0, duration with
    | Some t, Some d => plot_and_save bk (LcModel t d) dest "model.png"
    | _, _ => mret tt
    end
  else mret tt.

(** [to_csv_report], writing to [dest]. *)
Definition to_csv_report (self : observation) (dest : path) (sep : string)
  : prog world unit :=
  c ← lift (csv_report self sep);
  write_file dest (Table c) (ToCsv dest).

(** [make], lines 275-287. *)
Definition make (bk : backend) (self : report) (dest : path)
    (t0 duration : option float) : prog world unit :=
  f ← make_report_folder dest;
  _ ← make_figures bk (figure_destination f) t0 duration;
  _ ← to_csv_report (obs self) (measurement_destination f) " ";
  _ ← copyfile (template_folder bk ++ ["prose-report.cls"])
               (dest ++ ["prose-report.cls"]);
  let tex_destination := destination f ++ [report_name f +:+ ".tex"] in
  write_file tex_destination
    (Bytes (template_render bk (r_obstable self)
              (target_name (obs self)) (r_description self)))
    (WriteText tex_destination).

End Report.
Export Report.

(** ** The ExoFOP upload ([prose/tess/reports/exofop_upload.py]) *)

Module Exofop.

Local Open Scope float_scope.

Record response : Type := {
  r_ok : bool;        (* the truth value of the response *)
  r_text : string;
}.

(** One request: [session.post(url, files=..., data=...)]. For a file the
    method passes [files = {'file_name': (open(name), 'rb')}], the open file
    and the text ['rb'], which is all [q_file] stands for: what the library
    makes of that pair is part of [server]. *)
Record request : Type := {
  q_url : string;
  q_file : option string;   (* the name of the file opened for [files] *)
  q_data : list (string * string);
}.

(** What [upload] sends and prints, in order. *)
Inductive event : Type :=
| Print (s : string)
| PrintFiles (fileName : string)   (* [print(files)]: the open file's repr *)
| Post (q : request).

(** [obs.night_date] *)
Record night : Type := {
  year : Z;
  month : Z;
  day : Z;
}.

(** Library routines and the outside world. *)
Record runtime : Type := {
  (** [str(x)] for a float *)
  str_float : float -> string;
  (** [round(x, n)] *)
  round_n : float -> Z -> float;
  (** [d.strftime(fmt)] *)
  strftime : night -> string -> string;
  (** what [session.post] does with a request: the answer of the service,
      or the exception [requests] raises, on the request or on the
      connection *)
  server : request -> result response;
  (** [(figures_path / name).is_file()] *)
  is_file : string -> bool;
  (** [figures_path.is_dir()] at the time of [upload] *)
  figures_is_dir : bool;
}.

(** The attributes of the uploader and of its observation. *)
Record uploader : Type := {
  toi : string;
  telescope : string;
  diameter : float;
  camera_name : string;
  filter : string;
  pixel_scale : float;
  mean_target_psf : float;
  optimal_aperture : float;
  obs_time : list float;
  night_date : night;
  tic_id : string;
  planet : string;
  name : string;
  delta_mag : float;
  transcov : string;
  notes : string;
  skip_summary_upload : bool;
  skip_file_upload : bool;
  username : option string;   (* [None] unless the caller gives one *)
  password : string;
  tag_number : Z;
  fileList : list string;
}.

Definition act : Type -> Type := prog (list event).

Definition print (s : string) : act unit := fun log =>
  (log ++ [Print s], Ok tt).

Definition print_files (fileName : string) : act unit := fun log =>
  (log ++ [PrintFiles fileName], Ok tt).

Definition post (rt : runtime) (q : request) : act response := fun log =>
  (log ++ [Post q], server rt q).

(** [s.lower()] on ASCII letters. *)
Definition lower_ascii (c : ascii) : ascii :=
  let n := nat_of_ascii c in
  if (65 <=? n)%nat && (n <=? 90)%nat then ascii_of_nat (n + 32) else c.

Fixpoint lower (s : string) : string :=
  match s with
  | EmptyString => EmptyString
  | String c s' => String (lower_ascii c) (lower s')
  end.

(** lines 139-164: the description of a file, from the end of its name. *)
Definition describe (fileName : string) : act string :=
  if endswith fileName "stars.png" then
    _ ← print "stars";
    _ ← print "Field Image with Apertures";
    mret "Field Image with Apertures"
  else if endswith fileName "model.png" then
    mret "Light curve plot target star with model"
  else if endswith fileName "psf.png" then
    mret "Seeing profile"
  else if endswith fileName "comparison.png" then
    mret "Light curve plot comparison stars"
  else if endswith fileName "systematics.png" then
    mret "AstroImageJ Photometry Aperture File"
  else if endswith fileName
            "Light curve plot target target star with systematics" then
    mret "AstroImageJ Plot Configuration File"
  else if endswith fileName "measurements.txt" then
    mret " Measurements Table"
  else if endswith fileName "lightcurve.png" then
    mret "Light curve plot target star"
  else mret "".

(** lines 138-197: the body of the loop over [self.fileList]. *)
Definition upload_file (rt : runtime) (toi tic tag : string)
    (fileName : string) : act unit :=
  if is_file rt fileName && startswith fileName "TIC"
     && negb (startswith fileName "TIC ")
  then
    description ← describe fileName;
    if String.eqb description "" then
      print ("******NOT UPLOADED: " +:+ fileName)
    else
      _ ← print (fileName +:+ " <class 'str'>");
      let payload :=
        [ ("file_type", "Light_Curve");
          ("planet", toi);
          ("file_desc", description);
          ("file_tag", tag);
          ("groupname", "tfopwg");
          ("propflag", "on");
          ("id", tic) ] in
      _ ← print toi;
      _ ← print tic;
      _ ← print description;
      _ ← print_files fileName;
      response3 ←
        post rt {| q_url := "https://exofop.ipac.caltech.edu/tess/insert_file.php";
                   q_file := Some fileName;
                   q_data := payload |};
      _ ← print (r_text response3);
      _ ← (if r_ok response3
           then print ("Uploading file: " +:+ fileName)
           else print ("ERROR: File upload failed: " +:+ fileName));
      print ("UPLOADED:" +:+ fileName)
  else print ("******NOT UPLOADED: " +:+ fileName).

(** line 87: the tag is put together with [+], which needs the user name
    to be a string. *)
Definition user_name (self : uploader) : result string :=
  match username self with
  | Some u => Ok u
  | None => Raise TypeError
  end.

(** [upload], lines 62-199. *)
Definition upload (rt : runtime) (self : uploader) : act unit :=
  let toi := "TOI" +:+ toi self in
  let observatory := telescope self in
  let telsize := str_float rt (diameter self / 100) in
  let camera := camera_name self in
  let filterband := filter self in
  let pixscale := str_float rt (pixel_scale self) in
  let psf :=
    str_float rt (round_n rt (mean_target_psf self * pixel_scale self) 2) in
  let photaprad := str_float rt (round_n rt (optimal_aperture self) 1) in
  obsstart ← lift (getitem (obs_time self) 0);
  obsend ← lift (getitem (obs_time self) (length (obs_time self) - 1));
  obsdur ← lift (pretty <$> py_round (abs ((obsend - obsstart) * 24 * 60)));
  let obsnum := pretty (Z.of_nat (length (obs_time self))) in
  let transcov :=
    if String.eqb (lower (transcov self)) "full" then "Full"
    else if String.eqb (lower (transcov self)) "ingress" then "Ingress"
    else if String.eqb (lower (transcov self)) "egress" then "Egress"
    else "Out of Transit" in
  let deltamag :=
    if delta_mag self =? 0 then "" else str_float rt (delta_mag self) in
  username ← lift (user_name self);
  let tag :=
    strftime rt (night_date self) "%Y%m%d" +:+ "_" +:+ username
    +:+ "_" +:+ observatory +:+ "_" +:+ pretty (tag_number self) in
  let tic := tic_id self in
  let entries :=
    [ ("planet", toi);
      ("tel", observatory);
      ("telsize", telsize);
      ("camera", camera);
      ("filter", filterband);
      ("pixscale", pixscale);
      ("psf", psf);
      ("photaprad", photaprad);
      ("obsdate", strftime rt (night_date self) "%Y-%m-%d");
      ("obsdur", obsdur);
      ("obsnum", obsnum);
      ("obstype", "Continuous");
      ("transcov", transcov);
      ("deltamag", deltamag);
      ("tag", tag);
      ("groupname", "tfopwg");
      ("notes", notes self);
      ("id", tic) ] in
  if figures_is_dir rt then
    let credentials :=
      [ ("username", username);
        ("password", password self);
        ("ref", "login_user");
        ("ref_page", "/tess/") ] in
    response1 ←
      post rt {| q_url := "https://exofop.ipac.caltech.edu/tess/password_check.php";
                 q_file := None;
                 q_data := credentials |};
    _ ← (if r_ok response1 then print "Login OK."
         else print "ERROR:  Login did not work.");
    _ ← (if negb (skip_summary_upload self) then
           response2 ←
             post rt {| q_url := "https://exofop.ipac.caltech.edu/tess/insert_tseries.php";
                        q_file := None;
                        q_data := entries |};
           if r_ok response2 then print "Added new Time Series..."
           else print "ERROR: Time Series Add failed."
         else print "Skipped observation summary upload per user request.");
    if negb (skip_file_upload self) then
      for_each (fileList self) (upload_file rt toi tic tag)
    else print "Skipped file uploads per user request."
  else mret tt.

(** The files sent by the requests of a log. *)
Definition posted_files (log : list event) : list string :=
  omap (fun e => match e with Post q => q_file q | _ => None end) log.

End Exofop.

(** ** Reference routines for evaluating examples

    Direct float64 versions of the library routines: summation from left to
    right (what numpy does on arrays of fewer than eight elements), the
    population standard deviation, the median of the sorted array, and
    equal-width bins whose last bin is closed on the right. *)

Module Ref.

Local Open Scope float_scope.

Definition count (l : list float) : float :=
  fold_left (fun n _ => n + 1) l 0.

Definition mean (l : list float) : float :=
  fold_left PrimFloat.add l 0 / count l.

Definition std (l : list float) : float :=
  let m := mean l in
  sqrt (mean (map (fun x => abs (x - m) * abs (x - m)) l)).

Definition sorted (l : list float) : list float :=
  map snd (sort_by_key (zip (seq 0 (length l)) l)).

Definition median (l : list float) : float :=
  let s := sorted l in
  let n := length s in
  if existsb is_nan l then nan
  else if Nat.even n
       then (nth (n / 2 - 1) s nan + nth (n / 2) s nan) / 2
       else nth (n / 2) s nan.

Definition minimum (l : list float) : float :=
  fold_left (fun m x => if x <? m then x else m) l infinity.

Definition maximum (l : list float) : float :=
  fold_left (fun m x => if m <? x then x else m) l neg_infinity.

(** The inner edges [lo + i * step], [0 < i < n]. *)
Definition inner_edges (lo hi : float) (n : nat) : list float :=
  let step := (hi - lo) / count (replicate n 0) in
  map (fun i => lo + count (replicate i 0) * step) (seq 1 (n - 1)).

Definition bin_of (edges : list float) (x : float) : nat :=
  length (filter (fun e => (e <=? x) = true) edges).

Definition binned (x values : list float) (n : Z) : result (list float) :=
  if (n <=? 0)%Z then Raise ValueError
  else if negb (Nat.eqb (length x) (length values)) then Raise ValueError
  else match x with
       | [] => Raise ValueError
       | _ =>
           let edges := inner_edges (minimum x) (maximum x) (Z.to_nat n) in
           Ok (map (fun b =>
                      match map snd (filter (fun xv => Nat.eqb (bin_of edges xv.1) b)
                                            (zip x values)) with
                      | [] => nan
                      | vs => std vs
                      end)
                   (seq 0 (Z.to_nat n)))
       end.

(** The conversion of a Julian date to a calendar time, for epochs that
    are whole microseconds: the day changes at noon, day 1 is the first of
    January of year 1 and day 3652059 the last of December of year 9999,
    the range of [datetime]. *)
Definition jd_to_datetime (jd : float) : result datetime :=
  us ← py_int ((jd + 0.5) * 86400000000);
  let ordinal := (us / 86400000000 - 1721425)%Z in
  if (1 <=? ordinal)%Z && (ordinal <=? 3652059)%Z
  then
    Ok {| dt_day := ordinal;
          dt_hour := (us / 3600000000) mod 24;
          dt_minute := (us / 60000000) mod 60;
          dt_second := (us / 1000000) mod 60;
          dt_microsecond := us mod 1000000 |}%Z
  else Raise ValueError.

(** [|x| * scale] rounded to the nearest integer, ties to even, with the
    sign of [x]; nothing for an infinity or a NaN. *)
Definition scaled (x : float) (scale : Z) : option (bool * Z) :=
  match Prim2SF x with
  | S754_zero s => Some (s, 0%Z)
  | S754_finite s m e =>
      let num := (Z.pos m * scale)%Z in
      if (0 <=? e)%Z then Some (s, (num * 2 ^ e)%Z)
      else
        let d := (2 ^ (- e))%Z in
        let q := (num / d)%Z in
        let r := (num mod d)%Z in
        Some (s, if (2 * r <? d)%Z then q
                 else if (d <? 2 * r)%Z then (q + 1)%Z
                 else if Z.even q then q else (q + 1)%Z)
  | _ => None
  end.

Definition zero_pad (width : nat) (s : string) : string :=
  String.concat "" (replicate (width - String.length s) "0") +:+ s.

(** [f"{x:.2f}"]: two decimals of the exact value, ties to even. *)
Definition format_2f (x : float) : string :=
  match scaled x 100 with
  | Some (s, n) =>
      (if s then "-" else "") +:+ pretty (n / 100)%Z +:+ "."
      +:+ zero_pad 2 (pretty (n mod 100)%Z)
  | None =>
      match Prim2SF x with
      | S754_infinity s => (if s then "-" else "") +:+ "inf"
      | _ => "nan"
      end
  end.

(** [2^e] and [10^e] as rationals. *)
Definition two_to (e : Z) : Q :=
  if (0 <=? e)%Z then inject_Z (2 ^ e) else 1 # Z.to_pos (2 ^ (- e)).

Definition ten_to (e : Z) : Q :=
  if (0 <=? e)%Z then inject_Z (10 ^ e) else 1 # Z.to_pos (10 ^ (- e)).

(** The decimal exponent [k] of a positive rational:
    [10^(k-1) <= x < 10^k]. *)
Fixpoint decimal_exponent (fuel : nat) (x : Q) (k : Z) : Z :=
  match fuel with
  | O => k
  | S fuel' =>
      if Qle_bool (ten_to k) x then decimal_exponent fuel' x (k + 1)
      else if Qle_bool (ten_to (k - 1)) x then k
           else decimal_exponent fuel' x (k - 1)
  end.

(** The numbers that read back as the float [m * 2^e]: those nearer to it
    than to its neighbours, and the midpoints when [m] is even. *)
Definition rounds_to (m : positive) (e : Z) (c : Q) : bool :=
  let x := (inject_Z (Z.pos m) * two_to e)%Q in
  let below := if (Z.pos m =? 2 ^ 52)%Z && (-1074 <? e)%Z
               then two_to (e - 2) else two_to (e - 1) in
  let lo := (x - below)%Q in
  let hi := (x + two_to (e - 1))%Q in
  if Z.even (Z.pos m) then Qle_bool lo c && Qle_bool c hi
  else negb (Qle_bool c lo) && negb (Qle_bool hi c).

(** The shortest decimal that reads back as [m * 2^e], the nearest one when
    there are two: its digits, as an integer, and the power of ten they are
    scaled by. *)
Fixpoint shortest (fuel : nat) (m : positive) (e k : Z) (n : Z) : Z * Z :=
  let x := (inject_Z (Z.pos m) * two_to e)%Q in
  let scale := ten_to (k - n) in
  let d := Qfloor (x / scale) in
  let fits d := rounds_to m e (inject_Z d * scale) in
  let nearer :=
    Qle_bool (x - inject_Z d * scale) (inject_Z (d + 1) * scale - x) in
  match fuel with
  | O => (d, k - n)%Z
  | S fuel' =>
      if fits d && fits (d + 1)%Z
      then (if nearer then d else d + 1, k - n)%Z
      else if fits d then (d, k - n)%Z
      else if fits (d + 1)%Z then (d + 1, k - n)%Z
      else shortest fuel' m e k (n + 1)%Z
  end.

(** Dropping the zeros at the end of [d * 10^p]. *)
Fixpoint strip_zeros (fuel : nat) (d p : Z) : Z * Z :=
  match fuel with
  | O => (d, p)
  | S fuel' =>
      if (d mod 10 =? 0)%Z && negb (d =? 0)%Z
      then strip_zeros fuel' (d / 10)%Z (p + 1)%Z
      else (d, p)
  end.

(** [str(x)]: the shortest decimal that reads back as [x], in positional
    notation when its decimal point lies within sixteen digits to the right
    and four zeros to the left, in exponent notation otherwise. *)
Definition str (x : float) : string :=
  match Prim2SF x with
  | S754_zero s => (if s then "-" else "") +:+ "0.0"
  | S754_finite s m e =>
      let xq := (inject_Z (Z.pos m) * two_to e)%Q in
      let k := decimal_exponent 700 xq 0 in
      let '(d, p) := shortest 17 m e k 1 in
      let '(d, p) := strip_zeros 20 d p in
      let digits := pretty d in
      let len := Z.of_nat (String.length digits) in
      let decpt := (len + p)%Z in
      (if s then "-" else "") +:+
      (if (decpt <=? -4)%Z || (16 <? decpt)%Z then
         String.substring 0 1 digits
         +:+ (if (1 <? len)%Z
              then "." +:+ String.substring 1 (String.length digits - 1) digits
              else "")
         +:+ "e" +:+ (if (decpt - 1 <? 0)%Z then "-" else "+")
         +:+ zero_pad 2 (pretty (Z.abs (decpt - 1)))
       else if (decpt <=? 0)%Z then
         "0." +:+ String.concat "" (replicate (Z.to_nat (- decpt)) "0")
         +:+ digits
       else if (len <=? decpt)%Z then
         digits +:+ String.concat "" (replicate (Z.to_nat (decpt - len)) "0")
         +:+ ".0"
       else
         String.substring 0 (Z.to_nat decpt) digits +:+ "."
         +:+ String.substring (Z.to_nat decpt)
               (String.length digits - Z.to_nat decpt) digits)
  | S754_infinity s => (if s then "-" else "") +:+ "inf"
  | S754_nan => "nan"
  end.

(** [round(x, 2)] of a numpy float: [rint(x * 100) / 100]. *)
Definition rint (y : float) : float :=
  if abs y <? 0x1p52 then
    let r := (abs y + 0x1p52) - 0x1p52 in
    if y <? 0 then - r else r
  else y.

Definition round_2 (x : float) : float := rint (x * 100) / 100.

Definition runtime : Report.runtime :=
  {| to_datetime := jd_to_datetime;
     fmt_2f := format_2f;
     Report.str_float := str;
     round2 := round_2 |}.

Definition numpy : Np.numpy :=
  {| np_mean := mean; np_median := median; binned_std := binned |}.

(** Four epochs, three stars, two apertures. *)
Definition demo : observation :=
  {| time := [2459000.5; 2459000.75; 2459001; 2459001.25];
     exptime := [21600; 21600; 21600; 21600];
     sky := [8; 8; 8; 8];
     dx := [0; 0.5; 0; 0.5];
     dy := [0; 0; 0.5; 0.5];
     fwhm := [2; 2; 4; 4];
     airmass := [1; 1.5; 1.5; 2];
     raw_fluxes := [ [[3; 5; 3; 5]; [2; 2; 2; 2]; [1; 3; 1; 3]];
                     [[6; 10; 6; 10]; [4; 4; 4; 4]; [2; 6; 2; 6]] ];
     raw_errors := [ [[0.5; 0.5; 0.5; 0.5]; [1; 1; 1; 1]; [0.25; 0.25; 0.25; 0.25]];
                     [[1; 1; 1; 1]; [1; 1; 1; 1]; [1; 1; 1; 1]] ];
     apertures_area := [[2; 8]];
     apertures_radii := [[1.5; 3]];
     lcs := Some {| best_aperture_id := 0%nat |};
     aperture := 0%nat;
     comps := [[2; 1]; [1]]%nat;
     diff_fluxes := [ [[1; 1; 1; 1]; [1; 0.5; 1; 0.5]; [0.5; 1; 0.5; 1]];
                      [[1; 1; 1; 1]; [1; 1; 1; 1]; [1; 1; 1; 1]] ];
     diff_errors := [ [[0; 0; 0; 0]; [0.25; 0.25; 0.25; 0.25]; [0.5; 0.5; 0.5; 0.5]];
                      [[0; 0; 0; 0]; [0; 0; 0; 0]; [0; 0; 0; 0]] ];
     diff_flux := [1; 1; 1; 1];
     diff_error := [0; 0; 0; 0];
     time_format := "bjd_tdb";
     RA := "10:00:00";
     DEC := "-20:00:00";
     telescope_name := "Trappist-South";
     filter_name := "I+z";
     target_name := "TOI-1234";
     date := "20210315" |}.

(** [round(x, n)] for one or two decimals, and the three date formats the
    upload uses. *)
Definition round_to (x : float) (n : Z) : float :=
  if (n =? 1)%Z then rint (x * 10) / 10
  else if (n =? 2)%Z then round_2 x
  else x.

Definition format_date (d : Exofop.night) (fmt : string) : string :=
  let y := zero_pad 4 (pretty (Exofop.year d)) in
  let m := zero_pad 2 (pretty (Exofop.month d)) in
  let dd := zero_pad 2 (pretty (Exofop.day d)) in
  if String.eqb fmt "%Y%m%d" then y +:+ m +:+ dd
  else if String.eqb fmt "%Y-%m-%d" then y +:+ "-" +:+ m +:+ "-" +:+ dd
  else if String.eqb fmt "%Y.%m.%d" then y +:+ "." +:+ m +:+ "." +:+ dd
  else fmt.

(** A service that accepts every request, and a figures folder that holds
    every file of the list. *)
Definition service : Exofop.runtime :=
  {| Exofop.str_float := str;
     Exofop.round_n := round_to;
     Exofop.strftime := format_date;
     Exofop.server := fun _ => Ok {| Exofop.r_ok := true;
                                     Exofop.r_text := "OK" |};
     Exofop.is_file := fun _ => true;
     Exofop.figures_is_dir := true |}.

Definition uploader : Exofop.uploader :=
  {| Exofop.toi := "1234.01";
     Exofop.telescope := "Trappist-South";
     Exofop.diameter := 60;
     Exofop.camera_name := "FLI";
     Exofop.filter := "I+z";
     Exofop.pixel_scale := 0.625;
     Exofop.mean_target_psf := 4;
     Exofop.optimal_aperture := 7.5;
     Exofop.obs_time := [2459000.5; 2459000.75; 2459001; 2459001.25];
     Exofop.night_date := {| Exofop.year := 2021; Exofop.month := 3;
                             Exofop.day := 15 |};
     Exofop.tic_id := "123456789";
     Exofop.planet := "01";
     Exofop.name := "TOI-1234";
     Exofop.delta_mag := 0;
     Exofop.transcov := "full";
     Exofop.notes := "";
     Exofop.skip_summary_upload := false;
     Exofop.skip_file_upload := false;
     Exofop.username := Some "observer";
     Exofop.password := "secret";
     Exofop.tag_number := 1;
     Exofop.fileList :=
       [ "TIC123456789_stars.png";
         "TIC123456789_stars.png.bak";
         "stars.png";
         "TIC 123456789_psf.png";
         "TIC123456789_lightcurve.png" ] |}.

(** The table the report of [demo] writes. *)
Definition demo_csv : csv_file :=
  Eval vm_compute in
    match csv_report demo " " with
    | Ok c => c
    | Raise _ => {| csv_sep := ""; csv_header := []; csv_rows := [] |}
    end.

(** A world with the package's templates and an empty home folder, a back
    end that draws every figure, and a report of [demo]. *)
Definition world0 : world :=
  {| w_fs := list_to_map
               [ (["pkg"], Dir);
                 (["pkg"; "latex"], Dir);
                 (["pkg"; "latex"; "prose-report.cls"], File (Bytes "cls"));
                 (["home"], Dir) ];
     w_log := [] |}.

Definition backend0 : backend :=
  {| draw := fun k =>
       Ok match k with
          | Psf => "psf"
          | Comps => "comps"
          | Raw => "raw"
          | Syst => "syst"
          | Stars => "stars"
          | Lc => "lc"
          | LcModel _ _ => "model"
          end;
     template_render := fun _ target description =>
       target +:+ ": " +:+ description;
     template_folder := ["pkg"; "latex"] |}.

Definition report0 : report :=
  {| obs := demo;
     r_obstable := [("TIC ID", CNone)];
     r_description := "2021 03 15" |}.

End Ref.


(** ** Vocabulary of the statements *)

Module Props.

Local Open Scope float_scope.

Definition no_aperture_msg : string :=
  "You must set 'aperture' kwargs (light-curve not present to pick best aperture id)".

Definition bins_msg : string :=
  "Your 'bins' size is less than the total exposure".

(** A star of one aperture: its flux and error time series and the median
    of the binned standard deviations of its flux. *)
Record star : Type := {
  st_flux : list float;
  st_error : list float;
  st_rms : float;
}.

Definition stars_of (fluxes errors : list (list float)) (rms : list float)
  : list star :=
  zip_with (fun f er => {| st_flux := f; st_error := er.1; st_rms := er.2 |})
           fluxes (zip errors rms).

(** The empirical inverse signal-to-noise of a star. *)
Definition inv_snr (np : numpy) (s : star) : float :=
  st_rms s / np_mean np (st_flux s).

Definition positive_snr (np : numpy) (s : star) : Prop :=
  (0 <? inv_snr np s) = true.

#[export] Instance positive_snr_dec np s : Decision (positive_snr np s).
Proof. unfold positive_snr. apply _. Defined.

(** A curve over a list of stars: [np.log] of the mean flux against [y]. *)
Definition curve (np : numpy) (fmt label : string) (stars : list star)
    (y : star -> float) : series :=
  {| s_x := map (fun s => np_log (np_mean np (st_flux s))) stars;
     s_y := map y stars;
     s_fmt := fmt;
     s_label := label |}.

(** Ascending mean flux, in the order numpy sorts by. *)
Definition ascending (np : numpy) (stars : list star) : Prop :=
  Sorted (fun s t => np_le (np_mean np (st_flux s))
                           (np_mean np (st_flux t)) = true) stars.

(** The elements of [l] at the positions [idxs], in the order of [idxs]. *)
Definition pick {A} (l : list A) (idxs : list nat) : list A :=
  omap (l !!.) idxs.

Definition key_le (p q : nat * float) : Prop := np_le p.2 q.2 = true.

(** [x0; y0; x1; y1; ...] *)
Fixpoint interleave {A} (xs ys : list A) : list A :=
  match xs, ys with
  | x :: xs', y :: ys' => x :: y :: interleave xs' ys'
  | _, _ => []
  end.

(** [l] with [xs] written over its elements at even positions. *)
Fixpoint set_evens {A} (xs l : list A) : list A :=
  match xs, l with
  | x :: xs', _ :: b :: l' => x :: b :: set_evens xs' l'
  | x :: _, [_] => [x]
  | _, _ => l
  end.

(** The distinct elements of a list, each at its first occurrence. *)
Definition first_occurrences (l : list nat) : list nat :=
  fold_left (fun acc i => if decide (i ∈ acc) then acc else acc ++ [i])
            l [].

(** The two columns of comparison star [i], with their data. *)
Definition star_columns (flux err : nat -> list float) (i : nat)
  : list (string * list float) :=
  [ ("DIFF_FLUX_C" +:+ pretty i, flux i);
    ("DIFF_ERROR_C" +:+ pretty i, err i) ].

(** A table of named arrays as the dictionary handed to pandas. *)
Definition as_frame (table : list (string * list float))
  : list (colname * column) :=
  map (fun c => (Some c.1, Some c.2)) table.

(** [self.diff_fluxes[self.aperture, i]] and
    [self.diff_errors[self.aperture, i]]; empty when out of range. *)
Definition star_flux (self : observation) (i : nat) : list float :=
  default [] (diff_fluxes self !! aperture self ≫= (.!! i)).

Definition star_error (self : observation) (i : nat) : list float :=
  default [] (diff_errors self !! aperture self ≫= (.!! i)).

(** [d] is one of [l], and none of [l] is before it. *)
Definition earliest (d : datetime) (l : list datetime) : Prop :=
  d ∈ l /\ Forall (fun x => (micros d <= micros x)%Z) l.

(** [d] is one of [l], and none of [l] is after it. *)
Definition latest (d : datetime) (l : list datetime) : Prop :=
  d ∈ l /\ Forall (fun x => (micros x <= micros d)%Z) l.

(** The ends of file names the upload has a description for. *)
Definition recognized_suffixes : list string :=
  [ "stars.png"; "model.png"; "psf.png"; "comparison.png";
    "systematics.png";
    "Light curve plot target target star with systematics";
    "measurements.txt"; "lightcurve.png" ].

(** The name starts with [TIC] and not with [TIC ] followed by a space. *)
Definition tic_prefixed (fileName : string) : bool :=
  startswith fileName "TIC" && negb (startswith fileName "TIC ").

(** The files the loop over the file list sends. *)
Definition eligible (rt : Exofop.runtime) (fileName : string) : bool :=
  Exofop.is_file rt fileName && tic_prefixed fileName
  && existsb (endswith fileName) recognized_suffixes.

Definition not_uploaded (fileName : string) : Exofop.event :=
  Exofop.Print ("******NOT UPLOADED: " +:+ fileName).

(** [path.exists(p)] in a world. *)
Definition exists_in (w : world) (p : path) : bool :=
  match p with
  | [] => true
  | _ => bool_decide (is_Some (w_fs w !! p))
  end.

(** Whatever exists in [w] outside the paths [ps] is the same in [w']. *)
Definition keeps (w w' : world) (ps : list path) : Prop :=
  forall p n, w_fs w !! p = Some n -> p ∉ ps -> w_fs w' !! p = Some n.

(** The figures [make_figures] saves, in order. *)
Definition figure_names (t0 duration : option float) : list string :=
  [ "psf.png"; "comparison.png"; "raw.png"; "systematics.png";
    "stars.png"; "lightcurve.png" ]
  ++ (if truthy t0 && bool_decide (is_Some duration) then ["model.png"]
      else []).

(** Row [r] of a table: the value of each column at index [r]. *)
Definition table_row (table : list (string * list float)) (r : nat)
  : list (option float) :=
  map (fun c : string * list float => c.2 !! r) table.

End Props.
Import Props.

(** ** Vocabulary of the statements about the upload's requests *)

Module Sent.

(** The requests of a log, in the order they were sent. *)
Definition requests (log : list Exofop.event) : list Exofop.request :=
  omap (fun e => match e with Exofop.Post q => Some q | _ => None end) log.

(** The same runtime with another service behind it. *)
Definition with_server (rt : Exofop.runtime)
    (srv : Exofop.request -> result Exofop.response) : Exofop.runtime :=
  {| Exofop.str_float := Exofop.str_float rt;
     Exofop.round_n := Exofop.round_n rt;
     Exofop.strftime := Exofop.strftime rt;
     Exofop.server := srv;
     Exofop.is_file := Exofop.is_file rt;
     Exofop.figures_is_dir := Exofop.figures_is_dir rt |}.

(** A service that answers every request, whatever the answer says. *)
Definition answers (srv : Exofop.request -> result Exofop.response) : Prop :=
  forall q, exists r, srv q = Ok r.

(** The names of the fields of a request's form. *)
Definition keys (q : Exofop.request) : list string :=
  map fst (Exofop.q_data q).

Definition login_url : string :=
  "https://exofop.ipac.caltech.edu/tess/password_check.php".

Definition summary_url : string :=
  "https://exofop.ipac.caltech.edu/tess/insert_tseries.php".

Definition file_url : string :=
  "https://exofop.ipac.caltech.edu/tess/insert_file.php".

(** The description [upload] finds for a file name. *)
Definition description_of (fileName : string) : string :=
  match (Exofop.describe fileName []).2 with
  | Ok d => d
  | Raise _ => ""
  end.

(** The request that sends one file. *)
Definition file_request (toi tic tag fileName : string) : Exofop.request :=
  {| Exofop.q_url := file_url;
     Exofop.q_file := Some fileName;
     Exofop.q_data :=
       [ ("file_type", "Light_Curve");
         ("planet", toi);
         ("file_desc", description_of fileName);
         ("file_tag", tag);
         ("groupname", "tfopwg");
         ("propflag", "on");
         ("id", tic) ] |}.

(** The request that logs in; it is sent only with a user name. *)
Definition login_request (self : Exofop.uploader) : Exofop.request :=
  {| Exofop.q_url := login_url;
     Exofop.q_file := None;
     Exofop.q_data :=
       [ ("username", default "" (Exofop.username self));
         ("password", Exofop.password self);
         ("ref", "login_user");
         ("ref_page", "/tess/") ] |}.

(** Line 73 before the rounding: the minutes between the first and the
    last epoch. *)
Definition span_minutes (self : Exofop.uploader) : option float :=
  first ← head (Exofop.obs_time self);
  final ← last (Exofop.obs_time self);
  Some (abs ((final - first) * 24 * 60))%float.

(** Lines 71-87, which may raise before anything is sent or printed: the
    epochs are read, the span is rounded and the tag is put together. The
    result is the rounded span and the user name. *)
Definition preamble (self : Exofop.uploader) : result (string * string) :=
  obsstart ← getitem (Exofop.obs_time self) 0;
  obsend ← getitem (Exofop.obs_time self)
             (length (Exofop.obs_time self) - 1);
  obsdur ← pretty <$> py_round (abs ((obsend - obsstart) * 24 * 60))%float;
  username ← Exofop.user_name self;
  Ok (obsdur, username).

(** The coverage the summary is sent with, for a [transcov] argument. *)
Definition coverage (transcov : string) : string :=
  if String.eqb (Exofop.lower transcov) "full" then "Full"
  else if String.eqb (Exofop.lower transcov) "ingress" then "Ingress"
  else if String.eqb (Exofop.lower transcov) "egress" then "Egress"
  else "Out of Transit".

End Sent.
Import Sent.

(** ** Examples for the statements about the upload's requests *)

Module Services.

(** A service that answers every request with a refusal. *)
Definition refusing : Exofop.request -> result Exofop.response :=
  fun _ => Ok {| Exofop.r_ok := false; Exofop.r_text := "denied" |}.

(** A service that accepts every request. *)
Definition accepting : Exofop.request -> result Exofop.response :=
  fun _ => Ok {| Exofop.r_ok := true; Exofop.r_text := "OK" |}.

(** A service whose connection breaks when a file arrives. *)
Definition breaking : Exofop.request -> result Exofop.response :=
  fun q => match Exofop.q_file q with
           | Some _ => Raise ConnectionError
           | None => Ok {| Exofop.r_ok := true; Exofop.r_text := "OK" |}
           end.

(** The uploader of [Ref.uploader] with another [transcov] argument and
    other skip flags. *)
Definition uploader (transcov : string) (skip_summary skip_file : bool)
  : Exofop.uploader :=
  {| Exofop.toi := Exofop.toi Ref.uploader;
     Exofop.telescope := Exofop.telescope Ref.uploader;
     Exofop.diameter := Exofop.diameter Ref.uploader;
     Exofop.camera_name := Exofop.camera_name Ref.uploader;
     Exofop.filter := Exofop.filter Ref.uploader;
     Exofop.pixel_scale := Exofop.pixel_scale Ref.uploader;
     Exofop.mean_target_psf := Exofop.mean_target_psf Ref.uploader;
     Exofop.optimal_aperture := Exofop.optimal_aperture Ref.uploader;
     Exofop.obs_time := Exofop.obs_time Ref.uploader;
     Exofop.night_date := Exofop.night_date Ref.uploader;
     Exofop.tic_id := Exofop.tic_id Ref.uploader;
     Exofop.planet := Exofop.planet Ref.uploader;
     Exofop.name := Exofop.name Ref.uploader;
     Exofop.delta_mag := Exofop.delta_mag Ref.uploader;
     Exofop.transcov := transcov;
     Exofop.notes := Exofop.notes Ref.uploader;
     Exofop.skip_summary_upload := skip_summary;
     Exofop.skip_file_upload := skip_file;
     Exofop.username := Exofop.username Ref.uploader;
     Exofop.password := Exofop.password Ref.uploader;
     Exofop.tag_number := Exofop.tag_number Ref.uploader;
     Exofop.fileList := Exofop.fileList Ref.uploader |}.

(** The uploader of [Ref.uploader] with other epochs and another user
    name. *)
Definition uploader_of (obs_time : list float) (username : option string)
  : Exofop.uploader :=
  {| Exofop.toi := Exofop.toi Ref.uploader;
     Exofop.telescope := Exofop.telescope Ref.uploader;
     Exofop.diameter := Exofop.diameter Ref.uploader;
     Exofop.camera_name := Exofop.camera_name Ref.uploader;
     Exofop.filter := Exofop.filter Ref.uploader;
     Exofop.pixel_scale := Exofop.pixel_scale Ref.uploader;
     Exofop.mean_target_psf := Exofop.mean_target_psf Ref.uploader;
     Exofop.optimal_aperture := Exofop.optimal_aperture Ref.uploader;
     Exofop.obs_time := obs_time;
     Exofop.night_date := Exofop.night_date Ref.uploader;
     Exofop.tic_id := Exofop.tic_id Ref.uploader;
     Exofop.planet := Exofop.planet Ref.uploader;
     Exofop.name := Exofop.name Ref.uploader;
     Exofop.delta_mag := Exofop.delta_mag Ref.uploader;
     Exofop.transcov := Exofop.transcov Ref.uploader;
     Exofop.notes := Exofop.notes Ref.uploader;
     Exofop.skip_summary_upload := Exofop.skip_summary_upload Ref.uploader;
     Exofop.skip_file_upload := Exofop.skip_file_upload Ref.uploader;
     Exofop.username := username;
     Exofop.password := Exofop.password Ref.uploader;
     Exofop.tag_number := Exofop.tag_number Ref.uploader;
     Exofop.fileList := Exofop.fileList Ref.uploader |}.

(** The second request of a run. *)
Definition second_request (rt : Exofop.runtime) (self : Exofop.uploader)
  : Exofop.request :=
  nth 1 (requests (Exofop.upload rt self []).1) (login_request self).

End Services.

(** ** Vocabulary of the statements about a failing [make] *)

Module Failure.





(** [d] with [days] more days on its date. *)
Definition days_later (d : datetime) (days : Z) : datetime :=
  {| dt_day := dt_day d + days;
     dt_hour := dt_hour d;
     dt_minute := dt_minute d;
     dt_second := dt_second d;
     dt_microsecond := dt_microsecond d |}.


End Failure.
Import Failure.

(** ** More of the Python runtime *)

Module Seq.

Local Open Scope float_scope.

(** A bound of a slice over a sequence of length [len]: a negative bound
    counts from the end, and the bound is then brought into [0, len]. *)
Definition clamp (len i : Z) : nat :=
  Z.to_nat (Z.min len (Z.max 0 (if (i <? 0)%Z then i + len else i)%Z)).

(** [l[start:stop]] *)
Definition py_slice {A} (l : list A) (start stop : Z) : list A :=
  let len := Z.of_nat (length l) in
  firstn (clamp len stop - clamp len start) (skipn (clamp len start) l).

(** [l[i]] for an integer that may be negative. *)
Definition py_index {A} (l : list A) (i : Z) : result A :=
  let len := Z.of_nat (length l) in
  let j := (if (i <? 0)%Z then i + len else i)%Z in
  if (0 <=? j)%Z then getitem l (Z.to_nat j) else Raise IndexError.

(** [float(i)] for an integer below 2^63 in magnitude. *)
Definition py_float (i : Z) : float :=
  match i with
  | Z0 => 0
  | Zpos _ => of_uint63 (Uint63.of_Z i)
  | Zneg p => - of_uint63 (Uint63.of_Z (Zpos p))
  end.

(** [a.min()] and [a.max()] of a one-dimensional array: NaN wins, and an
    empty array raises. *)
Definition np_amin (a : list float) : result float :=
  match a with
  | [] => Raise ValueError
  | x :: a' => Ok (fold_left np_min2 a' x)
  end.

Definition np_amax (a : list float) : result float :=
  match a with
  | [] => Raise ValueError
  | x :: a' => Ok (fold_left np_max2 a' x)
  end.

(** [np.nonzero(a)[0]]: the positions of the values that differ from zero,
    in ascending order. *)
Definition np_nonzero (a : list float) : list nat :=
  map fst (filter (fun p => (p.2 =? 0) = false) (zip (seq 0 (length a)) a)).

(** [np.argwhere(mask).flatten()] for a one-dimensional mask. *)
Definition np_argwhere (mask : list bool) : list nat :=
  map fst (filter (fun p => p.2 = true) (zip (seq 0 (length mask)) mask)).

(** [dict(pairs)[key]] *)
Definition dict_get {V} (d : list (string * V)) (key : string) : option V :=
  snd <$> find (fun kv => String.eqb kv.1 key) d.

End Seq.
Export Seq.

(** ** Exceptions beyond the ones above *)

Module Exc.

Inductive error : Type :=
| Std (e : exn)
| UnboundLocalError (name : string).

Coercion Std : exn >-> error.

Inductive outcome (A : Type) : Type :=
| Return (a : A)
| Throw (e : error).
Arguments Return {A} a.
Arguments Throw {A} e.

#[export] Instance outcome_ret : MRet outcome := fun _ a => Return a.
#[export] Instance outcome_bind : MBind outcome := fun _ _ f m =>
  match m with
  | Return a => f a
  | Throw e => Throw e
  end.

(** A method that acts on a state and may raise any of these. *)
Definition action (S A : Type) : Type := S -> S * outcome A.

#[export] Instance action_ret {S} : MRet (action S) :=
  fun _ a s => (s, Return a).
#[export] Instance action_bind {S} : MBind (action S) := fun _ _ f m s =>
  match m s with
  | (s', Return a) => f a s'
  | (s', Throw e) => (s', Throw e)
  end.

Definition std {A} (r : result A) : outcome A :=
  match r with
  | Ok a => Return a
  | Raise e => Throw (Std e)
  end.

Definition throw {S A} (e : error) : action S A := fun s => (s, Throw e).

(** A computation without effect, inside a method. *)
Definition pure {S A} (r : result A) : action S A := fun s => (s, std r).

(** A recorded call: the state is the list of calls made so far. *)
Definition call {C} (c : C) : action (list C) unit :=
  fun s => (s ++ [c], Return tt).

End Exc.
Export Exc.

(** ** More of the observation ([prose/observation.py]) *)

Module Views.

Local Open Scope float_scope.

(** *** [save_mcmc_file], lines 68-90 *)

(** [self.lc]: the differential light curve of the target. *)
Record light_curve : Type := {
  lc_flux : list float;
  lc_error : list float;
}.

(** [products_denominator], lines 121-128; [observation_date] is
    [self.observation_date.strftime(format="%Y%m%d")] and [target] is
    [self.target["name"]]. *)
Definition products_denominator (self : observation)
    (observation_date target : string) : string :=
  telescope_name self +:+ "_" +:+ observation_date +:+ "_" +:+ target
  +:+ "_" +:+ filter_name self.

(** The dictionary handed to [pd.DataFrame], lines 73-85. *)
Definition mcmc_columns (self : observation) (lc : light_curve)
  : list (colname * column) :=
  dict_update []
    [ (Some "BJD-TDB", Some (time self));
      (Some "DIFF_FLUX", Some (lc_flux lc));
      (Some "ERROR", Some (lc_error lc));
      (Some "dx_MOVE", Some (dx self));
      (Some "dy_MOVE", Some (dy self));
      (Some "FWHM", Some (fwhm self));
      (Some "FWHMx", Some (fwhm self));
      (Some "FWHMy", Some (fwhm self));
      (Some "SKYLEVEL", Some (sky self));
      (Some "AIRMASS", Some (airmass self));
      (Some "EXPOSURE", Some (exptime self)) ].

(** [save_mcmc_file]: the name of the file written and the table written
    to it. *)
Definition save_mcmc_file (self : observation) (lc : light_curve)
    (observation_date target : string) (destination : string)
  : result (string * csv_file) :=
  _ ← py_assert (bool_decide (is_Some (lcs self))) "Lightcurve is missing";
  df ← dataframe (mcmc_columns self lc);
  Ok (destination +:+ "/MCMC_"
      +:+ products_denominator self observation_date target +:+ ".txt",
      {| csv_sep := " "; csv_header := map fst df;
         csv_rows := frame_rows df |}).

(** *** [show_stars], lines 166-213 *)

(** What [show_stars] reads besides the comparison stars. *)
Record field : Type := {
  has_stack : bool;                 (* ['stack' in self.xarray] *)
  has_comps : bool;                 (* ['comps' in self] *)
  stars : list (float * float);     (* [self.stars], in pixels *)
  target : Z;                       (* [self.target] *)
  pixel_scale : float;
}.

(** One call of [viz.fancy_show_stars]. *)
Record star_chart : Type := {
  sc_stars : list (float * float);
  sc_ref_stars : option (list nat);
  sc_target : Z;
  sc_flip : bool;
  sc_size : float;
  sc_view : option string;      (* the [view] keyword, when it is passed *)
  sc_pixel_scale : float;
  sc_zoom : bool;
}.

Definition n_stars_msg : string :=
  "'n_stars' kwargs is incompatible with 'reference' view that will display all stars".

(** [_check_stack], lines 55-56 *)
Definition check_stack (f : field) : result unit :=
  py_assert (has_stack f) "No stack found".

(** [show_stars]: the chart drawn, if one is. *)
Definition show_stars (self : observation) (f : field) (size : float)
    (flip : bool) (view : option string) (zoom : bool) (n_stars : option Z)
  : result (option star_chart) :=
  let zoom := if (target f =? -1)%Z then false else zoom in
  _ ← check_stack f;
  stars ←
    match n_stars with
    | Some n =>
        if bool_decide (view = Some "reference")
        then Raise (AssertionError n_stars_msg)
        else Ok (py_slice (stars f) 0 n)
    | None => Ok (stars f)
    end;
  let view :=
    match view with
    | None => if has_comps f then "reference" else "all"
    | Some v => v
    end in
  if String.eqb view "all" then
    Ok (Some {| sc_stars := stars; sc_ref_stars := None;
                sc_target := target f; sc_flip := flip; sc_size := size;
                sc_view := None; sc_pixel_scale := pixel_scale f;
                sc_zoom := zoom |})
  else if String.eqb view "reference" then
    ref_stars ← getitem (comps self) (aperture self);
    Ok (Some {| sc_stars := stars; sc_ref_stars := Some ref_stars;
                sc_target := target f; sc_flip := flip; sc_size := size;
                sc_view := Some "reference";
                sc_pixel_scale := pixel_scale f;
                sc_zoom := zoom |})
  else Ok None.

(** *** [plot_systematics] and [plot_comps_lcs] *)

(** The calls the two methods make to pyplot and to [viz]. *)
Inductive plt_call : Type :=
| Figure (width height : float)
| PlotTarget                                          (* [self.plot(...)] *)
| PlotLc (x : list float) (y : list (option float))   (* [viz.plot_lc] *)
| Annotate (text : string) (x y : float)
| SetYlim (lo hi : float)
| Title (text : string)
| Grid
| TightLayout.

(** Library routines; a masked array is a list whose masked values are
    [None]. *)
Record stats : Type := {
  (** [astropy.stats.sigma_clip] *)
  sigma_clip : list float -> list (option float);
  (** [np.median] and [np.std] of a masked array *)
  ma_median : list (option float) -> float;
  ma_std : list (option float) -> float;
  (** [np.std] *)
  np_std : list float -> float;
  (** [len(plt.gcf().axes) == 0] after the calls made so far *)
  no_axes : list plt_call -> bool;
}.

Definition default_fields : list string :=
  ["dx"; "dy"; "fwhm"; "airmass"; "sky"].

(** The default [ylim=(0.98, 1.02)]. *)
Definition default_ylim : float * float :=
  (0x1.f5c28f5c28f5cp-1, 0x1.051eb851eb852p+0).

(** [ylim], or [(self.flux.min() * 0.99, self.flux.max() * 1.01)]. *)
Definition resolve_ylim (flux : list float) (ylim : option (float * float))
  : result (float * float) :=
  match ylim with
  | Some l => Ok l
  | None =>
      lo ← np_amin flux;
      hi ← np_amax flux;
      Ok (lo * 0x1.fae147ae147aep-1, hi * 0x1.028f5c28f5c29p+0)
  end.

(** [a -= v], [a *= v] and [a += v] on a masked array. *)
Definition inplace (op : float -> float) (a : list (option float))
  : list (option float) :=
  map (fmap op) a.

(** [a /= d] on a masked array: numpy masks the values it will not divide,
    those with [|v| * tiny >= |d|], which are all the numbers when [d] is
    zero. *)
Definition inplace_div (d : float) (a : list (option float))
  : list (option float) :=
  map (fun x => v ← x;
                if abs d <=? abs v * 0x1p-1022 then None else Some (v / d))
      a.

(** [if len(plt.gcf().axes) == 0: plt.figure(figsize=(5, 10))] *)
Definition ensure_figure (lib : stats) : action (list plt_call) unit :=
  fun s => (if no_axes lib s then call (Figure 5 10) else mret tt) s.

(** lines 363-369: the curve of one field, with [i] its position in
    [fields]. *)
Definition systematics_curve (lib : stats) (flux time : list float)
    (offset : float) (i : Z) (field : string) (values : list float)
  : action (list plt_call) unit :=
  let scaled_data := sigma_clip lib values in
  let scaled_data :=
    inplace (fun v => v - ma_median lib scaled_data) scaled_data in
  let scaled_data := inplace_div (ma_std lib scaled_data) scaled_data in
  let scaled_data := inplace (fun v => v * np_std lib flux) scaled_data in
  let scaled_data :=
    inplace (fun v => v + (1 - py_float (i + 1) * offset)) scaled_data in
  _ ← call (PlotLc time scaled_data);
  tmin ← pure (np_amin time);
  call (Annotate field (tmin + 0x1.47ae147ae147bp-8)
          (1 - py_float (i + 1) * offset + offset / 3)).

(** lines 361-371: the loop, from position [k] on; the result is the value
    of the variable [i] after it, which is unbound until the first turn. *)
Fixpoint systematics_loop (lib : stats)
    (variables : list (string * list float)) (flux time : list float)
    (offset : float) (fields : list string) (k : nat) (i : option Z)
  : action (list plt_call) (option Z) :=
  match fields with
  | [] => mret i
  | field :: fields' =>
      let i := Z.of_nat k in
      i ← match dict_get variables field with
          | Some values =>
              _ ← systematics_curve lib flux time offset i field values;
              mret i
          | None => mret (i - 1)%Z
          end;
      systematics_loop lib variables flux time offset fields' (S k) (Some i)
  end.

(** [plot_systematics], lines 347-376; [variables] is the data of
    [self.xarray] by name, [flux] is [self.flux]. *)
Definition plot_systematics (lib : stats) (self : observation)
    (variables : list (string * list float)) (flux : list float)
    (fields : option (list string)) (ylim : option (float * float))
  : action (list plt_call) unit :=
  let fields := default default_fields fields in
  ylim ← pure (resolve_ylim flux ylim);
  let offset := ylim.2 - ylim.1 in
  _ ← ensure_figure lib;
  _ ← call PlotTarget;
  i ← systematics_loop lib variables flux (time self) offset fields 0 None;
  match i with
  | None => throw (UnboundLocalError "i")
  | Some i =>
      _ ← call (SetYlim (1 - (py_float i + 0x1.8p+0) * offset) ylim.2);
      _ ← call (Title "Systematics");
      _ ← call Grid;
      call TightLayout
  end.

(** lines 275-277: the loop over the light curves, from position [k] on. *)
Fixpoint comps_loop (time : list float) (offset : float)
    (curves : list (Z * list float)) (k : nat) (i : option Z)
  : action (list plt_call) (option Z) :=
  match curves with
  | [] => mret i
  | (idx, lc) :: curves' =>
      let i := Z.of_nat k in
      _ ← call (PlotLc time (map (fun v => Some (v - py_float i * offset)) lc));
      tmin ← pure (np_amin time);
      _ ← call (Annotate (pretty idx) (tmin + 0x1.47ae147ae147bp-8)
                  (1 - py_float i * offset + offset / 3));
      comps_loop time offset curves' (S k) (Some i)
  end.

(** [plot_comps_lcs], lines 255-282; [fluxes] is [self.xarray.fluxes],
    indexed [[aperture][star]]. *)
Definition plot_comps_lcs (lib : stats) (self : observation) (target : Z)
    (fluxes : list (list (list float))) (flux : list float) (n : Z)
    (ylim : option (float * float)) : action (list plt_call) unit :=
  comparison_stars ← pure (getitem (comps self) (aperture self));
  let idxs := target :: map Z.of_nat (py_slice comparison_stars 0 n) in
  lcs ← pure (comprehension
                (fun i => m ← getitem fluxes (aperture self); py_index m i)
                idxs);
  ylim ← pure (resolve_ylim flux ylim);
  let offset := ylim.2 - ylim.1 in
  _ ← ensure_figure lib;
  i ← comps_loop (time self) offset (zip idxs lcs) 0 None;
  match i with
  | None => throw (UnboundLocalError "i")
  | Some i =>
      _ ← call (SetYlim (1 - (py_float i + 0x1p-1) * offset) ylim.2);
      _ ← call (Title "Comparison stars");
      _ ← call Grid;
      call TightLayout
  end.

End Views.
Export Views.

(** ** More of the report ([prose/reports/__init__.py]) *)

Module Figures.

Local Open Scope float_scope.

(** The calls the plot methods make to pyplot and to [viz]. *)
Inductive fig_call : Type :=
| NewFigure (width height : float)
| PlotLcPoints (x y : list float)                  (* [viz.plot_lc] *)
| PlotLine (x y : list float) (label : string)     (* [plt.plot] *)
| PlotSelf                                         (* [self.plot()] *)
| Axvline (x : float) (ls : string) (label : option string)
| FigYlim (lo hi : float)
| FigText (text : string)
| Legend
| Xlabel (text : string)
| Ylabel (text : string)
| Tight
| Style (name : string).

(** The figure being drawn, and the two attributes [plot_ingress_egress]
    sets on the report. *)
Record canvas : Type := {
  calls : list fig_call;
  ingress : option float;
  egress : option float;
}.

Definition draw_call (c : fig_call) : action canvas unit := fun s =>
  ({| calls := calls s ++ [c]; ingress := ingress s; egress := egress s |},
   Return tt).

Definition set_ingress (t : float) : action canvas unit := fun s =>
  ({| calls := calls s; ingress := Some t; egress := egress s |}, Return tt).

Definition set_egress (t : float) : action canvas unit := fun s =>
  ({| calls := calls s; ingress := ingress s; egress := Some t |}, Return tt).

(** [plot_ingress_egress], lines 92-100 *)
Definition plot_ingress_egress (self : observation)
    (transit_model : option (list float)) (t0 duration : float)
  : action canvas unit :=
  match transit_model with
  | None => mret tt
  | Some model =>
      _ ← draw_call (Axvline (t0 + duration / 2) "-"
                       (Some "observed ingress/egress"));
      _ ← draw_call (Axvline (t0 - duration / 2) "-" None);
      first ← pure (getitem (np_nonzero model) 0);
      t ← pure (getitem (time self) first);
      _ ← set_ingress t;
      last ← pure (py_index (np_nonzero model) (-1));
      t' ← pure (getitem (time self) last);
      _ ← set_egress t';
      _ ← draw_call (Axvline t "--" (Some "predicted ingress/egress"));
      draw_call (Axvline t' "--" None)
  end.

(** [plot_meridian_flip], lines 86-90 *)
Definition plot_meridian_flip (meridian_flip : option float)
  : action canvas unit :=
  match meridian_flip with
  | None => mret tt
  | Some t =>
      _ ← draw_call (Axvline t "-" None);
      draw_call (FigText "meridian flip ")
  end.

(** [style], lines 80-84 *)
Definition style (name : string) : action canvas unit :=
  if String.eqb name "paper" then draw_call (Style "paper")
  else if String.eqb name "bokeh" then draw_call (Style "bokeh")
  else mret tt.

(** An operation on two arrays, either of which may be [None]: numpy
    raises [TypeError] for [None], and [ValueError] for shapes that do not
    broadcast. *)
Definition array_op (op : float -> float -> float)
    (a b : option (list float)) : outcome (list float) :=
  match a, b with
  | Some a, Some b =>
      if decide (length a = length b) then Return (zip_with op a b)
      else match a, b with
           | [x], _ => Return (map (fun y => op x y) b)
           | _, [y] => Return (map (fun x => op x y) a)
           | _, _ => Throw (Std ValueError)
           end
  | _, _ => Throw TypeError
  end.

(** [a.any()] *)
Definition np_any (a : list float) : bool :=
  existsb (fun v => negb (v =? 0)) a.

(** [x is not None] for the truth value [any()] returns. *)
Definition is_not_None (x : bool) : bool := true.

(** What [plot_lc_model] reads besides the observation. *)
Record models : Type := {
  trend_model : option (list float);
  transit_model : option (list float);
  meridian_flip : option float;
  style_name : string;       (* [self._style] *)
}.

Definition array_action (op : float -> float -> float)
    (a b : option (list float)) : action canvas (list float) :=
  fun s => (s, array_op op a b).

(** An operation on an array, which may be [None], and a number. *)
Definition scalar_action (op : float -> float) (a : option (list float))
  : action canvas (list float) :=
  fun s => (s, match a with
               | Some a => Return (map op a)
               | None => Throw TypeError
               end).

(** [plot_lc_model], lines 315-340 *)
Definition plot_lc_model (self : observation) (m : models)
    (t0 duration : float) : action canvas unit :=
  _ ← draw_call (NewFigure 6 (if bool_decide (is_Some (trend_model m))
                              then 7 else 4));
  difference ← array_action PrimFloat.sub (trend_model m) (transit_model m);
  _ ← (if is_not_None (np_any difference) then
         _ ← draw_call (PlotLcPoints (time self) (diff_flux self));
         both ← array_action PrimFloat.add (trend_model m) (transit_model m);
         _ ← draw_call (PlotLine (time self) both
                          "systematics + transit model");
         shifted ← scalar_action (fun v => v + 1 - 0x1.eb851eb851eb8p-6)
                                 (transit_model m);
         _ ← draw_call (PlotLine (time self) shifted "transit model");
         detrended ← array_action PrimFloat.sub (Some (diff_flux self))
                                  (trend_model m);
         _ ← draw_call
               (PlotLcPoints (time self)
                  (map (fun v => v + 1 - 0x1.eb851eb851eb8p-6) detrended));
         _ ← draw_call (FigYlim 0x1.e666666666666p-1 0x1.07ae147ae147bp+0);
         _ ← plot_ingress_egress self (transit_model m) t0 duration;
         _ ← draw_call (FigText "detrended");
         draw_call (FigText "raw")
       else
         _ ← draw_call PlotSelf;
         draw_call (FigYlim 0x1.f5c28f5c28f5cp-1 0x1.051eb851eb852p+0));
  _ ← plot_meridian_flip (meridian_flip m);
  _ ← draw_call Legend;
  _ ← draw_call (Xlabel "BJD-TDB");
  _ ← draw_call (Ylabel "diff. flux");
  _ ← draw_call Tight;
  style (style_name m).

(** *** [plot_psf], lines 102-157 *)

(** What [plot_psf] reads besides the observation. *)
Record image : Type := {
  stack : list (list float);             (* rows of pixels *)
  star_positions : list (float * float); (* [self.stars]: x, y *)
  target_star : Z;                       (* [self.target] *)
  annulus_rin : option (list float);     (* present iff ["annulus_rin" in self] *)
  annulus_rout : option (list float);
}.

Record optics : Type := {
  (** [fast_binning(x, y, bins=1)]: the binned abscissae and values *)
  fast_binning : list float -> list float -> list float * list float;
  (** [z_scale] *)
  z_scale : list (list float) -> list (list float);
}.

(** What ends up in the figure. *)
Record psf_figure : Type := {
  f_radii : list float;
  f_pixels : list float;
  f_binned : list float * list float;
  f_aperture : float;
  f_rin : float;
  f_rout : float;
  f_default_annulus : bool;    (* the INFO line was printed *)
  f_cutout : list (list float);
}.

(** One pixel of the stack: its row [Y], its column [X] and its value. *)
Record pixel : Type := {
  px_Y : nat;
  px_X : nat;
  px_value : float;
}.

(** The pixels in the order of [stack.flatten()], with the coordinates
    [np.indices] gives them. *)
Definition flatten (stack : list (list float)) : list pixel :=
  concat (imap (fun r row =>
                  imap (fun c v => {| px_Y := r; px_X := c; px_value := v |})
                       row)
               stack).

Definition of_index (i : nat) : float := py_float (Z.of_nat i).

(** line 106 *)
Definition cutout_mask (x y n : float) (p : pixel) : bool :=
  (abs (of_index (px_X p) - x + 0x1p-1) <? n)
  && (abs (of_index (px_Y p) - y + 0x1p-1) <? n).

(** line 108: the distance of a pixel from the star. *)
Definition radius (x y : float) (p : pixel) : float :=
  sqrt ((of_index (px_X p) - x) * (of_index (px_X p) - x)
        + (of_index (px_Y p) - y) * (of_index (px_Y p) - y)).

(** lines 106-112: the radial profile, sorted by distance. *)
Definition radial_profile (stack : list (list float)) (x y n : float)
  : result (list float * list float) :=
  let flat := flatten stack in
  let inside := np_argwhere (map (cutout_mask x y n) flat) in
  radii ← take (map (radius x y) flat) inside;
  let idxs := np_argsort radii in
  radii ← take radii idxs;
  pixels ← take (map px_value flat) inside;
  pixels ← take pixels idxs;
  Ok (radii, pixels).

(** line 148: [stack[int(y - n):int(y + n), int(x - n):int(x + n)]] *)
Definition cutout (stack : list (list float)) (x y n : float)
  : result (list (list float)) :=
  r0 ← py_int (y - n);
  r1 ← py_int (y + n);
  c0 ← py_int (x - n);
  c1 ← py_int (x + n);
  Ok (map (fun row => py_slice row c0 c1) (py_slice stack r0 r1)).

(** lines 125-132: the annulus, from the photometry or from the FWHM. *)
Definition annulus (np : numpy) (self : observation) (im : image)
  : result (float * float * bool) :=
  match annulus_rin im with
  | Some rin =>
      match annulus_rout im with
      | Some rout => Ok (np_mean np rin, np_mean np rout, false)
      | None => Raise AttributeError
      end
  | None =>
      Ok (np_mean np (fwhm self) * 5, np_mean np (fwhm self) * 8, true)
  end.

(** [plot_psf] *)
Definition plot_psf (np : numpy) (lib : optics) (self : observation)
    (im : image) (n : float) (zscale : bool) : result psf_figure :=
  let n := n / sqrt 2 in
  '(x, y) ← py_index (star_positions im) (target_star im);
  '(radii, pixels) ← radial_profile (stack im) x y n;
  let binned := fast_binning lib radii pixels in
  apertures ← getitem (apertures_radii self) 0;
  '(rin, rout, note) ← annulus np self im;
  aperture_radius ← getitem apertures (aperture self);
  im ← cutout (stack im) x y n;
  Ok {| f_radii := radii; f_pixels := pixels; f_binned := binned;
        f_aperture := aperture_radius; f_rin := rin; f_rout := rout;
        f_default_annulus := note;
        f_cutout := if zscale then z_scale lib im else im |}.

End Figures.
Export Figures.

(** ** [Observation.save_report], lines 397-428 *)

Module SaveReport.

(** Calls to pyplot between the plots. *)
Inductive plt_step : Type :=
| PatchAlpha0                 (* [plt.gcf().patch.set_alpha(0)] *)
| Savefig (file : string)
| Close
| OpenFigure (width height : float).

(** The operating system and the libraries, acting on a world [W]. *)
Record system (W : Type) : Type := {
  path_isdir : string -> W -> bool;
  path_exists : string -> W -> bool;
  path_join : string -> string -> string;
  path_dirname : string -> string;
  path_basename : string -> string;
  (** [s.strip(chars)] *)
  str_strip : string -> string -> string;
  shutil_rmtree : string -> prog W unit;
  os_mkdir : string -> prog W unit;
  (** [viz.fancy_show_stars] with the arguments [show_stars] gives it *)
  fancy_show_stars : star_chart -> prog W unit;
  plt : plt_step -> prog W unit;
}.
Arguments path_isdir {W}.
Arguments path_exists {W}.
Arguments path_join {W}.
Arguments path_dirname {W}.
Arguments path_basename {W}.
Arguments str_strip {W}.
Arguments shutil_rmtree {W}.
Arguments os_mkdir {W}.
Arguments fancy_show_stars {W}.
Arguments plt {W}.

(** A step of the libraries inside a method. *)
Definition step {W A} (m : prog W A) : action W A := fun w =>
  let '(w', r) := m w in (w', std r).

(** [if cond: body] *)
Definition when {W} (cond : bool) (body : action W unit) : action W unit :=
  if cond then body else mret tt.

(** A call of [self.plot_raw_diff] with keywords. The method is declared
    [def plot_raw_diff(self)], line 378: a call that passes a keyword is
    refused before the body runs. *)
Definition call_plot_raw_diff {W} (keywords : list string)
    (body : action W unit) : action W unit :=
  match keywords with
  | [] => body
  | _ :: _ => throw TypeError
  end.

(** lines 405-408 *)
Definition report_file_name {W} (sys : system W) (denominator : string)
    (destination : string) (w : W) : string :=
  if path_isdir sys destination w then denominator +:+ "_report.pdf"
  else path_basename sys
         (str_strip sys (str_strip sys destination ".html") ".pdf").

(** [save_report]: lines 397-428 as they are written; [raw_diff] is the
    body of [plot_raw_diff], lines 380-395, and [rest] stands for lines
    429-533, which draw the other figures and write the PDF file [rest] is
    given the name of. *)
Definition save_report {W} (sys : system W) (self : observation)
    (f : field) (folder denominator : string)
    (destination : option string)
    (raw_diff : action W unit) (rest : string -> string -> action W unit)
  : action W unit :=
  let destination := default folder destination in
  file_name ← (fun w =>
                 (w, Return (report_file_name sys denominator destination w)));
  let temp_folder := path_join sys (path_dirname sys destination) "temp" in
  temp_here ← (fun w => (w, Return (path_isdir sys "temp" w)));
  _ ← when temp_here (step (shutil_rmtree sys temp_folder));
  temp_there ← (fun w => (w, Return (path_exists sys temp_folder w)));
  _ ← when temp_there (step (shutil_rmtree sys temp_folder));
  _ ← step (os_mkdir sys temp_folder);
  chart ← pure (show_stars self f 10 false (Some "reference") false None);
  _ ← match chart with
      | Some c => step (fancy_show_stars sys c)
      | None => mret tt
      end;
  let star_plot := path_join sys temp_folder "starplot.png" in
  _ ← step (plt sys PatchAlpha0);
  _ ← step (plt sys (Savefig star_plot));
  _ ← step (plt sys Close);
  _ ← step (plt sys (OpenFigure 6 10));
  _ ← call_plot_raw_diff ["std"] raw_diff;
  rest temp_folder file_name.

End SaveReport.

(** ** Vocabulary of the statements about the other methods *)

Module Shapes.

(** The table [save_mcmc_file] writes, column by column. *)
Definition mcmc_table (self : observation) (lc : light_curve)
  : list (string * list float) :=
  [ ("BJD-TDB", time self);
    ("DIFF_FLUX", lc_flux lc);
    ("ERROR", lc_error lc);
    ("dx_MOVE", dx self);
    ("dy_MOVE", dy self);
    ("FWHM", fwhm self);
    ("FWHMx", fwhm self);
    ("FWHMy", fwhm self);
    ("SKYLEVEL", sky self);
    ("AIRMASS", airmass self);
    ("EXPOSURE", exptime self) ].

(** Every array of the table has as many values as there are epochs. *)
Definition aligned (self : observation) (lc : light_curve) : Prop :=
  Forall (fun c : string * list float => length c.2 = length (time self))
         (mcmc_table self lc).

#[export] Instance aligned_dec self lc : Decision (aligned self lc).
Proof. unfold aligned. apply _. Defined.

End Shapes.
Import Shapes.

(** ** Examples for the other methods *)

Module Demo.

Local Open Scope float_scope.

(** The light curve of the target of [Ref.demo]. *)
Definition lc : light_curve :=
  {| lc_flux := [1; 1; 0.5; 1]; lc_error := [0.25; 0.25; 0.25; 0.25] |}.

(** What [save_mcmc_file] writes for [Ref.demo]. *)
Definition mcmc : result (string * csv_file) :=
  Eval vm_compute in
    save_mcmc_file Ref.demo lc "20210315" "TOI-1234" "out".

End Demo.

Module DemoField.

Local Open Scope float_scope.

(** Three detected stars around the target of [Ref.demo]. *)
Definition field0 : field :=
  {| has_stack := true; has_comps := true;
     stars := [(10, 12); (40, 8); (25, 30)];
     target := 0; pixel_scale := 0.625 |}.

End DemoField.

(** ** Vocabulary of the statements about the stacked curves *)

Module Levels.

Local Open Scope float_scope.

(** The labels written by [plt.annotate], with their heights. *)
Definition annotations (log : list plt_call) : list (string * float) :=
  omap (fun c => match c with
                 | Annotate text _ y => Some (text, y)
                 | _ => None
                 end) log.

(** The curves drawn by [viz.plot_lc]. *)
Definition curves (log : list plt_call) : list (list (option float)) :=
  omap (fun c => match c with
                 | PlotLc _ y => Some y
                 | _ => None
                 end) log.

(** [enumerate(l)] *)
Definition enumerate {A} (l : list A) : list (nat * A) :=
  zip (seq 0 (length l)) l.

(** The height of the label of the curve drawn [steps] offsets below 1. *)
Definition label_height (offset : float) (steps : Z) : float :=
  1 - py_float steps * offset + offset / 3.

(** [field in self] *)
Definition present (variables : list (string * list float))
    (field : string) : bool :=
  bool_decide (is_Some (dict_get variables field)).

(** No clipping, the statistics of [Ref], and a figure without axes until
    something is drawn. *)
Definition plain_stats : stats :=
  {| sigma_clip := map Some;
     ma_median := fun a => Ref.median (omap id a);
     ma_std := fun a => Ref.std (omap id a);
     np_std := Ref.std;
     no_axes := fun s => match s with [] => true | _ => false end |}.

End Levels.
Import Levels.

Module DemoCurves.

Local Open Scope float_scope.

(** The data of [Ref.demo] by name. *)
Definition variables : list (string * list float) :=
  [ ("dx", dx Ref.demo); ("dy", dy Ref.demo); ("fwhm", fwhm Ref.demo);
    ("airmass", airmass Ref.demo); ("sky", sky Ref.demo) ].

(** [self.xarray.fluxes] of [Ref.demo]. *)
Definition fluxes : list (list (list float)) := raw_fluxes Ref.demo.

End DemoCurves.

(** ** Vocabulary of the statement about [plot_lc_model] *)

Module Plain.

(** A step that does not draw the plain light curve of [self.plot()]. *)
Definition quiet {A} (m : action canvas A) : Prop :=
  forall c, PlotSelf ∉ calls c -> PlotSelf ∉ calls (m c).1.

End Plain.
Import Plain.

Module DemoImage.

Local Open Scope float_scope.

(** An image of eight rows and eight columns, dark but for one pixel. *)
Definition stack8 : list (list float) :=
  replicate 3 (replicate 8 0)
  ++ [[0; 0; 0; 9; 0; 0; 0; 0]]
  ++ replicate 4 (replicate 8 0).

End DemoImage.

(** ** Vocabulary of the statement about [save_report] *)

Module Outcomes.

(** A method that raises from every state. *)
Definition fails {S A} (m : action S A) : Prop :=
  forall s, exists e, (m s).2 = Throw e.

(** A method that raises [TypeError] from every state. *)
Definition fails_with_TypeError {S A} (m : action S A) : Prop :=
  forall s, (m s).2 = Throw TypeError.

(** A library routine that returns from every state. *)
Definition succeeds {S} (m : prog S unit) : Prop :=
  forall s, exists s', m s = (s', Ok tt).

End Outcomes.
Import Outcomes.

Module DemoExposure.

(** An observation with other exposure times. *)
Definition with_exptime (self : observation) (e : list float)
  : observation :=
  {| time := time self; exptime := e; sky := sky self; dx := dx self;
     dy := dy self; fwhm := fwhm self; airmass := airmass self;
     raw_fluxes := raw_fluxes self; raw_errors := raw_errors self;
     apertures_area := apertures_area self;
     apertures_radii := apertures_radii self;
     lcs := lcs self; aperture := aperture self; comps := comps self;
     diff_fluxes := diff_fluxes self; diff_errors := diff_errors self;
     diff_flux := diff_flux self; diff_error := diff_error self;
     time_format := time_format self; RA := RA self; DEC := DEC self;
     telescope_name := telescope_name self;
     filter_name := filter_name self; target_name := target_name self;
     date := date self |}.

(** A runtime whose figures folder is missing. *)
Definition no_folder : Exofop.runtime :=
  {| Exofop.str_float := Exofop.str_float Ref.service;
     Exofop.round_n := Exofop.round_n Ref.service;
     Exofop.strftime := Exofop.strftime Ref.service;
     Exofop.server := Exofop.server Ref.service;
     Exofop.is_file := Exofop.is_file Ref.service;
     Exofop.figures_is_dir := false |}.

End DemoExposure.

(** ** Vocabulary of the statement about a fresh destination *)

Module Fresh.

(** The report folder and its figures folder are there, and no other
    folder is at or under the destination. *)
Definition settled (dest : path) (w : world) : Prop :=
  w_fs w !! dest = Some Dir
  /\ w_fs w !! (dest ++ ["figures"]) = Some Dir
  /\ forall p, dest `prefix_of` p -> w_fs w !! p = Some Dir ->
               p = dest \/ p = dest ++ ["figures"].

(** The last character of a string. *)
Fixpoint last_char (s : string) : option ascii :=
  match s with
  | EmptyString => None
  | String c EmptyString => Some c
  | String _ s' => last_char s'
  end.

End Fresh.
Import Fresh.

Module FreshSteps.

(** A step that returns from every settled world and leaves it settled,
    touching nothing outside the destination. *)
Definition works (dest : path) (m : prog world unit) : Prop :=
  forall w, settled dest w ->
    exists w', m w = (w', Ok tt)
               /\ settled dest w'
               /\ forall q, ~ dest `prefix_of` q ->
                            w_fs w' !! q = w_fs w !! q.

End FreshSteps.
Import FreshSteps.

(** ** The result monad *)

Lemma bind_Ok {A B} (m : result A) (f : A -> result B) (b : B) :
  m ≫= f = Ok b -> exists a, m = Ok a /\ f a = Ok b.
Proof. destruct m as [a|e]; simpl; [eauto | discriminate]. Qed.

Ltac inv_bind H :=
  repeat match type of H with
  | (_ ≫= _) = Ok _ =>
      let a := fresh "a" in
      let H1 := fresh "H" in
      apply bind_Ok in H as (a & H1 & H)
  end.

(** ** Precondition and bin count of the precision estimator *)

Lemma pick_aperture_None_None (self : observation) :
  lcs self = None ->
  pick_aperture self None = Raise (AssertionError no_aperture_msg).
Proof. intros E. unfold pick_aperture. rewrite E. reflexivity. Qed.

Lemma pick_aperture_None_Some (self : observation) (lc : lightcurves) :
  lcs self = Some lc ->
  pick_aperture self None = Ok (best_aperture_id lc).
Proof. intros E. unfold pick_aperture. rewrite E. reflexivity. Qed.

(** C8. Called without an aperture, the precision estimator stops on the
    assertion, before anything is read or computed, when the observation has
    no light curve; when it has one, the call is the call with the best
    aperture id of the light curve. *)
Theorem plot_precision_needs_lightcurve (np : numpy) (self : observation)
    (bins : float) :
  match lcs self with
  | None =>
      plot_precision np self bins None
      = Raise (AssertionError no_aperture_msg)
  | Some lc =>
      plot_precision np self bins None
      = plot_precision np self bins (Some (best_aperture_id lc))
  end.
Proof.
  unfold plot_precision.
  destruct (lcs self) as [lc|] eqn:E.
  - rewrite (pick_aperture_None_Some _ _ E). reflexivity.
  - rewrite (pick_aperture_None_None _ E). reflexivity.
Qed.

Lemma bins_check_spec (self : observation) (n_bin : Z) :
  (Z.of_nat (length (time self)) <= n_bin)%Z
  /\ bins_check self n_bin = Raise (AssertionError bins_msg)
  \/ (n_bin < Z.of_nat (length (time self)))%Z
     /\ bins_check self n_bin = Ok tt.
Proof.
  unfold bins_check, py_assert.
  destruct (Z.gtb_spec (Z.of_nat (length (time self))) n_bin); [right|left];
    split; (lia || reflexivity).
Qed.

(** C7, as the code has it. The number of bins is the integer part of the
    bin width divided by the mean exposure time in days; once the aperture
    and that number are known, the estimator stops on the assertion when the
    number of samples is at most the number of bins (so also when they are
    equal), and with more samples than bins it passes the check and goes on
    to compute the curves. *)
Theorem plot_precision_bins_check (np : numpy) (self : observation)
    (bins : float) (ap : option nat) (a : nat) (n_bin : Z) :
  pick_aperture self ap = Ok a ->
  bin_count np self bins = Ok n_bin ->
  py_int (bins / (np_mean np (exptime self) / 86400))%float = Ok n_bin
  /\ ((Z.of_nat (length (time self)) <= n_bin)%Z ->
      plot_precision np self bins ap = Raise (AssertionError bins_msg))
  /\ ((n_bin < Z.of_nat (length (time self)))%Z ->
      bins_check self n_bin = Ok tt
      /\ plot_precision np self bins ap = precision_curves np self a n_bin).
Proof.
  intros Ha Hn. split; [exact Hn|].
  unfold plot_precision. rewrite Ha, Hn. simpl.
  destruct (bins_check_spec self n_bin) as [[Hle ->]|[Hlt ->]]; simpl.
  - split; [reflexivity | lia].
  - split; [lia | auto].
Qed.

(** At four samples and four bins the assertion stops the estimator, though
    the samples are not fewer than the bins. *)
Lemma bins_check_equal_counts :
  bin_count Ref.numpy Ref.demo 1 = Ok 4%Z
  /\ length (time Ref.demo) = 4%nat
  /\ ~ (Z.of_nat (length (time Ref.demo)) < 4)%Z
  /\ plot_precision Ref.numpy Ref.demo 1 None
     = Raise (AssertionError bins_msg).
Proof. repeat split; try reflexivity. vm_compute. discriminate. Qed.

Lemma plot_precision_bins_check_witness :
  (Z.of_nat (length (time Ref.demo)) <= 4)%Z
  /\ plot_precision Ref.numpy Ref.demo 1 None
     = Raise (AssertionError bins_msg).
Proof.
  split; [vm_compute; discriminate|].
  apply (plot_precision_bins_check Ref.numpy Ref.demo 1 None 0%nat 4%Z);
    [reflexivity | reflexivity | vm_compute; discriminate].
Defined.

(** ** The order numpy sorts by *)

Lemma SFleb_total (a b : spec_float) :
  a <> S754_nan -> b <> S754_nan -> SFleb a b = false -> SFleb b a = true.
Proof.
  unfold SFleb.
  destruct a as [sa|sa| |sa ma ea], b as [sb|sb| |sb mb eb];
    try congruence; simpl; intros _ _;
    try (destruct sa; simpl; congruence);
    try (destruct sb; simpl; congruence);
    try (destruct sa, sb; simpl; congruence).
  pose proof (Z.compare_antisym ea eb) as HZ.
  pose proof (Pos.compare_antisym ma mb) as HP.
  change (IntDef.Z.compare eb ea) with (Z.compare eb ea).
  change (IntDef.Z.compare ea eb) with (Z.compare ea eb).
  change (PosDef.Pos.compare_cont Eq mb ma) with (Pos.compare mb ma).
  change (PosDef.Pos.compare_cont Eq ma mb) with (Pos.compare ma mb).
  rewrite HZ, HP.
  destruct sa, sb; simpl; try congruence;
    destruct (ea ?= eb)%Z; simpl; try congruence;
    destruct (ma ?= mb)%positive; simpl; congruence.
Qed.

Lemma is_nan_false (x : float) : is_nan x = false -> Prim2SF x <> S754_nan.
Proof.
  unfold is_nan. rewrite FloatAxioms.eqb_spec. intros H E. rewrite E in H. discriminate.
Qed.

Lemma np_le_total (x y : float) : np_le x y = false -> np_le y x = true.
Proof.
  unfold np_le. intros H.
  apply orb_false_iff in H as [Hy Hxy].
  destruct (is_nan x) eqn:Hx; [reflexivity|]. simpl.
  rewrite FloatAxioms.leb_spec in *.
  apply SFleb_total; auto using is_nan_false.
Qed.

(** ** [np.argsort] sorts *)

Lemma insert_by_key_perm (p : nat * float) (l : list (nat * float)) :
  Permutation (insert_by_key p l) (p :: l).
Proof.
  induction l as [|q l IH]; simpl; [reflexivity|].
  destruct (np_le q.2 p.2); [|reflexivity].
  rewrite IH. apply perm_swap.
Qed.

Lemma sort_by_key_perm (l : list (nat * float)) :
  Permutation (sort_by_key l) l.
Proof.
  unfold sort_by_key.
  enough (G : forall acc, Permutation
            (fold_left (fun acc p => insert_by_key p acc) l acc) (acc ++ l)).
  { apply (G []). }
  induction l as [|p l IH]; intros acc; simpl.
  - rewrite app_nil_r. reflexivity.
  - rewrite IH, insert_by_key_perm.
    rewrite (Permutation_middle acc l p). reflexivity.
Qed.

Lemma insert_by_key_HdRel (q p : nat * float) (l : list (nat * float)) :
  HdRel key_le q l -> key_le q p -> HdRel key_le q (insert_by_key p l).
Proof.
  intros Hq Hp. destruct l as [|r l]; simpl; [constructor; exact Hp|].
  destruct (np_le r.2 p.2); constructor; [|exact Hp].
  inversion Hq; assumption.
Qed.

Lemma insert_by_key_sorted (p : nat * float) (l : list (nat * float)) :
  Sorted key_le l -> Sorted key_le (insert_by_key p l).
Proof.
  induction 1 as [|q l Hs IH Hd]; simpl.
  - repeat constructor.
  - destruct (np_le q.2 p.2) eqn:E.
    + constructor; [exact IH|]. apply insert_by_key_HdRel; assumption.
    + constructor; [constructor; assumption|].
      constructor. apply np_le_total. exact E.
Qed.

Lemma sort_by_key_sorted (l : list (nat * float)) :
  Sorted key_le (sort_by_key l).
Proof.
  unfold sort_by_key.
  enough (G : forall acc, Sorted key_le acc ->
            Sorted key_le (fold_left (fun acc p => insert_by_key p acc) l acc)).
  { apply G. constructor. }
  induction l as [|p l IH]; intros acc Hacc; simpl; [exact Hacc|].
  apply IH, insert_by_key_sorted, Hacc.
Qed.

Lemma np_argsort_perm (a : list float) :
  Permutation (np_argsort a) (seq 0 (length a)).
Proof.
  unfold np_argsort. rewrite sort_by_key_perm.
  rewrite fst_zip; [reflexivity|]. rewrite length_seq. reflexivity.
Qed.

Lemma np_argsort_in_range (a : list float) :
  Forall (fun i => i < length a)%nat (np_argsort a).
Proof.
  rewrite np_argsort_perm. apply Forall_forall. intros i Hi.
  apply elem_of_seq in Hi. lia.
Qed.

(** ** Lists, indices and masks *)

Lemma map_fmap {A B} (f : A -> B) (l : list A) : map f l = f <$> l.
Proof. reflexivity. Qed.

Lemma pick_offset {A} (l1 l2 : list A) :
  pick (l1 ++ l2) (seq (length l1) (length l2)) = l2.
Proof.
  unfold pick. revert l1.
  induction l2 as [|x l2 IH]; intros l1; simpl; [reflexivity|].
  rewrite list_lookup_middle by reflexivity. simpl. f_equal.
  specialize (IH (l1 ++ [x])).
  rewrite <- app_assoc, length_app, Nat.add_comm in IH. exact IH.
Qed.

Lemma pick_all {A} (l : list A) : pick l (seq 0 (length l)) = l.
Proof. apply (pick_offset [] l). Qed.

Lemma pick_perm {A} (l : list A) (idxs : list nat) :
  Permutation idxs (seq 0 (length l)) -> Permutation (pick l idxs) l.
Proof.
  intros H. unfold pick. rewrite H. fold (pick l (seq 0 (length l))).
  rewrite pick_all. reflexivity.
Qed.

Lemma comprehension_Ok {A B} (f : A -> result B) (l : list A) (ys : list B) :
  comprehension f l = Ok ys -> Forall2 (fun x y => f x = Ok y) l ys.
Proof.
  revert ys. induction l as [|x l IH]; simpl; intros ys H.
  - injection H as <-. constructor.
  - inv_bind H. injection H as <-. constructor; auto.
Qed.

Lemma getitem_Some {A} (l : list A) (i : nat) (x : A) :
  l !! i = Some x -> getitem l i = Ok x.
Proof. unfold getitem. intros ->. reflexivity. Qed.

Lemma getitem_Ok {A} (l : list A) (i : nat) (x : A) :
  getitem l i = Ok x -> l !! i = Some x.
Proof. unfold getitem. destruct (l !! i); congruence. Qed.

Lemma take_map_pick {A B} (g : A -> B) (l : list A) (idxs : list nat) :
  Forall (fun i => i < length l)%nat idxs ->
  take (map g l) idxs = Ok (map g (pick l idxs)).
Proof.
  unfold take, pick.
  induction 1 as [|i idxs Hi _ IH]; simpl; [reflexivity|].
  apply lookup_lt_is_Some_2 in Hi as [x Hx].
  rewrite (getitem_Some (map g l) i (g x)), Hx.
  - simpl. rewrite IH. reflexivity.
  - rewrite map_fmap, list_lookup_fmap, Hx. reflexivity.
Qed.

Lemma sorted_keys_of_pick {A} (k : A -> float) (l : list A)
    (s : list (nat * float)) :
  Forall (fun p => map k l !! p.1 = Some p.2) s ->
  map k (pick l (map fst s)) = map snd s.
Proof.
  unfold pick.
  induction 1 as [|[i x] s Hp _ IH]; simpl in *; [reflexivity|].
  rewrite (map_fmap k l), list_lookup_fmap in Hp.
  destruct (l !! i) as [y|]; simpl in *; [|discriminate].
  injection Hp as <-. f_equal. exact IH.
Qed.

Lemma zip_seq_lookup (a : list float) :
  Forall (fun p => a !! p.1 = Some p.2) (zip (seq 0 (length a)) a).
Proof.
  apply Forall_forall. intros [i x] H.
  apply list_elem_of_lookup in H as [j Hj].
  apply lookup_zip_with_Some in Hj as (i' & x' & [= <- <-] & Hi & Hx).
  apply lookup_seq in Hi as [-> _]. exact Hx.
Qed.

Lemma Sorted_map {A B} (R : B -> B -> Prop) (f : A -> B) (l : list A) :
  Sorted R (map f l) -> Sorted (fun x y => R (f x) (f y)) l.
Proof.
  induction l as [|x l IH]; simpl; intros H; [constructor|].
  inversion H as [|? ? Hs Hd]; subst. constructor; [auto|].
  destruct l; simpl in *; constructor. inversion Hd; assumption.
Qed.

Lemma Sorted_map_snd (s : list (nat * float)) :
  Sorted key_le s -> Sorted (fun x y => np_le x y = true) (map snd s).
Proof.
  induction 1 as [|p s Hs IH Hd]; simpl; constructor; [exact IH|].
  destruct Hd; simpl; constructor. assumption.
Qed.

(** Picking at the positions [np.argsort] returns gives a rearrangement in
    ascending order of the key. *)
Lemma pick_argsort {A} (k : A -> float) (l : list A) :
  let sorted := pick l (np_argsort (map k l)) in
  Permutation sorted l
  /\ Sorted (fun x y => np_le (k x) (k y) = true) sorted.
Proof.
  simpl. split.
  - apply pick_perm. rewrite np_argsort_perm, length_map. reflexivity.
  - apply (Sorted_map (fun x y => np_le x y = true)).
    unfold np_argsort. rewrite sorted_keys_of_pick.
    + apply Sorted_map_snd, sort_by_key_sorted.
    + rewrite sort_by_key_perm. apply zip_seq_lookup.
Qed.

Lemma mask_select_map {A B} (g : A -> B) (p : A -> bool) (l : list A) :
  mask_select (map g l) (map p l)
  = Ok (map g (filter (fun x => p x = true) l)).
Proof.
  unfold mask_select. rewrite decide_True by (rewrite !length_map; reflexivity).
  f_equal. induction l as [|x l IH]; [reflexivity|].
  simpl. rewrite !filter_cons. simpl.
  destruct (decide (p x = true)); simpl; rewrite IH; reflexivity.
Qed.

(** ** The curves of the precision estimator *)

Lemma bind_Ok_l {A B} (a : A) (f : A -> result B) : Ok a ≫= f = f a.
Proof. reflexivity. Qed.

Lemma stars_of_proj (fl er : list (list float)) (est : list float) :
  length fl = length er -> length est = length fl ->
  map st_flux (stars_of fl er est) = fl
  /\ map st_error (stars_of fl er est) = er
  /\ map st_rms (stars_of fl er est) = est.
Proof.
  unfold stars_of. revert er est.
  induction fl as [|f fl IH]; intros [|e er] [|x est]; simpl;
    try discriminate; auto.
  intros [= H1] [= H2]. destruct (IH er est H1 H2) as (-> & -> & ->). auto.
Qed.

Lemma np_divide_map {A} (f g : A -> float) (l : list A) :
  np_divide (map f l) (map g l) = Ok (map (fun x => f x / g x)%float l).
Proof.
  unfold np_divide. rewrite decide_True by (rewrite !length_map; reflexivity).
  f_equal. induction l as [|x l IH]; simpl; [reflexivity|]. f_equal. exact IH.
Qed.

Lemma error_estimates_length (np : numpy) (self : observation) (n : Z)
    (fl : list (list float)) (est : list float) :
  error_estimates np self n fl = Ok est -> length est = length fl.
Proof.
  intros H. apply comprehension_Ok, Forall2_length in H. auto.
Qed.

Lemma precision_curves_stars (np : numpy) (self : observation) (a : nat)
    (n : Z) (fl er : list (list float)) (fig : list series) :
  as_array self a = Ok (fl, er) ->
  length fl = length er ->
  precision_curves np self a n = Ok fig ->
  exists est area,
    error_estimates np self n fl = Ok est
    /\ length est = length fl
    /\ aperture_area self a = Ok area
    /\ let kept := filter (positive_snr np) (stars_of fl er est) in
       let sorted :=
         pick kept (np_argsort (map (fun s => np_mean np (st_flux s)) kept)) in
       fig = [ curve np "." "flux rms (7.2 min bins)" kept (inv_snr np);
               curve np "--" "photon noise" sorted
                 (fun s => sqrt (np_mean np (st_flux s))
                           / np_mean np (st_flux s))%float;
               curve np "" "background noise" sorted
                 (fun s => sqrt (np_mean np (sky self) * area)
                           / np_mean np (st_flux s))%float;
               curve np "" "CCD equation" sorted
                 (fun s => np_mean np (st_error s)
                           / np_mean np (st_flux s))%float ].
Proof.
  intros Has Hlen H. unfold precision_curves in H.
  rewrite Has, bind_Ok_l in H.
  destruct (error_estimates np self n fl) as [est|] eqn:Hest; [|discriminate].
  rewrite bind_Ok_l in H.
  destruct (aperture_area self a) as [area|] eqn:Harea; [|discriminate].
  rewrite bind_Ok_l in H.
  pose proof (error_estimates_length _ _ _ _ _ Hest) as Hl.
  exists est, area. repeat split; auto.
  destruct (stars_of_proj fl er est Hlen Hl) as (Ef & Ee & Er).
  remember (stars_of fl er est) as all eqn:Eall.
  rewrite <- Ef, <- Ee, <- Er in H.
  rewrite !map_map in H.
  rewrite !np_divide_map in H.
  repeat (rewrite bind_Ok_l in H; cbv beta in H).
  rewrite !map_map in H.
  rewrite !mask_select_map in H.
  repeat (rewrite bind_Ok_l in H; cbv beta in H).
  change (filter _ all) with (filter (positive_snr np) all) in H.
  intros kept sorted. fold kept in H.
  rewrite !map_map in H.
  assert (Hr : Forall (fun i => i < length kept)%nat
                 (np_argsort (map (fun s => np_mean np (st_flux s)) kept))).
  { pose proof (np_argsort_in_range
                  (map (fun s => np_mean np (st_flux s)) kept)) as G.
    rewrite length_map in G. exact G. }
  rewrite !(take_map_pick _ _ _ Hr) in H.
  repeat (rewrite bind_Ok_l in H; cbv beta in H).
  apply bind_Ok in H as ([] & _ & H).
  fold sorted in H. injection H as <-. reflexivity.
Qed.

Lemma plot_precision_Ok (np : numpy) (self : observation) (bins : float)
    (ap : option nat) (a : nat) (fig : list series) :
  pick_aperture self ap = Ok a ->
  plot_precision np self bins ap = Ok fig ->
  exists n_bin,
    bin_count np self bins = Ok n_bin
    /\ (n_bin < Z.of_nat (length (time self)))%Z
    /\ precision_curves np self a n_bin = Ok fig.
Proof.
  intros Ha H. unfold plot_precision in H. rewrite Ha, bind_Ok_l in H.
  destruct (bin_count np self bins) as [n|] eqn:Hn; [|discriminate].
  rewrite bind_Ok_l in H. exists n.
  destruct (bins_check_spec self n) as [[_ E]|[Hlt E]]; rewrite E in H;
    [discriminate | auto].
Qed.

Lemma precision_curves_first (np : numpy) (self : observation) (a : nat)
    (n : Z) (fig : list series) :
  precision_curves np self a n = Ok fig ->
  exists rms rest,
    fig = rms :: rest /\ s_x rms <> []
    /\ s_label rms = "flux rms (7.2 min bins)".
Proof.
  unfold precision_curves. intros H.
  apply bind_Ok in H as ([fl er] & _ & H).
  inv_bind H.
  match goal with
  | Hne : nonempty ?l = Ok _ |- _ =>
      destruct l as [|x l']; [discriminate Hne|]
  end.
  injection H as <-. eexists _, _. split; [reflexivity|].
  cbn [s_x s_label map]. split; [discriminate|reflexivity].
Qed.

(** C2. The three theoretical curves of the precision estimator are drawn
    over the same stars, which are all the stars of the aperture whose
    empirical estimate is positive, at least one, in ascending order of mean
    flux. Each curve is drawn against [np.log] of the star's mean flux [F]:
    the photon-noise curve is [sqrt(F)/F], the background-noise curve is
    [sqrt(S*A)/F] with [S] the mean sky level and [A] the area of the
    aperture, and the CCD-equation curve is the mean of the star's errors
    over the mean of its fluxes. *)
Theorem theoretical_curves (np : numpy) (self : observation) (bins : float)
    (ap : option nat) (a : nat) (fl er : list (list float))
    (fig : list series) :
  pick_aperture self ap = Ok a ->
  as_array self a = Ok (fl, er) ->
  length fl = length er ->
  plot_precision np self bins ap = Ok fig ->
  exists (n_bin : Z) (rms : list float) (A : float) (stars : list star)
         (scatter : series),
    bin_count np self bins = Ok n_bin
    /\ error_estimates np self n_bin fl = Ok rms
    /\ aperture_area self a = Ok A
    /\ Permutation stars (filter (positive_snr np) (stars_of fl er rms))
    /\ ascending np stars
    /\ stars <> []
    /\ let S := np_mean np (sky self) in
       let F := fun s => np_mean np (st_flux s) in
       fig = [ scatter;
               {| s_x := map (fun s => np_log (F s)) stars;
                  s_y := map (fun s => sqrt (F s) / F s)%float stars;
                  s_fmt := "--"; s_label := "photon noise" |};
               {| s_x := map (fun s => np_log (F s)) stars;
                  s_y := map (fun s => sqrt (S * A) / F s)%float stars;
                  s_fmt := ""; s_label := "background noise" |};
               {| s_x := map (fun s => np_log (F s)) stars;
                  s_y := map (fun s => np_mean np (st_error s)
                                       / np_mean np (st_flux s))%float stars;
                  s_fmt := ""; s_label := "CCD equation" |} ].
Proof.
  intros Ha Has Hlen H.
  destruct (plot_precision_Ok _ _ _ _ _ _ Ha H) as (n & Hn & _ & Hc).
  destruct (precision_curves_first _ _ _ _ _ Hc)
    as (first & rest & Ef & Hx & _).
  destruct (precision_curves_stars _ _ _ _ _ _ _ Has Hlen Hc)
    as (rms & A & Hr & _ & HA & Hfig).
  cbv zeta in Hfig.
  set (kept := filter (positive_snr np) (stars_of fl er rms)) in *.
  destruct (pick_argsort (fun s => np_mean np (st_flux s)) kept) as [Hp Hs].
  cbv zeta in Hp, Hs.
  exists n, rms, A,
    (pick kept (np_argsort (map (fun s => np_mean np (st_flux s)) kept))),
    (curve np "." "flux rms (7.2 min bins)" kept (inv_snr np)).
  split; [exact Hn|]. split; [exact Hr|]. split; [exact HA|].
  split; [exact Hp|]. split; [exact Hs|]. split; [|exact Hfig].
  intros E. rewrite E in Hp. apply Permutation_nil in Hp.
  apply Hx. rewrite Hfig in Ef. injection Ef as <- _.
  rewrite Hp. reflexivity.
Qed.

Lemma theoretical_curves_witness :
  exists (n_bin : Z) (rms : list float) (A : float) (stars : list star)
         (scatter : series),
    bin_count Ref.numpy Ref.demo 0.5 = Ok n_bin
    /\ error_estimates Ref.numpy Ref.demo n_bin
         [[3; 5; 3; 5]; [2; 2; 2; 2]; [1; 3; 1; 3]]%float = Ok rms
    /\ aperture_area Ref.demo 0 = Ok A
    /\ Permutation stars
         (filter (positive_snr Ref.numpy)
            (stars_of [[3; 5; 3; 5]; [2; 2; 2; 2]; [1; 3; 1; 3]]%float
               [[0.5; 0.5; 0.5; 0.5]; [1; 1; 1; 1];
                [0.25; 0.25; 0.25; 0.25]]%float rms))
    /\ ascending Ref.numpy stars
    /\ stars <> []
    /\ [ {| s_x := [np_log 4; np_log 2]; s_y := [0.25; 0.5]%float;
            s_fmt := "."; s_label := "flux rms (7.2 min bins)" |};
         {| s_x := [np_log 2; np_log 4];
            s_y := [0x1.6a09e667f3bcdp-1; 0.5]%float;
            s_fmt := "--"; s_label := "photon noise" |};
         {| s_x := [np_log 2; np_log 4]; s_y := [2; 1]%float;
            s_fmt := ""; s_label := "background noise" |};
         {| s_x := [np_log 2; np_log 4]; s_y := [0.125; 0.125]%float;
            s_fmt := ""; s_label := "CCD equation" |} ]
       = [ scatter;
           {| s_x := map (fun s => np_log (Ref.mean (st_flux s))) stars;
              s_y := map (fun s => sqrt (Ref.mean (st_flux s))
                                   / Ref.mean (st_flux s))%float stars;
              s_fmt := "--"; s_label := "photon noise" |};
           {| s_x := map (fun s => np_log (Ref.mean (st_flux s))) stars;
              s_y := map (fun s => sqrt (Ref.mean (sky Ref.demo) * A)
                                   / Ref.mean (st_flux s))%float stars;
              s_fmt := ""; s_label := "background noise" |};
           {| s_x := map (fun s => np_log (Ref.mean (st_flux s))) stars;
              s_y := map (fun s => Ref.mean (st_error s)
                                   / Ref.mean (st_flux s))%float stars;
              s_fmt := ""; s_label := "CCD equation" |} ].
Proof.
  apply (theoretical_curves Ref.numpy Ref.demo 0.5 None 0%nat);
    [reflexivity | reflexivity | reflexivity | vm_compute; reflexivity].
Defined.

Lemma length_filter_le {A} (P : A -> Prop) `{forall x, Decision (P x)}
    (l : list A) : (length (filter P l) <= length l)%nat.
Proof.
  induction l as [|x l IH]; simpl; [lia|].
  rewrite filter_cons. destruct (decide (P x)); simpl; lia.
Qed.

(** C3, as the code has it. The stars drawn are exactly the stars of the
    aperture whose empirical inverse signal-to-noise is strictly positive, so
    at most as many as the aperture has. The empirical estimate is drawn as a
    scatter over them in the order of the stars; the photon-noise,
    background-noise and CCD-equation curves are drawn over the same stars
    rearranged in ascending order of mean flux. *)
Theorem precision_output_order (np : numpy) (self : observation)
    (bins : float) (ap : option nat) (a : nat) (fl er : list (list float))
    (fig : list series) :
  pick_aperture self ap = Ok a ->
  as_array self a = Ok (fl, er) ->
  length fl = length er ->
  plot_precision np self bins ap = Ok fig ->
  exists (n_bin : Z) (rms : list float) (A : float)
         (kept sorted : list star),
    bin_count np self bins = Ok n_bin
    /\ error_estimates np self n_bin fl = Ok rms
    /\ aperture_area self a = Ok A
    /\ kept = filter (positive_snr np) (stars_of fl er rms)
    /\ (length kept <= length fl)%nat
    /\ Permutation sorted kept
    /\ ascending np sorted
    /\ fig = [ curve np "." "flux rms (7.2 min bins)" kept (inv_snr np);
               curve np "--" "photon noise" sorted
                 (fun s => sqrt (np_mean np (st_flux s))
                           / np_mean np (st_flux s))%float;
               curve np "" "background noise" sorted
                 (fun s => sqrt (np_mean np (sky self) * A)
                           / np_mean np (st_flux s))%float;
               curve np "" "CCD equation" sorted
                 (fun s => np_mean np (st_error s)
                           / np_mean np (st_flux s))%float ].
Proof.
  intros Ha Has Hlen H.
  destruct (plot_precision_Ok _ _ _ _ _ _ Ha H) as (n & Hn & _ & Hc).
  destruct (precision_curves_stars _ _ _ _ _ _ _ Has Hlen Hc)
    as (rms & A & Hr & Hl & HA & Hfig).
  cbv zeta in Hfig.
  set (kept := filter (positive_snr np) (stars_of fl er rms)) in *.
  destruct (pick_argsort (fun s => np_mean np (st_flux s)) kept) as [Hp Hs].
  cbv zeta in Hp, Hs.
  exists n, rms, A, kept,
    (pick kept (np_argsort (map (fun s => np_mean np (st_flux s)) kept))).
  split; [exact Hn|]. split; [exact Hr|]. split; [exact HA|].
  split; [reflexivity|]. split.
  - unfold kept. etransitivity; [apply length_filter_le|].
    unfold stars_of. rewrite length_zip_with. lia.
  - split; [exact Hp|]. split; [exact Hs | exact Hfig].
Qed.

Lemma precision_output_order_witness :
  exists (n_bin : Z) (rms : list float) (A : float)
         (kept sorted : list star),
    bin_count Ref.numpy Ref.demo 0.5 = Ok n_bin
    /\ error_estimates Ref.numpy Ref.demo n_bin
         [[3; 5; 3; 5]; [2; 2; 2; 2]; [1; 3; 1; 3]]%float = Ok rms
    /\ aperture_area Ref.demo 0 = Ok A
    /\ kept = filter (positive_snr Ref.numpy)
                (stars_of [[3; 5; 3; 5]; [2; 2; 2; 2]; [1; 3; 1; 3]]%float
                   [[0.5; 0.5; 0.5; 0.5]; [1; 1; 1; 1];
                    [0.25; 0.25; 0.25; 0.25]]%float rms)
    /\ (length kept <= 3)%nat
    /\ Permutation sorted kept
    /\ ascending Ref.numpy sorted
    /\ [ {| s_x := [np_log 4; np_log 2]; s_y := [0.25; 0.5]%float;
            s_fmt := "."; s_label := "flux rms (7.2 min bins)" |};
         {| s_x := [np_log 2; np_log 4];
            s_y := [0x1.6a09e667f3bcdp-1; 0.5]%float;
            s_fmt := "--"; s_label := "photon noise" |};
         {| s_x := [np_log 2; np_log 4]; s_y := [2; 1]%float;
            s_fmt := ""; s_label := "background noise" |};
         {| s_x := [np_log 2; np_log 4]; s_y := [0.125; 0.125]%float;
            s_fmt := ""; s_label := "CCD equation" |} ]
       = [ curve Ref.numpy "." "flux rms (7.2 min bins)" kept
             (inv_snr Ref.numpy);
           curve Ref.numpy "--" "photon noise" sorted
             (fun s => sqrt (Ref.mean (st_flux s))
                       / Ref.mean (st_flux s))%float;
           curve Ref.numpy "" "background noise" sorted
             (fun s => sqrt (Ref.mean (sky Ref.demo) * A)
                       / Ref.mean (st_flux s))%float;
           curve Ref.numpy "" "CCD equation" sorted
             (fun s => Ref.mean (st_error s)
                       / Ref.mean (st_flux s))%float ].
Proof.
  apply (precision_output_order Ref.numpy Ref.demo 0.5 None 0%nat);
    [reflexivity | reflexivity | reflexivity | vm_compute; reflexivity].
Defined.

(** The empirical estimate of two stars of mean flux 4 and 2 is drawn in
    that order, which is not the ascending order of mean flux. *)
Lemma rms_scatter_in_star_order :
  let s0 := {| st_flux := [3; 5; 3; 5]%float;
               st_error := [0.5; 0.5; 0.5; 0.5]%float; st_rms := 1 |} in
  let s2 := {| st_flux := [1; 3; 1; 3]%float;
               st_error := [0.25; 0.25; 0.25; 0.25]%float; st_rms := 1 |} in
  plot_precision Ref.numpy Ref.demo 0.5 None
  = Ok [ curve Ref.numpy "." "flux rms (7.2 min bins)" [s0; s2]
           (inv_snr Ref.numpy);
         curve Ref.numpy "--" "photon noise" [s2; s0]
           (fun s => sqrt (Ref.mean (st_flux s)) / Ref.mean (st_flux s))%float;
         curve Ref.numpy "" "background noise" [s2; s0]
           (fun s => sqrt (Ref.mean (sky Ref.demo) * 2)
                     / Ref.mean (st_flux s))%float;
         curve Ref.numpy "" "CCD equation" [s2; s0]
           (fun s => Ref.mean (st_error s) / Ref.mean (st_flux s))%float ]
  /\ np_mean Ref.numpy (st_flux s0) = 4%float
  /\ np_mean Ref.numpy (st_flux s2) = 2%float
  /\ ~ ascending Ref.numpy [s0; s2].
Proof.
  cbv zeta. split; [vm_compute; reflexivity|].
  split; [vm_compute; reflexivity|]. split; [vm_compute; reflexivity|].
  intros H. inversion H as [|? ? _ Hd]; subst.
  inversion Hd as [|? ? Hle]; subst. vm_compute in Hle. discriminate.
Qed.

(** ** PSF ellipticity *)




Lemma SFcompare_refl (a : spec_float) :
  a <> S754_nan -> SFcompare a a = Some Eq.
Proof.
  destruct a as [s|s| |s m e]; simpl; try congruence; intros _.
  - destruct s; reflexivity.
  - change (IntDef.Z.compare e e) with (Z.compare e e).
    change (PosDef.Pos.compare_cont Eq m m) with (Pos.compare m m).
    rewrite Z.compare_refl, Pos.compare_refl. destruct s; reflexivity.
Qed.

Lemma square_finite_not_nan (x : float) (s : bool) (m : positive) (e : Z) :
  Prim2SF (x * x) = S754_finite s m e -> is_nan x = false.
Proof.
  rewrite mul_spec. intros H. unfold is_nan.
  rewrite FloatAxioms.eqb_spec. unfold SFeqb.
  rewrite SFcompare_refl; [reflexivity|].
  intros E. rewrite E in H. discriminate.
Qed.

Lemma ltb_irrefl (x : float) : (x <? x)%float = false.
Proof.
  rewrite ltb_spec. unfold SFltb.
  destruct (Prim2SF x) as [s|s| |s m e] eqn:E; simpl; try reflexivity.
  - destruct s; reflexivity.
  - change (IntDef.Z.compare e e) with (Z.compare e e).
    change (PosDef.Pos.compare_cont Eq m m) with (Pos.compare m m).
    rewrite Z.compare_refl, Pos.compare_refl. destruct s; reflexivity.
Qed.


Lemma is_nan_true (x : float) : is_nan x = true -> Prim2SF x = S754_nan.
Proof.
  unfold is_nan. rewrite FloatAxioms.eqb_spec. unfold SFeqb. intros H.
  destruct (Prim2SF x) as [s|s| |s m e] eqn:E; [| |reflexivity|];
    rewrite SFcompare_refl in H by discriminate; discriminate H.
Qed.











(** ** The metadata table *)

Lemma append_assoc (a b c : string) : (a +:+ b) +:+ c = a +:+ (b +:+ c).
Proof.
  induction a as [|x a IH]; [reflexivity|].
  change (String x ((a +:+ b) +:+ c) = String x (a +:+ (b +:+ c))).
  f_equal. exact IH.
Qed.

Lemma td_seconds_range (a b : datetime) :
  (0 <= td_seconds (dt_sub a b) < 86400)%Z.
Proof. unfold dt_sub. simpl. apply Z.mod_pos_bound. lia. Qed.

Lemma obs_duration_format (dmin dmax : datetime) :
  let seconds := td_seconds (dt_sub dmax dmin) in
  let hours := (seconds / 3600)%Z in
  let minutes := ((seconds / 60) mod 60)%Z in
  obs_duration dmin dmax
  = strftime_HM dmin +:+ " - " +:+ strftime_HM dmax +:+ " ["
    +:+ pretty hours +:+ "h"
    +:+ (if (minutes =? 0)%Z then "" else pretty minutes) +:+ "]"
  /\ (0 <= hours < 24)%Z
  /\ (0 <= minutes < 60)%Z.
Proof.
  intros seconds hours minutes.
  pose proof (td_seconds_range dmax dmin) as Hs. fold seconds in Hs.
  split; [|split].
  - unfold obs_duration. fold seconds. fold hours. fold minutes.
    destruct (minutes =? 0)%Z; simpl;
      rewrite ?append_assoc; reflexivity.
  - unfold hours. split; [apply Z.div_pos; lia|].
    apply Z.div_lt_upper_bound; lia.
  - unfold minutes. apply Z.mod_pos_bound. lia.
Qed.

Lemma dt_min_earliest (l : list datetime) (d : datetime) :
  dt_min l = Ok d -> earliest d l.
Proof.
  destruct l as [|d0 l]; [discriminate|]. cbn [dt_min]. intros [= <-].
  assert (G : forall m,
             fold_left (fun m x => if (micros x <? micros m)%Z then x else m)
                       l m ∈ m :: l
             /\ (micros (fold_left
                           (fun m x => if (micros x <? micros m)%Z
                                       then x else m) l m)
                 <= micros m)%Z
             /\ Forall (fun x =>
                          (micros (fold_left
                                     (fun m x => if (micros x <? micros m)%Z
                                                 then x else m) l m)
                           <= micros x)%Z) l).
  { induction l as [|x l IH]; intros m; cbn [fold_left].
    - split; [apply list_elem_of_here|]. split; [lia|constructor].
    - destruct (Z.ltb_spec (micros x) (micros m)) as [Hlt|Hge].
      + destruct (IH x) as (Hin & Hle & Hall). split; [|split].
        * apply list_elem_of_further. exact Hin.
        * lia.
        * constructor; assumption.
      + destruct (IH m) as (Hin & Hle & Hall). split; [|split].
        * apply elem_of_cons in Hin as [->|Hin];
            [apply list_elem_of_here|].
          do 2 apply list_elem_of_further. exact Hin.
        * exact Hle.
        * constructor; [lia|assumption]. }
  destruct (G d0) as (Hin & Hle & Hall).
  split; [exact Hin|]. constructor; assumption.
Qed.

Lemma dt_max_latest (l : list datetime) (d : datetime) :
  dt_max l = Ok d -> latest d l.
Proof.
  destruct l as [|d0 l]; [discriminate|]. cbn [dt_max]. intros [= <-].
  assert (G : forall m,
             fold_left (fun m x => if (micros m <? micros x)%Z then x else m)
                       l m ∈ m :: l
             /\ (micros m
                 <= micros (fold_left
                              (fun m x => if (micros m <? micros x)%Z
                                          then x else m) l m))%Z
             /\ Forall (fun x =>
                          (micros x
                           <= micros (fold_left
                                        (fun m x => if (micros m <? micros x)%Z
                                                    then x else m) l m))%Z)
                       l).
  { induction l as [|x l IH]; intros m; cbn [fold_left].
    - split; [apply list_elem_of_here|]. split; [lia|constructor].
    - destruct (Z.ltb_spec (micros m) (micros x)) as [Hlt|Hge].
      + destruct (IH x) as (Hin & Hle & Hall). split; [|split].
        * apply list_elem_of_further. exact Hin.
        * lia.
        * constructor; assumption.
      + destruct (IH m) as (Hin & Hle & Hall). split; [|split].
        * apply elem_of_cons in Hin as [->|Hin];
            [apply list_elem_of_here|].
          do 2 apply list_elem_of_further. exact Hin.
        * exact Hle.
        * constructor; [lia|assumption]. }
  destruct (G d0) as (Hin & Hle & Hall).
  split; [exact Hin|]. constructor; assumption.
Qed.

(** C9, as the code has it. The metadata table is the ten rows TIC ID,
    Time, RA - DEC, Number of images, GAIA id, Mean std and fwhm, Best
    aperture radius, Telescope, Filter, Exposure time, in this order, each
    with its value: no TIC ID and no GAIA id, the right ascension and the
    declination, the number of epochs, the mean FWHM over
    [2 sqrt(2 ln 2)] and the mean FWHM with two decimals, the radius of the
    chosen aperture rounded to two decimals, the names of the telescope and
    of the filter, and the mean exposure time. The time span is written
    [HH:MM - HH:MM [<hours>h<minutes>]] from the earliest and the latest
    epoch, where the minutes are written only when they are not zero: a
    whole number of hours ends in [h]. *)
Theorem obstable_fields (np : numpy) (rt : Report.runtime)
    (self : observation) (table : list (string * cell)) :
  obstable np rt self = Ok table ->
  exists (datetimes : list datetime) (dmin dmax : datetime) (radius : float),
    Forall2 (fun t d => to_datetime rt t = Ok d) (time self) datetimes
    /\ earliest dmin datetimes
    /\ latest dmax datetimes
    /\ apertures_radii self !! 0%nat ≫= (.!! aperture self) = Some radius
    /\ let seconds := td_seconds (dt_sub dmax dmin) in
       let hours := (seconds / 3600)%Z in
       let minutes := ((seconds / 60) mod 60)%Z in
       table
       = [ ("TIC ID", CNone);
           ("Time",
             CStr (strftime_HM dmin +:+ " - " +:+ strftime_HM dmax
                   +:+ " [" +:+ pretty hours +:+ "h"
                   +:+ (if (minutes =? 0)%Z then "" else pretty minutes)
                   +:+ "]"));
           ("RA - DEC", CStr (RA self +:+ " " +:+ DEC self));
           ("Number of images", CInt (Z.of_nat (length (time self))));
           ("GAIA id", CNone);
           ("Mean std · fwhm",
             CStr (fmt_2f rt (np_mean np (fwhm self)
                              / (2 * sqrt (2 * ln2)))%float
                   +:+ " · " +:+ fmt_2f rt (np_mean np (fwhm self))
                   +:+ " pixels"));
           ("Best aperture radius",
             CStr (Report.str_float rt (round2 rt radius) +:+ " pixels"));
           ("Telescope", CStr (telescope_name self));
           ("Filter", CStr (filter_name self));
           ("Exposure time",
             CStr (Report.str_float rt (np_mean np (exptime self))
                   +:+ " s")) ]
       /\ (0 <= hours < 24)%Z
       /\ (0 <= minutes < 60)%Z.
Proof.
  intros H. unfold obstable in H. inv_bind H. injection H as <-.
  rename a into datetimes, a0 into dmin, a1 into dmax, a2 into radius.
  exists datetimes, dmin, dmax, radius.
  split; [apply comprehension_Ok; assumption|].
  split; [apply dt_min_earliest; assumption|].
  split; [apply dt_max_latest; assumption|].
  split.
  - match goal with
    | G : (_ ≫= _) = Ok radius |- _ => rename G into Hr
    end.
    inv_bind Hr. apply getitem_Ok in H. apply getitem_Ok in Hr.
    rewrite H. exact Hr.
  - destruct (obs_duration_format dmin dmax) as (E & Hh & Hm).
    cbv zeta in *. rewrite <- E. auto.
Qed.

Lemma obstable_fields_witness :
  exists (datetimes : list datetime) (dmin dmax : datetime) (radius : float),
    Forall2 (fun t d => Ref.jd_to_datetime t = Ok d)
            [2459000.5; 2459000.75; 2459001; 2459001.25]%float datetimes
    /\ earliest dmin datetimes
    /\ latest dmax datetimes
    /\ Some 1.5%float = Some radius
    /\ [ ("TIC ID", CNone); ("Time", CStr "00:00 - 18:00 [18h]");
         ("RA - DEC", CStr "10:00:00 -20:00:00");
         ("Number of images", CInt 4); ("GAIA id", CNone);
         ("Mean std · fwhm", CStr "1.27 · 3.00 pixels");
         ("Best aperture radius", CStr "1.5 pixels");
         ("Telescope", CStr "Trappist-South"); ("Filter", CStr "I+z");
         ("Exposure time", CStr "21600.0 s") ]
       = [ ("TIC ID", CNone);
           ("Time",
             CStr (strftime_HM dmin +:+ " - " +:+ strftime_HM dmax
                   +:+ " ["
                   +:+ pretty (td_seconds (dt_sub dmax dmin) / 3600)%Z
                   +:+ "h"
                   +:+ (if ((td_seconds (dt_sub dmax dmin) / 60) mod 60
                            =? 0)%Z
                        then ""
                        else pretty ((td_seconds (dt_sub dmax dmin) / 60)
                                     mod 60)%Z)
                   +:+ "]"));
           ("RA - DEC", CStr ("10:00:00" +:+ " " +:+ "-20:00:00"));
           ("Number of images", CInt 4);
           ("GAIA id", CNone);
           ("Mean std · fwhm",
             CStr (Ref.format_2f (Ref.mean [2; 2; 4; 4]
                                  / (2 * sqrt (2 * ln2)))%float
                   +:+ " · " +:+ Ref.format_2f (Ref.mean [2; 2; 4; 4]%float)
                   +:+ " pixels"));
           ("Best aperture radius",
             CStr (Ref.str (Ref.round_2 radius) +:+ " pixels"));
           ("Telescope", CStr "Trappist-South");
           ("Filter", CStr "I+z");
           ("Exposure time",
             CStr (Ref.str (Ref.mean [21600; 21600; 21600; 21600]%float)
                   +:+ " s")) ]
       /\ (0 <= td_seconds (dt_sub dmax dmin) / 3600 < 24)%Z
       /\ (0 <= (td_seconds (dt_sub dmax dmin) / 60) mod 60 < 60)%Z.
Proof.
  apply (obstable_fields Ref.numpy Ref.runtime Ref.demo).
  vm_compute. reflexivity.
Defined.

(** From 20:00 to 22:00 the span is written without minutes. *)
Lemma obs_duration_whole_hours :
  obs_duration
    {| dt_day := 738000; dt_hour := 20; dt_minute := 0; dt_second := 0;
       dt_microsecond := 0 |}
    {| dt_day := 738000; dt_hour := 22; dt_minute := 0; dt_second := 0;
       dt_microsecond := 0 |}
  = "20:00 - 22:00 [2h]".
Proof. vm_compute. reflexivity. Qed.

(** ** Slice assignment and the interleaved columns *)

Lemma set_evens_length {A} (xs l : list A) :
  length (set_evens xs l) = length l.
Proof.
  revert l. induction xs as [|x xs IH]; intros l; [destruct l; reflexivity|].
  destruct l as [|a [|b l]]; simpl; auto.
Qed.

Lemma assign_fold {A} (xs : list A) (pre l : list A) :
  (length l = 2 * length xs \/ S (length l) = 2 * length xs)%nat ->
  fold_left (fun acc (ix : nat * A) => <[ix.1 := ix.2]> acc)
    (zip (map (fun k => length pre + 2 * k)%nat (seq 0 (length xs))) xs)
    (pre ++ l)
  = pre ++ set_evens xs l.
Proof.
  revert pre l. induction xs as [|x xs IH]; intros pre l Hl.
  - destruct l; reflexivity.
  - destruct l as [|a [|b l]]; simpl in Hl; [lia| |].
    + assert (xs = []) as -> by (destruct xs; [reflexivity | simpl in Hl; lia]).
      simpl. rewrite Nat.add_0_r.
      rewrite insert_app_r_alt, Nat.sub_diag by lia. reflexivity.
    + cbn [length seq map zip zip_with fold_left fst snd].
      rewrite Nat.add_0_r.
      rewrite insert_app_r_alt, Nat.sub_diag by lia. cbn [insert list_insert].
      rewrite <- seq_shift, map_map.
      specialize (IH (pre ++ [x; b]) l).
      rewrite length_app in IH. cbn [length] in IH.
      replace (pre ++ x :: b :: l) with ((pre ++ [x; b]) ++ l)
        by (rewrite <- app_assoc; reflexivity).
      erewrite map_ext; [rewrite IH by lia|intros k; cbv beta; lia].
      rewrite <- app_assoc. reflexivity.
Qed.

Lemma assign_stride2_Ok {A} (xs : list A) (start : nat) (pre l : list A) :
  length pre = start ->
  (length l = 2 * length xs \/ S (length l) = 2 * length xs)%nat ->
  assign_stride2 (pre ++ l) start xs = Ok (pre ++ set_evens xs l).
Proof.
  intros Hp Hl. unfold assign_stride2, slice_positions.
  assert (E : ((length (pre ++ l) - start + 1) / 2 = length xs)%nat).
  { rewrite length_app, Hp.
    replace (start + length l - start + 1)%nat with (length l + 1)%nat by lia.
    destruct Hl as [Hl|Hl].
    - rewrite Hl. replace (2 * length xs + 1)%nat with (1 + length xs * 2)%nat
        by lia.
      rewrite Nat.div_add by lia. reflexivity.
    - replace (length l + 1)%nat with (0 + length xs * 2)%nat by lia.
      rewrite Nat.div_add by lia. reflexivity. }
  rewrite E, decide_True by (rewrite length_map, length_seq; reflexivity).
  subst start. rewrite assign_fold by exact Hl. reflexivity.
Qed.

Lemma set_evens_replicate {A} (ev : list A) :
  set_evens (map Some ev) (replicate (length ev + length ev)%nat None)
  = interleave (map Some ev) (replicate (length ev) None).
Proof.
  induction ev as [|e ev IH]; [reflexivity|].
  replace (length (e :: ev) + length (e :: ev))%nat
    with (S (S (length ev + length ev))) by (simpl; lia).
  cbn [length map replicate set_evens interleave].
  rewrite IH. reflexivity.
Qed.

Lemma set_odds_interleave {A} (ev od : list A) :
  length ev = length od ->
  match interleave (map Some ev) (replicate (length ev) None) with
  | [] => []
  | h :: t => h :: set_evens (map Some od) t
  end = map Some (interleave ev od).
Proof.
  revert od. induction ev as [|e ev IH]; intros [|o od] Hl;
    try discriminate; [reflexivity|].
  injection Hl as Hl. specialize (IH od Hl).
  cbn [length map replicate interleave].
  destruct ev as [|e' ev]; destruct od as [|o' od]; try discriminate;
    [reflexivity|].
  cbn [length map replicate interleave set_evens] in *.
  injection IH as IH. rewrite IH. reflexivity.
Qed.

Lemma interleave_length {A} (xs ys : list A) :
  length xs = length ys ->
  length (interleave xs ys) = (length xs + length xs)%nat.
Proof.
  revert ys. induction xs as [|x xs IH]; intros [|y ys] Hl; try discriminate;
    [reflexivity|].
  injection Hl as Hl. simpl. rewrite IH by exact Hl. lia.
Qed.

Lemma interleave_slots_Ok {A} (ev od : list A) :
  length ev = length od ->
  interleave_slots ev od = Ok (map Some (interleave ev od)).
Proof.
  intros Hl. unfold interleave_slots.
  rewrite <- Hl.
  pose proof (assign_stride2_Ok (map Some ev) 0 []
                (replicate (length ev + length ev) None) eq_refl) as G1.
  cbn [app] in G1. rewrite G1
    by (left; rewrite length_replicate, length_map; lia).
  rewrite bind_Ok_l, set_evens_replicate.
  pose proof (set_odds_interleave ev od Hl) as G.
  destruct (interleave (map Some ev) (replicate (length ev) None))
    as [|h t] eqn:E.
  - rewrite <- G. destruct od; [reflexivity|].
    destruct ev; discriminate.
  - rewrite <- G.
    apply (assign_stride2_Ok (map Some od) 1 [h] t eq_refl).
    right. apply (f_equal length) in E.
    rewrite interleave_length in E
      by (rewrite length_map, length_replicate; reflexivity).
    rewrite !length_map in *. simpl in E. lia.
Qed.

(** ** The insertion-ordered dictionary *)

Lemma dict_set_new {K V} `{EqDecision K} (d : list (K * V)) (k : K) (v : V) :
  k ∉ map fst d -> dict_set d k v = d ++ [(k, v)].
Proof.
  induction d as [|[k' v'] d IH]; simpl; intros Hk; [reflexivity|].
  apply not_elem_of_cons in Hk as [Hne Hk].
  rewrite decide_False by congruence. rewrite IH by exact Hk. reflexivity.
Qed.

Lemma dict_set_same {K V} `{EqDecision K} (d : list (K * V)) (k : K) (v : V) :
  (k, v) ∈ d -> NoDup (map fst d) -> dict_set d k v = d.
Proof.
  induction d as [|[k' v'] d IH]; simpl; intros Hin Hnd.
  - apply elem_of_nil in Hin. contradiction.
  - apply NoDup_cons in Hnd as [Hk' Hnd].
    destruct (decide (k' = k)) as [->|Hne].
    + apply elem_of_cons in Hin as [[= ->]|Hin]; [reflexivity|].
      exfalso. apply Hk'. apply (list_elem_of_fmap_2 fst) in Hin. exact Hin.
    + apply elem_of_cons in Hin as [[= <- _]|Hin]; [congruence|].
      rewrite IH by assumption. reflexivity.
Qed.

Lemma dict_update_fresh {K V} `{EqDecision K} (kvs d : list (K * V)) :
  NoDup (map fst (d ++ kvs)) -> dict_update d kvs = d ++ kvs.
Proof.
  unfold dict_update. revert d.
  induction kvs as [|[k v] kvs IH]; intros d Hnd; simpl.
  - rewrite app_nil_r. reflexivity.
  - rewrite dict_set_new.
    + rewrite IH; rewrite <- app_assoc; [reflexivity | exact Hnd].
    + rewrite map_app in Hnd. apply NoDup_app in Hnd as (_ & Hd & _).
      intros Hk. apply (Hd k Hk). simpl. apply list_elem_of_here.
Qed.

(** ** The columns of the measurement table *)

Lemma flux_name_inj (i j : nat) :
  "DIFF_FLUX_C" +:+ pretty i = "DIFF_FLUX_C" +:+ pretty j -> i = j.
Proof. intros E. apply String.app_inj in E. apply pretty_nat_inj in E. exact E. Qed.

Lemma error_name_inj (i j : nat) :
  "DIFF_ERROR_C" +:+ pretty i = "DIFF_ERROR_C" +:+ pretty j -> i = j.
Proof. intros E. apply String.app_inj in E. apply pretty_nat_inj in E. exact E. Qed.

(** Two strings that differ at one of their first characters. *)
Ltac differ_at k E :=
  apply (f_equal (String.get k)) in E; vm_compute in E; discriminate E.

Ltac differ E :=
  first [ differ_at 0%nat E | differ_at 1%nat E | differ_at 2%nat E
        | differ_at 3%nat E | differ_at 4%nat E | differ_at 5%nat E
        | differ_at 10%nat E | differ_at 11%nat E ].

Lemma flux_name_not_error (i j : nat) :
  "DIFF_FLUX_C" +:+ pretty i <> "DIFF_ERROR_C" +:+ pretty j.
Proof. intros E. differ E. Qed.

Lemma star_names (flux err : nat -> list float) (cs : list nat) (k : string) :
  k ∈ map fst (flat_map (star_columns flux err) cs) <->
  exists i, i ∈ cs
            /\ (k = "DIFF_FLUX_C" +:+ pretty i
                \/ k = "DIFF_ERROR_C" +:+ pretty i).
Proof.
  induction cs as [|c cs IH]; simpl.
  - split; [intros H; apply elem_of_nil in H; contradiction|].
    intros (i & Hi & _). apply elem_of_nil in Hi. contradiction.
  - rewrite !elem_of_cons, IH. split.
    + intros [->|[->|(i & Hi & Hk)]].
      * exists c. split; [left; reflexivity | left; reflexivity].
      * exists c. split; [left; reflexivity | right; reflexivity].
      * exists i. rewrite elem_of_cons. auto.
    + intros (i & Hi & Hk). apply elem_of_cons in Hi as [->|Hi].
      * destruct Hk; auto.
      * right. right. eauto.
Qed.

Lemma star_names_NoDup (flux err : nat -> list float) (cs : list nat) :
  NoDup cs -> NoDup (map fst (flat_map (star_columns flux err) cs)).
Proof.
  induction 1 as [|c cs Hc Hnd IH]; simpl; [constructor|].
  apply NoDup_cons. split.
  - rewrite elem_of_cons, star_names. intros [E|(i & Hi & [E|E])].
    + exact (flux_name_not_error _ _ E).
    + apply flux_name_inj in E. subst i. exact (Hc Hi).
    + exact (flux_name_not_error _ _ E).
  - apply NoDup_cons. split; [|exact IH].
    rewrite star_names. intros (i & Hi & [E|E]).
    + symmetry in E. exact (flux_name_not_error _ _ E).
    + apply error_name_inj in E. subst i. exact (Hc Hi).
Qed.

Lemma as_frame_keys (t : list (string * list float)) :
  map fst (as_frame t) = map Some (map fst t).
Proof. unfold as_frame. rewrite !map_map. reflexivity. Qed.

Lemma NoDup_map_Some {A} (l : list A) : NoDup l -> NoDup (map Some l).
Proof.
  intros H. rewrite map_fmap. apply NoDup_fmap_2; [|exact H].
  intros x y [= ->]. reflexivity.
Qed.

Lemma as_frame_app (t u : list (string * list float)) :
  as_frame (t ++ u) = as_frame t ++ as_frame u.
Proof. unfold as_frame. apply map_app. Qed.

Lemma first_occurrences_fold (cs acc : list nat) :
  NoDup acc ->
  NoDup (fold_left (fun acc i => if decide (i ∈ acc) then acc else acc ++ [i])
                   cs acc).
Proof.
  revert acc. induction cs as [|c cs IH]; intros acc Hnd; simpl; [exact Hnd|].
  apply IH. destruct (decide (c ∈ acc)); [exact Hnd|].
  apply NoDup_app. split; [exact Hnd|]. split; [|apply NoDup_singleton].
  intros x Hx Hc. apply list_elem_of_singleton in Hc. subst. contradiction.
Qed.

Lemma first_occurrences_NoDup (cs : list nat) : NoDup (first_occurrences cs).
Proof. apply first_occurrences_fold. constructor. Qed.

Lemma first_occurrences_id (cs : list nat) :
  NoDup cs -> first_occurrences cs = cs.
Proof.
  unfold first_occurrences.
  enough (G : forall acc, NoDup (acc ++ cs) ->
            fold_left (fun acc i => if decide (i ∈ acc) then acc
                                    else acc ++ [i]) cs acc = acc ++ cs).
  { intros H. apply (G []). exact H. }
  induction cs as [|c cs IH]; intros acc Hnd; simpl.
  - rewrite app_nil_r. reflexivity.
  - rewrite decide_False.
    + rewrite IH; rewrite <- app_assoc; [reflexivity | exact Hnd].
    + apply NoDup_app in Hnd as (_ & Hd & _). intros Hc.
      apply (Hd c Hc). apply list_elem_of_here.
Qed.

Lemma as_frame_star (flux err : nat -> list float) (c : nat) :
  as_frame (star_columns flux err c)
  = [ (Some ("DIFF_FLUX_C" +:+ pretty c), Some (flux c));
      (Some ("DIFF_ERROR_C" +:+ pretty c), Some (err c)) ].
Proof. reflexivity. Qed.

(** Assigning the columns of the stars [cs] one after the other leaves the
    columns of the distinct stars, each where it was first assigned. *)
Lemma dict_update_stars (flux err : nat -> list float) (cs acc : list nat) :
  NoDup acc ->
  dict_update (as_frame (flat_map (star_columns flux err) acc))
              (as_frame (flat_map (star_columns flux err) cs))
  = as_frame (flat_map (star_columns flux err)
                (fold_left (fun acc i => if decide (i ∈ acc) then acc
                                         else acc ++ [i]) cs acc)).
Proof.
  revert acc. induction cs as [|c cs IH]; intros acc Hnd; [reflexivity|].
  cbn [flat_map fold_left]. rewrite as_frame_app.
  unfold dict_update in *. rewrite fold_left_app.
  assert (Hk : NoDup (map fst (as_frame
                 (flat_map (star_columns flux err) acc)))).
  { rewrite as_frame_keys. apply NoDup_map_Some, star_names_NoDup, Hnd. }
  destruct (decide (c ∈ acc)) as [Hc|Hc].
  - rewrite as_frame_star. cbn [fold_left fst snd].
    assert (Hin : forall p, p ∈ star_columns flux err c ->
              (Some p.1, Some p.2)
              ∈ as_frame (flat_map (star_columns flux err) acc)).
    { intros p Hp. unfold as_frame. rewrite map_fmap.
      apply (list_elem_of_fmap_2 (fun c => (Some c.1, Some c.2))).
      apply list_elem_of_In, in_flat_map. exists c.
      split; apply list_elem_of_In; assumption. }
    pose proof (Hin ("DIFF_FLUX_C" +:+ pretty c, flux c)
                  ltac:(apply list_elem_of_here)) as H1.
    pose proof (Hin ("DIFF_ERROR_C" +:+ pretty c, err c)
                  ltac:(apply elem_of_cons; right; apply list_elem_of_here))
      as H2.
    cbn [fst snd] in H1, H2.
    rewrite (dict_set_same _ _ _ H1 Hk), (dict_set_same _ _ _ H2 Hk).
    apply IH, Hnd.
  - rewrite as_frame_star. cbn [fold_left fst snd].
    rewrite (dict_set_new (as_frame (flat_map (star_columns flux err) acc))
               (Some ("DIFF_FLUX_C" +:+ pretty c))).
    2:{ rewrite as_frame_keys. intros Hin.
        rewrite map_fmap in Hin.
        apply list_elem_of_fmap in Hin as (k & [= <-] & Hin).
        apply star_names in Hin as (i & Hi & [E|E]).
        - apply flux_name_inj in E. subst. contradiction.
        - exact (flux_name_not_error _ _ E). }
    rewrite dict_set_new.
    2:{ rewrite map_app, as_frame_keys. intros Hin.
        apply elem_of_app in Hin as [Hin|Hin].
        - rewrite map_fmap in Hin.
          apply list_elem_of_fmap in Hin as (k & [= <-] & Hin).
          apply star_names in Hin as (i & Hi & [E|E]).
          + symmetry in E. exact (flux_name_not_error _ _ E).
          + apply error_name_inj in E. subst. contradiction.
        - apply list_elem_of_singleton in Hin.
          apply (f_equal (from_option id "")) in Hin. cbn in Hin.
          symmetry in Hin. exact (flux_name_not_error _ _ Hin). }
    rewrite <- app_assoc. cbn [app].
    specialize (IH (acc ++ [c])).
    rewrite flat_map_app, as_frame_app in IH. cbn [flat_map] in IH.
    rewrite app_nil_r, as_frame_star in IH. apply IH.
    apply NoDup_app. split; [exact Hnd|]. split; [|apply NoDup_singleton].
    intros x Hx Hx'. apply list_elem_of_singleton in Hx'. subst. contradiction.
Qed.

Lemma zip_interleave_columns (flux err : nat -> list float) (cs : list nat) :
  zip (map Some (interleave (map (fun i : nat => "DIFF_FLUX_C" +:+ pretty i) cs)
                            (map (fun i : nat => "DIFF_ERROR_C" +:+ pretty i) cs)))
      (map Some (interleave (map flux cs) (map err cs)))
  = as_frame (flat_map (star_columns flux err) cs).
Proof.
  induction cs as [|c cs IH]; [reflexivity|].
  cbn [map interleave zip zip_with flat_map app]. rewrite as_frame_app.
  rewrite as_frame_star. cbn [app]. f_equal. f_equal. exact IH.
Qed.

Lemma comprehension_getitem2 (m : list (list (list float))) (a : nat)
    (cs : list nat) (ys : list (list float)) :
  comprehension (fun i => row ← getitem m a; getitem row i) cs = Ok ys ->
  ys = map (fun i : nat => default [] (m !! a ≫= (.!! i))) cs.
Proof.
  intros H. apply comprehension_Ok in H.
  induction H as [|i y cs ys Hi _ IH]; [reflexivity|].
  simpl. f_equal; [|exact IH].
  inv_bind Hi. apply getitem_Ok in H, Hi. rewrite H. simpl. rewrite Hi.
  reflexivity.
Qed.

Lemma arrays_as_frame (t : list (string * list float)) :
  arrays (as_frame t) = map snd t.
Proof.
  unfold arrays, as_frame. induction t as [|c t IH]; [reflexivity|].
  simpl. f_equal. exact IH.
Qed.

Lemma dataframe_Ok (cols df : list (colname * column)) :
  dataframe cols = Ok df ->
  df = cols
  /\ exists c cs, arrays cols = c :: cs
                  /\ Forall (fun c' => length c' = length c) cs.
Proof.
  unfold dataframe. destruct (arrays cols) as [|c cs]; [discriminate|].
  destruct (forallb _ cs) eqn:E; [|discriminate].
  intros [= <-]. split; [reflexivity|]. exists c, cs. split; [reflexivity|].
  apply Forall_forall. intros c' Hc'.
  apply list_elem_of_In in Hc'.
  rewrite forallb_forall in E. apply Nat.eqb_eq, E, Hc'.
Qed.

Lemma frame_rows_table (t : list (string * list float)) (c : string * list float) :
  frame_rows (as_frame (c :: t))
  = map (table_row (c :: t)) (seq 0 (length c.2)).
Proof.
  unfold frame_rows, frame_height. rewrite arrays_as_frame.
  cbn [map]. apply map_ext. intros r.
  unfold table_row, as_frame. rewrite map_map. reflexivity.
Qed.

Lemma time_column_cases (self : observation) :
  time_column self = "BJD-TDB" /\ time_format self = "bjd_tdb"
  \/ time_column self = "JD-UTC" /\ time_format self <> "bjd_tdb".
Proof.
  unfold time_column.
  destruct (String.eqb_spec (time_format self) "bjd_tdb"); auto.
Qed.

Lemma measurement_names_NoDup (tc : string) (flux err : nat -> list float)
    (stars : list nat) :
  tc = "BJD-TDB" \/ tc = "JD-UTC" ->
  NoDup stars ->
  NoDup ([tc; "DIFF_FLUX_T1"; "DIFF_ERROR_T1"]
         ++ map fst (flat_map (star_columns flux err) stars)
         ++ ["dx"; "dy"; "FWHM"; "SKYLEVEL"; "AIRMASS"; "EXPOSURE"]).
Proof.
  intros Htc Hnd.
  assert (Hstar : forall k,
            k ∈ map fst (flat_map (star_columns flux err) stars) ->
            k ∉ [tc; "DIFF_FLUX_T1"; "DIFF_ERROR_T1"; "dx"; "dy"; "FWHM";
                 "SKYLEVEL"; "AIRMASS"; "EXPOSURE"]).
  { intros k Hk Hl. apply star_names in Hk as (i & _ & Hk).
    repeat (apply elem_of_cons in Hl as [Hl|Hl];
            [subst k; destruct Htc as [->| ->]; destruct Hk as [E|E];
             differ E|]).
    apply elem_of_nil in Hl. exact Hl. }
  apply NoDup_app. split; [|split].
  - destruct Htc as [->| ->]; apply (bool_decide_unpack _); vm_compute; exact I.
  - intros k Hk Hin. apply elem_of_app in Hin as [Hin|Hin].
    + apply (Hstar k Hin). repeat rewrite elem_of_cons in *. tauto.
    + destruct Htc as [->| ->];
        repeat (apply elem_of_cons in Hk as [->|Hk];
                [repeat (apply elem_of_cons in Hin as [Hin|Hin];
                         [discriminate Hin|]);
                 apply elem_of_nil in Hin; exact Hin|]);
        apply elem_of_nil in Hk; exact Hk.
  - apply NoDup_app. split; [apply star_names_NoDup, Hnd|]. split.
    + intros k Hk Hin. apply (Hstar k Hk).
      repeat rewrite elem_of_cons in *. tauto.
    + apply (bool_decide_unpack _). vm_compute. exact I.
Qed.

Lemma csv_of_table (t : list (string * list float)) (n0 : string)
    (c0 : list float) (df : list (colname * column)) :
  dataframe (as_frame ((n0, c0) :: t)) = Ok df ->
  map fst df = map (fun c => Some c.1) ((n0, c0) :: t)
  /\ Forall (fun c => length c.2 = length c0) ((n0, c0) :: t)
  /\ length (frame_rows df) = length c0
  /\ frame_rows df = map (table_row ((n0, c0) :: t)) (seq 0 (length c0)).
Proof.
  intros Hdf.
  apply dataframe_Ok in Hdf as (-> & c & cs' & Harr & Hlen).
  rewrite arrays_as_frame in Harr. cbn [map snd] in Harr.
  injection Harr as <- <-.
  split; [unfold as_frame; rewrite map_map; reflexivity|].
  split; [|split].
  - apply Forall_cons. split; [reflexivity|].
    rewrite map_fmap in Hlen. apply Forall_fmap in Hlen. exact Hlen.
  - rewrite frame_rows_table, length_map, length_seq. reflexivity.
  - apply frame_rows_table.
Qed.

(** C1. The table written by [to_csv_report] has, in this order, the time
    column, named BJD-TDB when the time format is [bjd_tdb] and JD-UTC
    otherwise, the differential flux of the target and its error, for each
    comparison star of the chosen aperture its flux column immediately
    followed by its error column, in the order of the comparison stars (a
    star listed twice has its pair once, where it first stands), and then dx,
    dy, FWHM, SKYLEVEL, AIRMASS, EXPOSURE; every column is as long as the
    time series, and row [r] holds the value of each column at epoch [r]. *)
Theorem csv_report_columns (self : observation) (sep : string)
    (csv : csv_file) :
  csv_report self sep = Ok csv ->
  exists comparison_stars : list nat,
    comps self !! aperture self = Some comparison_stars
    /\ let stars := first_occurrences comparison_stars in
       let table :=
         [ (if String.eqb (time_format self) "bjd_tdb" then "BJD-TDB"
            else "JD-UTC", time self);
           ("DIFF_FLUX_T1", diff_flux self);
           ("DIFF_ERROR_T1", diff_error self) ]
         ++ flat_map (fun i : nat =>
                        [ ("DIFF_FLUX_C" +:+ pretty i, star_flux self i);
                          ("DIFF_ERROR_C" +:+ pretty i, star_error self i) ])
                     stars
         ++ [ ("dx", dx self); ("dy", dy self); ("FWHM", fwhm self);
              ("SKYLEVEL", sky self); ("AIRMASS", airmass self);
              ("EXPOSURE", exptime self) ] in
       (NoDup comparison_stars -> stars = comparison_stars)
       /\ csv_header csv = map (fun c => Some c.1) table
       /\ Forall (fun c => length c.2 = length (time self)) table
       /\ length (csv_rows csv) = length (time self)
       /\ csv_rows csv = map (table_row table) (seq 0 (length (time self))).
Proof.
  intros H. unfold csv_report in H.
  apply bind_Ok in H as (cs & Hcs & H).
  rewrite interleave_slots_Ok in H by (rewrite !length_map; reflexivity).
  rewrite bind_Ok_l in H.
  apply bind_Ok in H as (fa & Hfa & H).
  apply bind_Ok in H as (ea & Hea & H).
  apply comprehension_getitem2 in Hfa, Hea.
  fold (star_flux self) in Hfa. fold (star_error self) in Hea. subst fa ea.
  rewrite interleave_slots_Ok in H by (rewrite !length_map; reflexivity).
  rewrite bind_Ok_l in H.
  rewrite zip_interleave_columns in H.
  pose proof (dict_update_stars (star_flux self) (star_error self) cs []
                (NoDup_nil_2 (A := nat))) as Hin.
  cbn [flat_map] in Hin. change (as_frame []) with (@nil (colname * column)) in Hin.
  fold (first_occurrences cs) in Hin. unfold colname, column in Hin.
  rewrite Hin in H. clear Hin.
  exists cs. split; [apply getitem_Ok, Hcs|].
  intros stars table. fold stars in H.
  split; [apply first_occurrences_id|].
  fold (time_column self) in table.
  assert (Et : as_frame table
               = [ (Some (time_column self), Some (time self));
                   (Some "DIFF_FLUX_T1", Some (diff_flux self));
                   (Some "DIFF_ERROR_T1", Some (diff_error self)) ]
                 ++ as_frame (flat_map
                      (star_columns (star_flux self) (star_error self)) stars)
                 ++ [ (Some "dx", Some (dx self));
                      (Some "dy", Some (dy self));
                      (Some "FWHM", Some (fwhm self));
                      (Some "SKYLEVEL", Some (sky self));
                      (Some "AIRMASS", Some (airmass self));
                      (Some "EXPOSURE", Some (exptime self)) ]).
  { unfold table. rewrite !as_frame_app. reflexivity. }
  unfold colname, column in *. rewrite <- Et in H.
  rewrite dict_update_fresh in H.
  2:{ cbn [app]. rewrite as_frame_keys. apply NoDup_map_Some.
      unfold table. rewrite !map_app.
      apply (measurement_names_NoDup (time_column self)).
      - destruct (time_column_cases self) as [[-> _]|[-> _]]; auto.
      - apply first_occurrences_NoDup. }
  cbn [app] in H. clear Et.
  apply bind_Ok in H as (df & Hdf & H). injection H as <-.
  cbn [csv_header csv_rows]. subst table. cbn [app] in *.
  exact (csv_of_table _ _ _ _ Hdf).
Qed.

(** ** The upload *)

Lemma posted_files_app (l1 l2 : list Exofop.event) :
  Exofop.posted_files (l1 ++ l2)
  = Exofop.posted_files l1 ++ Exofop.posted_files l2.
Proof. unfold Exofop.posted_files. apply omap_app. Qed.

(** A branch of the loop body that sends the file. *)
Ltac sending_branch :=
  cbn [orb];
  unfold mbind, prog_bind, Exofop.print, Exofop.print_files, Exofop.post,
    mret, prog_ret;
  cbn -[String.append];
  match goal with
  | |- context [Exofop.server ?rt ?q] =>
      destruct (Exofop.server rt q) as [resp|e];
      [destruct (Exofop.r_ok resp)|]
  end;
  cbn -[String.append]; rewrite <- ?app_assoc;
  (eexists; split; [reflexivity|]; split; [reflexivity | discriminate]).

(** What one turn of the loop adds to the log. *)
Lemma upload_file_out (rt : Exofop.runtime) (toi tic tag f : string)
    (log : list Exofop.event) :
  exists out,
    (Exofop.upload_file rt toi tic tag f log).1 = log ++ out
    /\ Exofop.posted_files out = (if eligible rt f then [f] else [])
    /\ (eligible rt f = false ->
        out = [not_uploaded f]
        /\ (Exofop.upload_file rt toi tic tag f log).2 = Ok tt).
Proof.
  unfold Exofop.upload_file, eligible, tic_prefixed, recognized_suffixes.
  destruct (Exofop.is_file rt f); cbn [andb];
    [|exists [not_uploaded f]; repeat split; reflexivity].
  destruct (startswith f "TIC"); cbn [andb];
    [|exists [not_uploaded f]; repeat split; reflexivity].
  destruct (startswith f "TIC "); cbn [andb negb];
    [exists [not_uploaded f]; repeat split; reflexivity|].
  unfold Exofop.describe. cbn [existsb].
  destruct (endswith f "stars.png"); [sending_branch|].
  destruct (endswith f "model.png"); [sending_branch|].
  destruct (endswith f "psf.png"); [sending_branch|].
  destruct (endswith f "comparison.png"); [sending_branch|].
  destruct (endswith f "systematics.png"); [sending_branch|].
  destruct (endswith f
              "Light curve plot target target star with systematics");
    [sending_branch|].
  destruct (endswith f "measurements.txt"); [sending_branch|].
  destruct (endswith f "lightcurve.png"); [sending_branch|].
  exists [not_uploaded f]. repeat split; reflexivity.
Qed.

Lemma for_each_files (rt : Exofop.runtime) (toi tic tag : string)
    (files : list string) (log : list Exofop.event) :
  exists out,
    (for_each files (Exofop.upload_file rt toi tic tag) log).1 = log ++ out
    /\ Exofop.posted_files out `prefix_of` filter (fun f => eligible rt f = true) files
    /\ ((for_each files (Exofop.upload_file rt toi tic tag) log).2 = Ok tt ->
        forall f, f ∈ files -> eligible rt f = false ->
                  not_uploaded f ∈ out).
Proof.
  revert log. induction files as [|f files IH]; intros log.
  - exists []. cbn. rewrite app_nil_r. repeat split; [reflexivity|].
    intros _ f Hf. apply elem_of_nil in Hf. contradiction.
  - cbn [for_each]. unfold mbind, prog_bind.
    destruct (upload_file_out rt toi tic tag f log) as (o1 & E1 & P1 & N1).
    destruct (Exofop.upload_file rt toi tic tag f log) as [log1 r1].
    cbn [fst snd] in *. subst log1.
    rewrite filter_cons.
    destruct r1 as [[]|e].
    + destruct (IH (log ++ o1)) as (o2 & E2 & P2 & N2).
      exists (o1 ++ o2). rewrite app_assoc. split; [exact E2|].
      rewrite posted_files_app, P1. split.
      * destruct (eligible rt f); cbn [app].
        -- rewrite decide_True by reflexivity. apply prefix_cons, P2.
        -- rewrite decide_False by discriminate. exact P2.
      * intros Hr g Hg Hn. apply elem_of_app.
        apply elem_of_cons in Hg as [->|Hg].
        -- left. destruct (N1 Hn) as [-> _]. apply list_elem_of_here.
        -- right. apply (N2 Hr g Hg Hn).
    + exists o1. cbn [fst snd]. split; [reflexivity|]. rewrite P1. split.
      * destruct (eligible rt f) eqn:El.
        -- rewrite decide_True by reflexivity.
           apply prefix_cons, prefix_nil.
        -- apply prefix_nil.
      * discriminate.
Qed.

Ltac stopped :=
  cbn; split;
  [apply prefix_nil
  | let H1 := fresh in
    let H2 := fresh in
    let H3 := fresh in
    intros H1 H2 H3;
    first [discriminate H1 | discriminate H2 | discriminate H3]].

Ltac loop_leaf :=
  lazymatch goal with
  | |- context [for_each ?l (Exofop.upload_file ?rt ?a ?b ?c) ?log] =>
      let out := fresh "out" in
      let E := fresh "E" in
      let P := fresh "P" in
      let N := fresh "N" in
      let lg := fresh "lg" in
      let rr := fresh "rr" in
      destruct (for_each_files rt a b c l log) as (out & E & P & N);
      destruct (for_each l (Exofop.upload_file rt a b c) log) as [lg rr];
      cbn [fst snd] in *; subst lg;
      rewrite posted_files_app; split;
      [exact P
      | let Hr := fresh in
        let g := fresh in
        let Hg := fresh in
        let Hn := fresh in
        intros Hr _ _ g Hg Hn; apply elem_of_app; right;
        exact (N Hr g Hg Hn)]
  end.

Lemma upload_posted (rt : Exofop.runtime) (self : Exofop.uploader) :
  Exofop.posted_files (Exofop.upload rt self []).1
    `prefix_of` filter (fun f => eligible rt f = true) (Exofop.fileList self)
  /\ ((Exofop.upload rt self []).2 = Ok tt ->
      Exofop.figures_is_dir rt = true ->
      Exofop.skip_file_upload self = false ->
      forall f, f ∈ Exofop.fileList self -> eligible rt f = false ->
                not_uploaded f ∈ (Exofop.upload rt self []).1).
Proof.
  unfold Exofop.upload, mbind, prog_bind, lift, Exofop.post, Exofop.print.
  destruct (getitem (Exofop.obs_time self) 0) as [obsstart|e]; [|stopped].
  destruct (getitem (Exofop.obs_time self) _) as [obsend|e]; [|stopped].
  destruct (pretty <$> py_round _) as [obsdur|e]; [|stopped].
  destruct (Exofop.user_name self) as [username|e]; [|stopped].
  destruct (Exofop.figures_is_dir rt); [|stopped].
  cbn [app].
  match goal with
  | |- context [Exofop.server rt ?q] => destruct (Exofop.server rt q) as [r1|e]
  end; [|stopped].
  destruct (Exofop.r_ok r1); cbn [app].
  all: destruct (Exofop.skip_summary_upload self); cbn [negb app].
  all: try match goal with
       | |- context [Exofop.server ?rt ?q] =>
           destruct (Exofop.server rt q) as [r2|e];
           [destruct (Exofop.r_ok r2)|stopped]
       end; cbn [app].
  all: destruct (Exofop.skip_file_upload self); cbn [negb]; [stopped|].
  all: loop_leaf.
Qed.

Lemma elem_of_posted_files (f : string) (log : list Exofop.event) :
  f ∈ Exofop.posted_files log
  <-> exists q, Exofop.Post q ∈ log /\ Exofop.q_file q = Some f.
Proof.
  unfold Exofop.posted_files. rewrite list_elem_of_omap. split.
  - intros (ev & Hev & E). destruct ev as [| |q]; try discriminate. eauto.
  - intros (q & Hq & E). exists (Exofop.Post q). auto.
Qed.

Lemma posted_is_eligible (rt : Exofop.runtime) (self : Exofop.uploader)
    (q : Exofop.request) (f : string) :
  Exofop.Post q ∈ (Exofop.upload rt self []).1 ->
  Exofop.q_file q = Some f ->
  f ∈ Exofop.fileList self /\ eligible rt f = true.
Proof.
  intros Hq Hf.
  assert (Hp : f ∈ Exofop.posted_files (Exofop.upload rt self []).1)
    by (apply elem_of_posted_files; eauto).
  destruct (upload_posted rt self) as [[k Hk] _].
  assert (Hin : f ∈ filter (fun f => eligible rt f = true)
                      (Exofop.fileList self))
    by (rewrite Hk; apply elem_of_app; left; exact Hp).
  apply list_elem_of_filter in Hin as [He Hin]. auto.
Qed.

Lemma unrecognized_not_eligible (rt : Exofop.runtime) (f : string) :
  Forall (fun suffix => endswith f suffix = false) recognized_suffixes ->
  eligible rt f = false.
Proof.
  intros H. unfold eligible.
  assert (E : existsb (endswith f) recognized_suffixes = false).
  { induction H as [|s l Hs _ IH]; [reflexivity|].
    simpl. rewrite Hs, IH. reflexivity. }
  rewrite E. apply andb_false_r.
Qed.

(** C6. A file whose name ends with none of the recognized suffixes is in
    no request the upload sends, wherever else in its name a suffix may
    stand; and when the upload runs over the file list to the end, the file
    is logged as not uploaded. *)
Theorem unrecognized_never_uploaded (rt : Exofop.runtime)
    (self : Exofop.uploader) (fileName : string) :
  Forall (fun suffix => endswith fileName suffix = false)
         recognized_suffixes ->
  (forall q, Exofop.Post q ∈ (Exofop.upload rt self []).1 ->
             Exofop.q_file q <> Some fileName)
  /\ (fileName ∈ Exofop.fileList self ->
      Exofop.figures_is_dir rt = true ->
      Exofop.skip_file_upload self = false ->
      (Exofop.upload rt self []).2 = Ok tt ->
      Exofop.Print ("******NOT UPLOADED: " +:+ fileName)
      ∈ (Exofop.upload rt self []).1).
Proof.
  intros H. pose proof (unrecognized_not_eligible rt fileName H) as He.
  split.
  - intros q Hq Hf. destruct (posted_is_eligible rt self q fileName Hq Hf).
    congruence.
  - intros Hin Hd Hs Hr.
    destruct (upload_posted rt self) as [_ N].
    exact (N Hr Hd Hs fileName Hin He).
Qed.

Lemma unrecognized_never_uploaded_witness :
  (forall q, Exofop.Post q ∈ (Exofop.upload Ref.service Ref.uploader []).1 ->
             Exofop.q_file q <> Some "TIC123456789_stars.png.bak")
  /\ Exofop.Print "******NOT UPLOADED: TIC123456789_stars.png.bak"
     ∈ (Exofop.upload Ref.service Ref.uploader []).1.
Proof.
  destruct (unrecognized_never_uploaded Ref.service Ref.uploader
              "TIC123456789_stars.png.bak") as [H1 H2].
  - apply (bool_decide_unpack _). vm_compute. exact I.
  - split; [exact H1|]. apply H2; [|reflexivity|reflexivity|reflexivity].
    apply (bool_decide_unpack _). vm_compute. exact I.
Defined.

(** C10. Every file the upload sends has a name that starts with [TIC] and
    not with [TIC] followed by a space. A file whose name does not is in no
    request, whatever its name ends with, and when the upload runs over the
    file list to the end the file is logged as not uploaded. *)
Theorem upload_requires_tic_prefix (rt : Exofop.runtime)
    (self : Exofop.uploader) :
  (forall q fileName,
      Exofop.Post q ∈ (Exofop.upload rt self []).1 ->
      Exofop.q_file q = Some fileName ->
      startswith fileName "TIC" = true /\ startswith fileName "TIC " = false)
  /\ (forall fileName,
        startswith fileName "TIC" = false
        \/ startswith fileName "TIC " = true ->
        (forall q, Exofop.Post q ∈ (Exofop.upload rt self []).1 ->
                   Exofop.q_file q <> Some fileName)
        /\ (fileName ∈ Exofop.fileList self ->
            Exofop.figures_is_dir rt = true ->
            Exofop.skip_file_upload self = false ->
            (Exofop.upload rt self []).2 = Ok tt ->
            Exofop.Print ("******NOT UPLOADED: " +:+ fileName)
            ∈ (Exofop.upload rt self []).1)).
Proof.
  split.
  - intros q f Hq Hf.
    destruct (posted_is_eligible rt self q f Hq Hf) as [_ He].
    unfold eligible, tic_prefixed in He.
    apply andb_true_iff in He as [He _].
    apply andb_true_iff in He as [_ He].
    apply andb_true_iff in He as [H1 H2].
    apply negb_true_iff in H2. auto.
  - intros f Hf.
    assert (He : eligible rt f = false).
    { unfold eligible, tic_prefixed.
      destruct Hf as [-> | ->]; cbn [negb andb];
        rewrite ?andb_false_r; reflexivity. }
    split.
    + intros q Hq Hq'. destruct (posted_is_eligible rt self q f Hq Hq').
      congruence.
    + intros Hin Hd Hs Hr.
      destruct (upload_posted rt self) as [_ N].
      exact (N Hr Hd Hs f Hin He).
Qed.

Lemma upload_requires_tic_prefix_witness :
  (forall q, Exofop.Post q ∈ (Exofop.upload Ref.service Ref.uploader []).1 ->
             Exofop.q_file q <> Some "stars.png")
  /\ Exofop.Print "******NOT UPLOADED: stars.png"
     ∈ (Exofop.upload Ref.service Ref.uploader []).1
  /\ Exofop.Print "******NOT UPLOADED: TIC 123456789_psf.png"
     ∈ (Exofop.upload Ref.service Ref.uploader []).1.
Proof.
  destruct (upload_requires_tic_prefix Ref.service Ref.uploader) as [_ H].
  destruct (H "stars.png" ltac:(left; reflexivity)) as [H1 H2].
  destruct (H "TIC 123456789_psf.png" ltac:(right; reflexivity)) as [_ H3].
  split; [exact H1|]. split.
  - apply H2; [|reflexivity|reflexivity|reflexivity].
    apply (bool_decide_unpack _). vm_compute. exact I.
  - apply H3; [|reflexivity|reflexivity|reflexivity].
    apply (bool_decide_unpack _). vm_compute. exact I.
Defined.

(** The files sent for the list of [Ref.uploader]: the two whose names start
    with [TIC] and end with a recognized suffix. *)
Lemma upload_example :
  Exofop.posted_files (Exofop.upload Ref.service Ref.uploader []).1
  = [ "TIC123456789_stars.png"; "TIC123456789_lightcurve.png" ]
  /\ (Exofop.upload Ref.service Ref.uploader []).2 = Ok tt.
Proof. split; vm_compute; reflexivity. Qed.

(** ** The effects of [make] *)

Lemma prog_bind_Ok {S A B} (m : prog S A) (f : A -> prog S B) (w w' : S)
    (b : B) :
  (m ≫= f) w = (w', Ok b) ->
  exists w1 a, m w = (w1, Ok a) /\ f a w1 = (w', Ok b).
Proof.
  unfold mbind, prog_bind. destruct (m w) as [w1 [a|e]]; [eauto|].
  discriminate.
Qed.

Lemma keeps_refl (w : world) : keeps w w [].
Proof. intros p n H _. exact H. Qed.

Lemma keeps_trans (w w1 w2 : world) (ps qs : list path) :
  keeps w w1 ps -> keeps w1 w2 qs -> keeps w w2 (ps ++ qs).
Proof.
  intros H1 H2 p n Hp Hn. apply not_elem_of_app in Hn as [Hn1 Hn2].
  apply H2; [|exact Hn2]. apply H1; assumption.
Qed.

Lemma os_mkdir_Ok (p : path) (w w' : world) :
  os_mkdir p w = (w', Ok tt) ->
  exists_in w p = false
  /\ w_log w' = w_log w ++ [Mkdir p]
  /\ keeps w w' []
  /\ forall q, q <> p -> w_fs w' !! q = w_fs w !! q.
Proof.
  unfold os_mkdir, exists_in. destruct p as [|c p]; [discriminate|].
  cbv beta iota.
  destruct (bool_decide _) eqn:E; [discriminate|].
  destruct (is_dir w (removelast (c :: p))); [|discriminate].
  unfold mbind, prog_bind, store, emit. cbn [w_log w_fs].
  intros [= <-]. unfold keeps. cbn [w_log w_fs]. split; [reflexivity|].
  split; [reflexivity|]. split.
  - intros q n Hq _. rewrite lookup_insert_ne; [exact Hq|].
    intros <-. apply bool_decide_eq_false in E. apply E. eauto.
  - intros q Hq. apply lookup_insert_ne. congruence.
Qed.

Lemma write_file_Ok (p : path) (c : content) (e : effect) (w w' : world) :
  write_file p c e w = (w', Ok tt) ->
  w_log w' = w_log w ++ [e]
  /\ keeps w w' [p]
  /\ w_fs w' !! p = Some (File c).
Proof.
  unfold write_file. destruct (is_dir w p); [discriminate|].
  destruct (is_dir w (removelast p)); [|discriminate].
  unfold mbind, prog_bind, store, emit. cbn [w_log w_fs].
  intros [= <-]. unfold keeps. cbn [w_log w_fs]. split; [reflexivity|]. split.
  - intros q n Hq Hn. rewrite lookup_insert_ne; [exact Hq|].
    intros <-. apply Hn, list_elem_of_here.
  - apply lookup_insert_eq.
Qed.

Lemma copyfile_Ok (src dst : path) (w w' : world) :
  copyfile src dst w = (w', Ok tt) ->
  w_log w' = w_log w ++ [Copyfile src dst]
  /\ keeps w w' [dst].
Proof.
  unfold copyfile. destruct (w_fs w !! src) as [[|c]|]; try discriminate.
  intros H. apply write_file_Ok in H as (H1 & H2 & _). auto.
Qed.

Lemma plot_and_save_Ok (bk : backend) (k : plot_kind) (dest : path)
    (name : string) (w w' : world) :
  plot_and_save bk k dest name w = (w', Ok tt) ->
  w_log w' = w_log w ++ [Savefig (dest ++ [name])]
  /\ keeps w w' [dest ++ [name]].
Proof.
  unfold plot_and_save. intros H.
  apply prog_bind_Ok in H as (w1 & png & H1 & H).
  unfold lift in H1. injection H1 as <- _.
  apply write_file_Ok in H as (H2 & H3 & _). auto.
Qed.

Lemma path_exists_eq (p : path) (w : world) :
  path_exists p w = (w, Ok (exists_in w p)).
Proof. reflexivity. Qed.

Lemma mkdir_if_absent (p : path) (w w' : world) :
  (if negb (exists_in w p) then os_mkdir p else mret tt) w = (w', Ok tt) ->
  w_log w' = w_log w ++ (if exists_in w p then [] else [Mkdir p])
  /\ keeps w w' []
  /\ forall q, q <> p -> w_fs w' !! q = w_fs w !! q.
Proof.
  destruct (exists_in w p) eqn:E; cbn [negb].
  - intros [= <-]. rewrite app_nil_r. repeat split. apply keeps_refl.
  - intros H. apply os_mkdir_Ok in H as (_ & H1 & H2 & H3). auto.
Qed.

Lemma exists_in_ext (w w' : world) (p : path) :
  w_fs w' !! p = w_fs w !! p -> exists_in w' p = exists_in w p.
Proof.
  unfold exists_in. intros E. destruct p; [reflexivity|].
  rewrite E. reflexivity.
Qed.

Lemma make_report_folder_Ok (dest : path) (w w' : world) (f : folders) :
  make_report_folder dest w = (w', Ok f) ->
  f = {| destination := dest;
         report_name := List.last dest "";
         figure_destination := dest ++ ["figures"];
         measurement_destination := dest ++ [List.last dest "" +:+ ".txt"] |}
  /\ w_log w' = w_log w
                ++ (if exists_in w dest then [] else [Mkdir dest])
                ++ (if exists_in w (dest ++ ["figures"]) then []
                    else [Mkdir (dest ++ ["figures"])])
  /\ keeps w w' [].
Proof.
  unfold make_report_folder. intros H.
  apply prog_bind_Ok in H as (w1 & e1 & H1 & H).
  rewrite path_exists_eq in H1. injection H1 as <- <-.
  apply prog_bind_Ok in H as (w2 & [] & H2 & H).
  apply mkdir_if_absent in H2 as (L2 & K2 & F2).
  apply prog_bind_Ok in H as (w3 & e3 & H3 & H).
  rewrite path_exists_eq in H3. injection H3 as <- <-.
  apply prog_bind_Ok in H as (w4 & [] & H4 & H).
  apply mkdir_if_absent in H4 as (L4 & K4 & _).
  injection H as <- <-. split; [reflexivity|].
  assert (E : exists_in w2 (dest ++ ["figures"])
              = exists_in w (dest ++ ["figures"])).
  { apply exists_in_ext, F2. intros E.
    apply (f_equal length) in E. rewrite length_app in E. simpl in E. lia. }
  rewrite E in L4. split.
  - rewrite L4, L2, <- app_assoc. reflexivity.
  - apply (keeps_trans w w2 w4 [] [] K2 K4).
Qed.

Lemma make_figures_Ok (bk : backend) (dest : path)
    (t0 duration : option float) (w w' : world) :
  make_figures bk dest t0 duration w = (w', Ok tt) ->
  let outputs := map (fun n => dest ++ [n]) (figure_names t0 duration) in
  w_log w' = w_log w ++ map Savefig outputs
  /\ keeps w w' outputs.
Proof.
  unfold make_figures, figure_names. intros H.
  apply prog_bind_Ok in H as (w1 & [] & H1 & H).
  apply prog_bind_Ok in H as (w2 & [] & H2 & H).
  apply prog_bind_Ok in H as (w3 & [] & H3 & H).
  apply prog_bind_Ok in H as (w4 & [] & H4 & H).
  apply prog_bind_Ok in H as (w5 & [] & H5 & H).
  apply prog_bind_Ok in H as (w6 & [] & H6 & H).
  apply plot_and_save_Ok in H1 as (L1 & K1), H2 as (L2 & K2),
    H3 as (L3 & K3), H4 as (L4 & K4), H5 as (L5 & K5), H6 as (L6 & K6).
  pose proof (keeps_trans _ _ _ _ _ K1
               (keeps_trans _ _ _ _ _ K2
                 (keeps_trans _ _ _ _ _ K3
                   (keeps_trans _ _ _ _ _ K4
                     (keeps_trans _ _ _ _ _ K5 K6))))) as K.
  assert (L : w_log w6 = w_log w ++ map Savefig
                (map (fun n => dest ++ [n])
                   [ "psf.png"; "comparison.png"; "raw.png";
                     "systematics.png"; "stars.png"; "lightcurve.png" ])).
  { rewrite L6, L5, L4, L3, L2, L1, <- !app_assoc. reflexivity. }
  cbn [app] in K. rewrite !map_app.
  destruct (truthy t0 && bool_decide (is_Some duration)) eqn:C.
  - apply andb_true_iff in C as [C1 C2].
    apply bool_decide_eq_true in C2 as [d ->].
    destruct t0 as [t|]; [|discriminate C1].
    apply plot_and_save_Ok in H as (L7 & K7).
    split.
    + rewrite L7, L, <- app_assoc. reflexivity.
    + apply (keeps_trans _ _ _ _ _ K K7).
  - injection H as <-. cbn [map]. rewrite !app_nil_r. auto.
Qed.

(** The steps of [make], in order: the destination folder and its
    [figures] folder are created when absent; the figures are saved, the
    transit-model figure last and only when [t0] is true and [duration] is
    given; the measurement table is written; the style file is copied; the
    rendered document is written. Whatever existed outside the files written
    is left as it was. *)
Theorem make_effects (bk : backend) (self : report) (dest : path)
    (t0 duration : option float) (w w' : world) :
  make bk self dest t0 duration w = (w', Ok tt) ->
  let figures := dest ++ ["figures"] in
  let name := List.last dest "" in
  let pictures := map (fun n => figures ++ [n]) (figure_names t0 duration) in
  let table := dest ++ [name +:+ ".txt"] in
  let style := dest ++ ["prose-report.cls"] in
  let document := dest ++ [name +:+ ".tex"] in
  w_log w' = w_log w
             ++ (if exists_in w dest then [] else [Mkdir dest])
             ++ (if exists_in w figures then [] else [Mkdir figures])
             ++ map Savefig pictures
             ++ [ ToCsv table;
                  Copyfile (template_folder bk ++ ["prose-report.cls"]) style;
                  WriteText document ]
  /\ keeps w w' (pictures ++ [table; style; document]).
Proof.
  unfold make. intros H.
  apply prog_bind_Ok in H as (w1 & f & H1 & H).
  apply make_report_folder_Ok in H1 as (-> & L1 & K1).
  cbn [figure_destination measurement_destination destination report_name]
    in H.
  apply prog_bind_Ok in H as (w2 & [] & H2 & H).
  apply make_figures_Ok in H2 as (L2 & K2).
  apply prog_bind_Ok in H as (w3 & [] & H3 & H).
  unfold to_csv_report in H3.
  apply prog_bind_Ok in H3 as (w3' & c & Hc & H3).
  unfold lift in Hc. injection Hc as <- _.
  apply write_file_Ok in H3 as (L3 & K3 & _).
  apply prog_bind_Ok in H as (w4 & [] & H4 & H).
  apply copyfile_Ok in H4 as (L4 & K4).
  apply write_file_Ok in H as (L5 & K5 & _).
  cbv zeta. split.
  - rewrite L5, L4, L3, L2, L1, <- !app_assoc. reflexivity.
  - pose proof (keeps_trans _ _ _ _ _ K1
                 (keeps_trans _ _ _ _ _ K2
                   (keeps_trans _ _ _ _ _ K3
                     (keeps_trans _ _ _ _ _ K4 K5)))) as K.
    exact K.
Qed.

Lemma make_effects_witness :
  w_log (make Ref.backend0 Ref.report0 ["home"; "night1"]
           (Some 2459000.5%float) (Some 0.125%float) Ref.world0).1
  = [ Mkdir ["home"; "night1"];
      Mkdir ["home"; "night1"; "figures"];
      Savefig ["home"; "night1"; "figures"; "psf.png"];
      Savefig ["home"; "night1"; "figures"; "comparison.png"];
      Savefig ["home"; "night1"; "figures"; "raw.png"];
      Savefig ["home"; "night1"; "figures"; "systematics.png"];
      Savefig ["home"; "night1"; "figures"; "stars.png"];
      Savefig ["home"; "night1"; "figures"; "lightcurve.png"];
      Savefig ["home"; "night1"; "figures"; "model.png"];
      ToCsv ["home"; "night1"; "night1.txt"];
      Copyfile ["pkg"; "latex"; "prose-report.cls"]
               ["home"; "night1"; "prose-report.cls"];
      WriteText ["home"; "night1"; "night1.tex"] ].
Proof.
  refine (proj1 (make_effects Ref.backend0 Ref.report0 ["home"; "night1"]
                   (Some 2459000.5%float) (Some 0.125%float) Ref.world0 _ _)).
  vm_compute. reflexivity.
Defined.

(** The transit-model figure is saved exactly when [t0] is given and not
    zero and [duration] is given. *)
Lemma model_figure_iff (t0 duration : option float) :
  "model.png" ∈ figure_names t0 duration
  <-> exists t d, t0 = Some t /\ duration = Some d /\ (t =? 0)%float = false.
Proof.
  unfold figure_names. rewrite elem_of_app. split.
  - intros [H|H].
    + repeat (apply elem_of_cons in H as [H|H]; [discriminate H|]).
      apply elem_of_nil in H. contradiction.
    + destruct (truthy t0 && bool_decide (is_Some duration)) eqn:C;
        [|apply elem_of_nil in H; contradiction].
      apply andb_true_iff in C as [C1 C2].
      apply bool_decide_eq_true in C2 as [d ->].
      destruct t0 as [t|]; [|discriminate C1].
      exists t, d. apply negb_true_iff in C1. auto.
  - intros (t & d & -> & -> & E). right. cbn. rewrite E. cbn.
    apply list_elem_of_here.
Qed.

(** C5 at [t0 = 0.0]: both [t0] and [duration] are given, every other step
    of [make] is done in order, and the transit-model figure is not made. *)
Lemma make_skips_model_at_t0_zero :
  let w := (make Ref.backend0 Ref.report0 ["home"; "night1"]
              (Some 0%float) (Some 0.125%float) Ref.world0).1 in
  (make Ref.backend0 Ref.report0 ["home"; "night1"]
     (Some 0%float) (Some 0.125%float) Ref.world0).2 = Ok tt
  /\ w_log w
     = [ Mkdir ["home"; "night1"];
         Mkdir ["home"; "night1"; "figures"];
         Savefig ["home"; "night1"; "figures"; "psf.png"];
         Savefig ["home"; "night1"; "figures"; "comparison.png"];
         Savefig ["home"; "night1"; "figures"; "raw.png"];
         Savefig ["home"; "night1"; "figures"; "systematics.png"];
         Savefig ["home"; "night1"; "figures"; "stars.png"];
         Savefig ["home"; "night1"; "figures"; "lightcurve.png"];
         ToCsv ["home"; "night1"; "night1.txt"];
         Copyfile ["pkg"; "latex"; "prose-report.cls"]
                  ["home"; "night1"; "prose-report.cls"];
         WriteText ["home"; "night1"; "night1.tex"] ]
  /\ w_fs w !! ["home"; "night1"; "figures"; "model.png"] = None
  /\ w_fs w !! ["home"; "night1"; "figures"; "lightcurve.png"]
     = Some (File (Bytes "lc")).
Proof. cbv zeta. repeat split; vm_compute; reflexivity. Qed.

(** ** The measurement table of the example *)

Lemma csv_report_columns_witness :
  csv_header Ref.demo_csv
  = map Some [ "BJD-TDB"; "DIFF_FLUX_T1"; "DIFF_ERROR_T1";
               "DIFF_FLUX_C2"; "DIFF_ERROR_C2";
               "DIFF_FLUX_C1"; "DIFF_ERROR_C1";
               "dx"; "dy"; "FWHM"; "SKYLEVEL"; "AIRMASS"; "EXPOSURE" ]
  /\ length (csv_rows Ref.demo_csv) = 4%nat.
Proof.
  destruct (csv_report_columns Ref.demo " " Ref.demo_csv ltac:(reflexivity))
    as (cs & Hcs & _ & Hh & _ & Hl & _).
  split; [|exact Hl].
  vm_compute in Hcs. injection Hcs as <-. exact Hh.
Defined.

(** A comparison star listed twice has one pair of columns. *)
Lemma csv_report_star_listed_twice :
  csv_header <$> csv_report
    {| time := [0; 0.25]%float; exptime := [60; 60]%float;
       sky := [8; 8]%float; dx := [0; 0]%float; dy := [0; 0]%float;
       fwhm := [2; 2]%float; airmass := [1; 1]%float;
       raw_fluxes := []; raw_errors := [];
       apertures_area := []; apertures_radii := [];
       lcs := None; aperture := 0%nat;
       comps := [[1; 1]%nat];
       diff_fluxes := [[[1; 1]; [1; 0.5]]]%float;
       diff_errors := [[[0; 0]; [0.25; 0.25]]]%float;
       diff_flux := [1; 1]%float; diff_error := [0; 0]%float;
       time_format := "jd_utc"; RA := ""; DEC := "";
       telescope_name := ""; filter_name := ""; target_name := "";
       date := "" |} " "
  = Ok (map Some [ "JD-UTC"; "DIFF_FLUX_T1"; "DIFF_ERROR_T1";
                   "DIFF_FLUX_C1"; "DIFF_ERROR_C1";
                   "dx"; "dy"; "FWHM"; "SKYLEVEL"; "AIRMASS"; "EXPOSURE" ]).
Proof. vm_compute. reflexivity. Qed.

(** ** The requests of the upload *)

Lemma with_server_id (rt : Exofop.runtime) :
  with_server rt (Exofop.server rt) = rt.
Proof. destruct rt. reflexivity. Qed.

Lemma requests_app (l1 l2 : list Exofop.event) :
  requests (l1 ++ l2) = requests l1 ++ requests l2.
Proof. unfold requests. apply omap_app. Qed.

Lemma eligible_with_server (rt : Exofop.runtime) srv (f : string) :
  eligible (with_server rt srv) f = eligible rt f.
Proof. reflexivity. Qed.

(** [describe] prints at most two lines and never fails; its result is
    empty exactly for a name that ends with no recognized suffix. *)
Lemma describe_out (f : string) (log : list Exofop.event) :
  exists pr,
    Exofop.describe f log = (log ++ pr, Ok (description_of f))
    /\ requests pr = []
    /\ String.eqb (description_of f) ""
       = negb (existsb (endswith f) recognized_suffixes).
Proof.
  unfold description_of, Exofop.describe, recognized_suffixes.
  cbn [existsb].
  destruct (endswith f "stars.png");
    [exists [Exofop.Print "stars";
             Exofop.Print "Field Image with Apertures"];
     split; [|split; reflexivity];
     unfold mbind, prog_bind, Exofop.print; cbn;
     rewrite <- app_assoc; reflexivity|].
  repeat
    (match goal with
     | |- context [if endswith f ?s then _ else _] =>
         destruct (endswith f s);
         [exists []; rewrite app_nil_r; repeat split; reflexivity|]
     end).
  exists []. rewrite app_nil_r. repeat split; reflexivity.
Qed.

(** One turn of the loop: the events added, the request among them and the
    outcome, which is an exception only when the service raises it. *)
Lemma upload_file_turn (rt : Exofop.runtime) (toi tic tag f : string)
    (log : list Exofop.event) :
  exists out,
    (Exofop.upload_file rt toi tic tag f log).1 = log ++ out
    /\ requests out
       = (if eligible rt f then [file_request toi tic tag f] else [])
    /\ (if eligible rt f
        then match Exofop.server rt (file_request toi tic tag f) with
             | Ok _ => (Exofop.upload_file rt toi tic tag f log).2 = Ok tt
             | Raise e =>
                 (Exofop.upload_file rt toi tic tag f log).2 = Raise e
                 /\ exists pre,
                      out = pre ++ [Exofop.Post (file_request toi tic tag f)]
             end
        else (Exofop.upload_file rt toi tic tag f log).2 = Ok tt).
Proof.
  unfold Exofop.upload_file, eligible, tic_prefixed.
  destruct (Exofop.is_file rt f); cbn [andb];
    [|exists [not_uploaded f]; repeat split; reflexivity].
  destruct (startswith f "TIC"); cbn [andb];
    [|exists [not_uploaded f]; repeat split; reflexivity].
  destruct (startswith f "TIC "); cbn [andb negb];
    [exists [not_uploaded f]; repeat split; reflexivity|].
  destruct (describe_out f log) as (pr & E & R & D).
  unfold mbind, prog_bind, Exofop.print, Exofop.print_files, Exofop.post.
  rewrite E. cbv beta iota. rewrite D.
  destruct (existsb (endswith f) recognized_suffixes); cbn [negb].
  - cbn -[String.append].
    fold file_url. fold (file_request toi tic tag f).
    destruct (Exofop.server rt (file_request toi tic tag f)) as [resp|e].
    + destruct (Exofop.r_ok resp); cbn -[String.append];
        rewrite <- ?app_assoc;
        (eexists; split; [reflexivity|]; split; [|reflexivity]);
        rewrite requests_app, R; reflexivity.
    + cbn -[String.append]. rewrite <- ?app_assoc.
      eexists. split; [reflexivity|]. split.
      * rewrite requests_app, R. reflexivity.
      * split; [reflexivity|].
        eexists (pr ++ [_; _; _; _; _]). rewrite <- app_assoc. reflexivity.
  - exists (pr ++ [not_uploaded f]). rewrite app_assoc. split; [reflexivity|].
    rewrite requests_app, R. split; reflexivity.
Qed.

(** The loop over the file list: the requests sent are those of the
    eligible files, in the order of the list, up to the first request the
    service raises on. *)
Lemma for_each_turns (rt : Exofop.runtime) (toi tic tag : string)
    (files : list string) (log : list Exofop.event) :
  exists out,
    (for_each files (Exofop.upload_file rt toi tic tag) log).1 = log ++ out
    /\ requests out
       `prefix_of` map (file_request toi tic tag)
                       (filter (fun f => eligible rt f = true) files)
    /\ match (for_each files (Exofop.upload_file rt toi tic tag) log).2 with
       | Ok _ =>
           requests out
           = map (file_request toi tic tag)
                 (filter (fun f => eligible rt f = true) files)
       | Raise e =>
           exists pre q,
             out = pre ++ [Exofop.Post q] /\ Exofop.server rt q = Raise e
       end
    /\ (answers (Exofop.server rt) ->
        (for_each files (Exofop.upload_file rt toi tic tag) log).2 = Ok tt).
Proof.
  revert log. induction files as [|f files IH]; intros log.
  - exists []. cbn. rewrite app_nil_r. repeat split; reflexivity.
  - cbn [for_each]. unfold mbind, prog_bind.
    destruct (upload_file_turn rt toi tic tag f log) as (o1 & E1 & R1 & T1).
    destruct (Exofop.upload_file rt toi tic tag f log) as [log1 r1].
    cbn [fst snd] in *. subst log1.
    rewrite filter_cons.
    destruct r1 as [[]|e].
    + destruct (IH (log ++ o1)) as (o2 & E2 & P2 & M2 & A2).
      exists (o1 ++ o2). rewrite app_assoc. split; [exact E2|].
      rewrite requests_app, R1.
      destruct (for_each files _ (log ++ o1)) as [log2 r2].
      cbn [fst snd] in *.
      destruct (eligible rt f); cbn [app map].
      * rewrite decide_True by reflexivity. cbn [map]. split; [|split].
        -- apply prefix_cons, P2.
        -- destruct r2 as [[]|e2].
           ++ f_equal. exact M2.
           ++ destruct M2 as (pre & q & -> & Hq).
              exists (o1 ++ pre), q. rewrite app_assoc. auto.
        -- exact A2.
      * rewrite decide_False by discriminate. split; [exact P2|]. split.
        -- destruct r2 as [[]|e2]; [exact M2|].
           destruct M2 as (pre & q & -> & Hq).
           exists (o1 ++ pre), q. rewrite app_assoc. auto.
        -- exact A2.
    + exists o1. cbn [fst snd]. split; [reflexivity|].
      destruct (eligible rt f) eqn:El; [|discriminate T1].
      destruct (Exofop.server rt (file_request toi tic tag f)) as [r|e'] eqn:Es;
        [discriminate T1|].
      destruct T1 as [[= ->] [pre ->]].
      rewrite decide_True by reflexivity. rewrite R1. cbn [map].
      split; [apply prefix_cons, prefix_nil|]. split.
      * exists pre, (file_request toi tic tag f). auto.
      * intros Ha. destruct (Ha (file_request toi tic tag f)) as [r Hr].
        congruence.
Qed.

Lemma getitem_last {A} (x : A) (l : list A) :
  exists y, getitem (x :: l) (length (x :: l) - 1) = Ok y.
Proof.
  unfold getitem.
  destruct ((x :: l) !! (length (x :: l) - 1)%nat) as [y|] eqn:E; [eauto|].
  apply lookup_ge_None in E. simpl in E. lia.
Qed.

(** The three ways a run of [upload] ends: the file uploads were skipped,
    the summary request raised, or the loop over the files ran. *)
Ltac upload_skipped :=
  cbn [fst snd app]; unfold requests; cbn [omap list_omap app];
  split; [reflexivity|]; split; [reflexivity | intros _; reflexivity].

Ltac upload_raised E2 :=
  cbn [fst snd app]; unfold requests; cbn [omap list_omap app];
  split; [repeat apply prefix_cons; apply prefix_nil|];
  split;
  [eexists [_; _], _; split; [reflexivity | exact E2]
  | let Ha := fresh in
    let r := fresh in
    let Hr := fresh in
    intros Ha;
    match type of E2 with
    | _ ?q = _ => destruct (Ha q) as [r Hr]; congruence
    end].

Ltac upload_looped loop :=
  subst loop;
  match goal with
  | |- context [for_each ?l (Exofop.upload_file ?rt' ?a ?b ?c) ?log] =>
      let out := fresh "out" in
      let E := fresh "E" in
      let P := fresh "P" in
      let M := fresh "M" in
      let A := fresh "A" in
      let lg := fresh "lg" in
      let rr := fresh "rr" in
      destruct (for_each_turns rt' a b c l log) as (out & E & P & M & A);
      destruct (for_each l (Exofop.upload_file rt' a b c) log) as [lg rr];
      cbn [fst snd] in *; subst lg;
      split; [|split; [|exact A]];
      [ rewrite requests_app;
        unfold requests at 1; cbn [omap list_omap app];
        repeat apply prefix_cons; exact P
      | destruct rr as [[]|?e];
        [ rewrite requests_app, M;
          unfold requests; cbn [omap list_omap app]; reflexivity
        | let pre := fresh "pre" in
          let q := fresh "q" in
          let Hq := fresh "Hq" in
          destruct M as (pre & q & -> & Hq);
          eexists (_ ++ pre), q; rewrite <- app_assoc;
          split; [reflexivity | exact Hq] ] ]
  end.

Lemma preamble_Ok (self : Exofop.uploader) (obsdur u : string) :
  preamble self = Ok (obsdur, u) ->
  exists first final,
    getitem (Exofop.obs_time self) 0 = Ok first
    /\ getitem (Exofop.obs_time self) (length (Exofop.obs_time self) - 1)
       = Ok final
    /\ pretty <$> py_round (abs ((final - first) * 24 * 60))%float
       = Ok obsdur
    /\ Exofop.username self = Some u.
Proof.
  unfold preamble. intros H.
  apply bind_Ok in H as (first & E1 & H).
  apply bind_Ok in H as (final & E2 & H).
  apply bind_Ok in H as (d & E3 & H).
  apply bind_Ok in H as (u' & E4 & H).
  injection H as <- <-. unfold Exofop.user_name in E4.
  destruct (Exofop.username self) as [u''|]; [|discriminate E4].
  injection E4 as ->. exists first, final. auto.
Qed.

Lemma upload_run (rt : Exofop.runtime) (self : Exofop.uploader)
    (obsdur u : string) :
  preamble self = Ok (obsdur, u) ->
  Exofop.figures_is_dir rt = true ->
  exists summary tag,
    let plan :=
      login_request self
      :: (if Exofop.skip_summary_upload self then [] else [summary])
      ++ (if Exofop.skip_file_upload self then []
          else map (file_request ("TOI" +:+ Exofop.toi self)
                                 (Exofop.tic_id self) tag)
                   (filter (fun f => eligible rt f = true)
                           (Exofop.fileList self))) in
    (forall srv,
       let run := Exofop.upload (with_server rt srv) self [] in
       requests run.1 `prefix_of` plan
       /\ match run.2 with
          | Ok _ => requests run.1 = plan
          | Raise e =>
              exists pre q, run.1 = pre ++ [Exofop.Post q] /\ srv q = Raise e
          end
       /\ (answers srv -> run.2 = Ok tt))
    /\ Exofop.q_url summary = summary_url
    /\ Exofop.q_file summary = None
    /\ keys summary
       = [ "planet"; "tel"; "telsize"; "camera"; "filter"; "pixscale"; "psf";
           "photaprad"; "obsdate"; "obsdur"; "obsnum"; "obstype"; "transcov";
           "deltamag"; "tag"; "groupname"; "notes"; "id" ]
    /\ (forall v, ("transcov", v) ∈ Exofop.q_data summary ->
                  v = coverage (Exofop.transcov self)).
Proof.
  intros Hp Hd.
  destruct (preamble_Ok self obsdur u Hp)
    as (first & final & G1 & G2 & G3 & G4).
  assert (EL : login_request self
               = {| Exofop.q_url := login_url;
                    Exofop.q_file := None;
                    Exofop.q_data :=
                      [ ("username", u);
                        ("password", Exofop.password self);
                        ("ref", "login_user");
                        ("ref_page", "/tess/") ] |})
    by (unfold login_request; rewrite G4; reflexivity).
  unfold Exofop.upload, Exofop.user_name. rewrite G1, G2, G4.
  unfold mbind, prog_bind, lift, Exofop.post, Exofop.print.
  cbv beta iota. rewrite G3. cbv beta iota.
  do 2 eexists. cbv zeta. split.
  - intros srv.
    cbn [app with_server Exofop.str_float Exofop.round_n
         Exofop.strftime Exofop.server Exofop.figures_is_dir].
    match goal with
    | |- context [for_each (Exofop.fileList self) ?body] =>
        set (loop := for_each (Exofop.fileList self) body)
    end.
    rewrite Hd.
    fold login_url. rewrite <- EL.
    destruct (srv (login_request self)) as [r1|e1] eqn:E1.
    2: { cbn. split; [apply prefix_cons, prefix_nil|]. split.
         - exists [], (login_request self). auto.
         - intros Ha. destruct (Ha (login_request self)). congruence. }
    destruct (Exofop.r_ok r1); cbn [app];
      destruct (Exofop.skip_summary_upload self); cbn [negb app];
      try match goal with
          | |- context [srv ?q] =>
              lazymatch q with
              | login_request _ => fail
              | _ => destruct (srv q) as [r2|e2] eqn:E2;
                     [destruct (Exofop.r_ok r2)|]
              end
          end; cbn [app];
      destruct (Exofop.skip_file_upload self); cbn [negb];
      first [upload_raised E2 | upload_skipped | upload_looped loop].
  - split; [reflexivity|]. split; [reflexivity|]. split; [reflexivity|].
    intros v Hv. cbn [Exofop.q_data] in Hv.
    repeat (apply elem_of_cons in Hv as [Hv|Hv];
            [first [discriminate Hv | injection Hv as ->; reflexivity]|]).
    apply elem_of_nil in Hv. contradiction.
Qed.

Lemma posted_files_requests (log : list Exofop.event) :
  Exofop.posted_files log = omap Exofop.q_file (requests log).
Proof.
  unfold Exofop.posted_files, requests.
  induction log as [|[s|s|q] log IH]; cbn; [reflexivity|exact IH|exact IH|].
  destruct (Exofop.q_file q); cbn; rewrite IH; reflexivity.
Qed.

Lemma elem_of_requests (q : Exofop.request) (log : list Exofop.event) :
  q ∈ requests log <-> Exofop.Post q ∈ log.
Proof.
  unfold requests. rewrite list_elem_of_omap. split.
  - intros (ev & Hev & E). destruct ev as [| |q']; try discriminate.
    injection E as ->. exact Hev.
  - intros H. exists (Exofop.Post q). auto.
Qed.

Lemma omap_file_requests (toi tic tag : string) (files : list string) :
  omap Exofop.q_file (map (file_request toi tic tag) files) = files.
Proof.
  induction files as [|f files IH]; [reflexivity|].
  cbn. f_equal. exact IH.
Qed.

Ltac upload_stuck :=
  split;
  [ let e := fresh in
    let H := fresh in
    intros e H; injection H as <-; reflexivity
  | let p := fresh in
    let H := fresh in
    intros p H; discriminate H ].

(** When the first lines raise, or the figures folder is missing, nothing
    is sent or printed. *)
Lemma upload_idle (rt : Exofop.runtime) (self : Exofop.uploader)
    (log : list Exofop.event) :
  (forall e, preamble self = Raise e ->
             Exofop.upload rt self log = (log, Raise e))
  /\ (forall p, preamble self = Ok p ->
                Exofop.figures_is_dir rt = false ->
                Exofop.upload rt self log = (log, Ok tt)).
Proof.
  unfold preamble, Exofop.upload, mbind, prog_bind, result_bind, lift.
  destruct (getitem (Exofop.obs_time self) 0) as [first|e1];
    [|upload_stuck].
  destruct (getitem (Exofop.obs_time self) _) as [final|e2];
    [|upload_stuck].
  cbv beta iota.
  destruct (pretty <$> py_round _) as [d|e3]; [|upload_stuck].
  destruct (Exofop.user_name self) as [u|e4]; [|upload_stuck].
  split; [intros e H; discriminate H|].
  intros p _ ->. reflexivity.
Qed.

(** The requests sent are the same whatever the service answers, as long
    as it answers: a refused login or a refused summary does not keep the
    summary and the files from being sent. *)
Theorem upload_requests_ignore_answers (rt : Exofop.runtime)
    (self : Exofop.uploader)
    (srv1 srv2 : Exofop.request -> result Exofop.response) :
  answers srv1 ->
  answers srv2 ->
  requests (Exofop.upload (with_server rt srv1) self []).1
  = requests (Exofop.upload (with_server rt srv2) self []).1.
Proof.
  intros H1 H2.
  destruct (preamble self) as [[obsdur u]|e] eqn:Ep.
  - destruct (Exofop.figures_is_dir rt) eqn:Hd.
    + destruct (upload_run rt self obsdur u Ep Hd)
        as (summary & tag & Hrun & _).
      cbv zeta in Hrun.
      destruct (Hrun srv1) as (_ & M1 & A1).
      destruct (Hrun srv2) as (_ & M2 & A2).
      rewrite (A1 H1) in M1. rewrite (A2 H2) in M2. congruence.
    + rewrite !(proj2 (upload_idle _ self []) _ Ep) by exact Hd.
      reflexivity.
  - rewrite !(proj1 (upload_idle _ self []) e Ep). reflexivity.
Qed.

Lemma upload_requests_ignore_answers_witness :
  requests
    (Exofop.upload (with_server Ref.service Services.accepting)
       Ref.uploader []).1
  = requests
      (Exofop.upload (with_server Ref.service Services.refusing)
         Ref.uploader []).1.
Proof.
  apply (upload_requests_ignore_answers Ref.service Ref.uploader
           Services.accepting Services.refusing);
    intros q; eexists; reflexivity.
Defined.

(** Whatever the service does, the files handed to it are, in the order of
    the list, the first of the files of the list that are regular files,
    start with [TIC] and not with [TIC] and a space, and end with a
    recognized suffix, each of them once for each time it is listed: none is
    left out before the last one sent, and none is sent ahead of its turn.
    When the upload returns, with the figures folder there and the file
    uploads not skipped, they are all of these files. *)
Theorem upload_sends_eligible_files (rt : Exofop.runtime)
    (self : Exofop.uploader) :
  Exofop.posted_files (Exofop.upload rt self []).1
    `prefix_of` filter (fun f => eligible rt f = true) (Exofop.fileList self)
  /\ ((Exofop.upload rt self []).2 = Ok tt ->
      Exofop.figures_is_dir rt = true ->
      Exofop.skip_file_upload self = false ->
      Exofop.posted_files (Exofop.upload rt self []).1
      = filter (fun f => eligible rt f = true) (Exofop.fileList self)).
Proof.
  split; [apply upload_posted|].
  intros Hr Hd Hs.
  destruct (preamble self) as [[obsdur u]|e] eqn:Ep.
  2: { rewrite (proj1 (upload_idle rt self []) e Ep) in Hr. discriminate Hr. }
  destruct (upload_run rt self obsdur u Ep Hd)
    as (summary & tag & Hrun & _ & Hf & _).
  cbv zeta in Hrun.
  destruct (Hrun (Exofop.server rt)) as (_ & M & _).
  rewrite with_server_id in M. rewrite Hr in M.
  rewrite posted_files_requests, M, Hs.
  cbn [omap list_omap Exofop.q_file login_request].
  destruct (Exofop.skip_summary_upload self); cbn [app omap list_omap].
  - apply omap_file_requests.
  - rewrite Hf. apply omap_file_requests.
Qed.

Lemma upload_sends_eligible_files_witness :
  let rt := with_server Ref.service Services.breaking in
  (Exofop.upload rt Ref.uploader []).2 = Raise ConnectionError
  /\ Exofop.posted_files (Exofop.upload rt Ref.uploader []).1
     = ["TIC123456789_stars.png"]
  /\ ["TIC123456789_stars.png"]
       `prefix_of` filter (fun f => eligible rt f = true)
                          (Exofop.fileList Ref.uploader)
  /\ filter (fun f => eligible rt f = true) (Exofop.fileList Ref.uploader)
     = [ "TIC123456789_stars.png"; "TIC123456789_lightcurve.png" ].
Proof.
  intros rt.
  split; [reflexivity|]. split; [reflexivity|]. split; [|reflexivity].
  exact (proj1 (upload_sends_eligible_files rt Ref.uploader)).
Defined.

(** Every request of a run is the login, the summary or the request of an
    eligible file of the list. *)
Lemma upload_request_cases (rt : Exofop.runtime) (self : Exofop.uploader)
    (q : Exofop.request) :
  Exofop.Post q ∈ (Exofop.upload rt self []).1 ->
  q = login_request self
  \/ (Exofop.skip_summary_upload self = false
      /\ Exofop.q_url q = summary_url
      /\ Exofop.q_file q = None
      /\ ("password" ∉ keys q)
      /\ (forall v, ("transcov", v) ∈ Exofop.q_data q ->
                    v = coverage (Exofop.transcov self)))
  \/ (Exofop.skip_file_upload self = false
      /\ exists f tag,
           q = file_request ("TOI" +:+ Exofop.toi self)
                            (Exofop.tic_id self) tag f
           /\ f ∈ Exofop.fileList self
           /\ eligible rt f = true).
Proof.
  intros Hq.
  destruct (preamble self) as [[obsdur u]|e] eqn:Ep.
  2: { rewrite (proj1 (upload_idle rt self []) e Ep) in Hq.
       apply elem_of_nil in Hq. contradiction. }
  destruct (Exofop.figures_is_dir rt) eqn:Hd.
  2: { rewrite (proj2 (upload_idle rt self []) _ Ep Hd) in Hq.
       apply elem_of_nil in Hq. contradiction. }
  destruct (upload_run rt self obsdur u Ep Hd)
    as (summary & tag & Hrun & Hu & Hf & Hk & Hc).
  cbv zeta in Hrun.
  destruct (Hrun (Exofop.server rt)) as ([k Hp] & _ & _).
  rewrite with_server_id in Hp.
  apply elem_of_requests in Hq.
  assert (Hin : q ∈ requests (Exofop.upload rt self []).1 ++ k)
    by (apply elem_of_app; left; exact Hq).
  rewrite <- Hp in Hin.
  apply elem_of_cons in Hin as [->|Hin]; [left; reflexivity|].
  apply elem_of_app in Hin as [Hin|Hin].
  - destruct (Exofop.skip_summary_upload self);
      [apply elem_of_nil in Hin; contradiction|].
    apply list_elem_of_singleton in Hin as ->.
    right. left. split; [reflexivity|]. split; [exact Hu|].
    split; [exact Hf|]. split; [|exact Hc].
    rewrite Hk. intros Hin.
    repeat (apply elem_of_cons in Hin as [Hin|Hin]; [discriminate Hin|]).
    apply elem_of_nil in Hin. exact Hin.
  - destruct (Exofop.skip_file_upload self);
      [apply elem_of_nil in Hin; contradiction|].
    rewrite map_fmap in Hin.
    apply list_elem_of_fmap in Hin as (f & -> & Hin).
    apply list_elem_of_filter in Hin as [He Hin].
    right. right. split; [reflexivity|]. exists f, tag. auto.
Qed.

(** The password is in the login request and in no other: neither the
    summary nor any file is sent with it. *)
Theorem upload_password_only_at_login (rt : Exofop.runtime)
    (self : Exofop.uploader) (q : Exofop.request) :
  Exofop.Post q ∈ (Exofop.upload rt self []).1 ->
  "password" ∈ keys q ->
  q = login_request self.
Proof.
  intros Hq Hk.
  destruct (upload_request_cases rt self q Hq)
    as [H | [(_ & _ & _ & Hn & _) | (_ & f & tag & -> & _)]].
  - exact H.
  - contradiction.
  - exfalso. cbn in Hk.
    repeat (apply elem_of_cons in Hk as [Hk|Hk]; [discriminate Hk|]).
    apply elem_of_nil in Hk. exact Hk.
Qed.

Lemma upload_password_only_at_login_witness :
  Exofop.Post (login_request Ref.uploader)
  ∈ (Exofop.upload Ref.service Ref.uploader []).1
  /\ "password" ∈ keys (login_request Ref.uploader)
  /\ login_request Ref.uploader = login_request Ref.uploader.
Proof.
  assert (H1 : Exofop.Post (login_request Ref.uploader)
               ∈ (Exofop.upload Ref.service Ref.uploader []).1)
    by (vm_compute; apply list_elem_of_here).
  assert (H2 : "password" ∈ keys (login_request Ref.uploader))
    by (apply (bool_decide_unpack _); vm_compute; exact I).
  split; [exact H1|]. split; [exact H2|].
  exact (upload_password_only_at_login Ref.service Ref.uploader
           (login_request Ref.uploader) H1 H2).
Defined.

(** With [skip_summary_upload] set no request goes to the summary page, and
    with [skip_file_upload] set no request carries a file; the login is sent
    in both cases. *)
Theorem upload_skips (rt : Exofop.runtime) (self : Exofop.uploader)
    (q : Exofop.request) :
  Exofop.Post q ∈ (Exofop.upload rt self []).1 ->
  (Exofop.skip_summary_upload self = true ->
   Exofop.q_url q <> summary_url)
  /\ (Exofop.skip_file_upload self = true -> Exofop.q_file q = None).
Proof.
  intros Hq.
  destruct (upload_request_cases rt self q Hq)
    as [-> | [(Hs & _ & Hf & _) | (Hs & f & tag & -> & _)]].
  - split; [intros _; discriminate | reflexivity].
  - split; [congruence | intros _; exact Hf].
  - split; [intros _; discriminate | congruence].
Qed.

Lemma upload_skips_witness :
  let self := Services.uploader "full" true true in
  Exofop.Post (login_request self) ∈ (Exofop.upload Ref.service self []).1
  /\ Exofop.q_url (login_request self) <> summary_url
  /\ Exofop.q_file (login_request self) = None.
Proof.
  intros self.
  assert (H1 : Exofop.Post (login_request self)
               ∈ (Exofop.upload Ref.service self []).1)
    by (vm_compute; apply list_elem_of_here).
  split; [exact H1|].
  destruct (upload_skips Ref.service self (login_request self) H1)
    as [H2 H3].
  split; [apply H2 | apply H3]; reflexivity.
Defined.

(** The summary is sent with the coverage Full, Ingress or Egress when the
    [transcov] argument is that word in any capitalisation, and with Out of
    Transit for every other text. *)
Theorem upload_coverage (rt : Exofop.runtime) (self : Exofop.uploader)
    (q : Exofop.request) (v : string) :
  Exofop.Post q ∈ (Exofop.upload rt self []).1 ->
  Exofop.q_url q = summary_url ->
  ("transcov", v) ∈ Exofop.q_data q ->
  (Exofop.lower (Exofop.transcov self) = "full" -> v = "Full")
  /\ (Exofop.lower (Exofop.transcov self) = "ingress" -> v = "Ingress")
  /\ (Exofop.lower (Exofop.transcov self) = "egress" -> v = "Egress")
  /\ (Exofop.lower (Exofop.transcov self) ∉ ["full"; "ingress"; "egress"] ->
      v = "Out of Transit").
Proof.
  intros Hq Hu Hv.
  assert (E : v = coverage (Exofop.transcov self)).
  { destruct (upload_request_cases rt self q Hq)
      as [-> | [(_ & _ & _ & _ & Hc) | (_ & f & tag & -> & _)]].
    - discriminate Hu.
    - exact (Hc v Hv).
    - discriminate Hu. }
  subst v. unfold coverage.
  repeat split.
  - intros ->. reflexivity.
  - intros ->. reflexivity.
  - intros ->. reflexivity.
  - intros Hn.
    destruct (String.eqb_spec (Exofop.lower (Exofop.transcov self)) "full")
      as [E|_]; [rewrite E in Hn; exfalso; apply Hn; set_solver|].
    destruct (String.eqb_spec (Exofop.lower (Exofop.transcov self)) "ingress")
      as [E|_]; [rewrite E in Hn; exfalso; apply Hn; set_solver|].
    destruct (String.eqb_spec (Exofop.lower (Exofop.transcov self)) "egress")
      as [E|_]; [rewrite E in Hn; exfalso; apply Hn; set_solver|].
    reflexivity.
Qed.

Lemma upload_coverage_witness :
  let self := Services.uploader "InGress" false false in
  let q := Services.second_request Ref.service self in
  Exofop.Post q ∈ (Exofop.upload Ref.service self []).1
  /\ Exofop.q_url q = summary_url
  /\ ("transcov", "Ingress") ∈ Exofop.q_data q.
Proof.
  intros self q.
  assert (H1 : Exofop.Post q ∈ (Exofop.upload Ref.service self []).1).
  { vm_compute. do 2 apply list_elem_of_further. apply list_elem_of_here. }
  assert (H2 : Exofop.q_url q = summary_url) by reflexivity.
  assert (H3 : ("transcov", "Ingress") ∈ Exofop.q_data q)
    by (apply (bool_decide_unpack _); vm_compute; exact I).
  destruct (upload_coverage Ref.service self q "Ingress" H1 H2 H3)
    as (_ & H & _).
  auto.
Defined.

Lemma getitem_final {A} (l : list A) (y : A) :
  getitem l (length l - 1) = Ok y <-> last l = Some y.
Proof.
  rewrite last_lookup. unfold getitem.
  replace (length l - 1)%nat with (pred (length l)) by lia.
  destruct (l !! pred (length l)); split; congruence.
Qed.

(** The first lines in terms of the span. *)
Lemma preamble_span (self : Exofop.uploader) (x : float) :
  span_minutes self = Some x ->
  preamble self
  = (obsdur ← pretty <$> py_round x;
     username ← Exofop.user_name self;
     Ok (obsdur, username)).
Proof.
  unfold span_minutes, preamble.
  destruct (Exofop.obs_time self) as [|t ts] eqn:Et; [discriminate|].
  cbn [head mbind option_bind].
  destruct (last (t :: ts)) as [y|] eqn:El; [|discriminate].
  intros [= <-]. apply getitem_final in El. rewrite El. reflexivity.
Qed.




(** ** Failures of [make] *)













(** When the destination does not exist and its parent is not a folder,
    [make] raises and leaves the world as it was: [NotADirectoryError] when
    a regular file stands where a folder above the destination is needed,
    [FileNotFoundError] otherwise. *)
Theorem make_needs_parent (bk : backend) (self : report) (dest : path)
    (t0 duration : option float) (w : world) :
  exists_in w dest = false ->
  is_dir w (removelast dest) = false ->
  make bk self dest t0 duration w
  = (w, Raise (if under_file w dest then NotADirectoryError
               else FileNotFoundError)).
Proof.
  intros Hd Hp.
  unfold make, make_report_folder, mbind, prog_bind.
  rewrite path_exists_eq, Hd. cbn [negb].
  unfold os_mkdir.
  destruct dest as [|c dest]; [discriminate Hd|].
  unfold exists_in in Hd. rewrite Hd, Hp. reflexivity.
Qed.

Lemma make_needs_parent_witness :
  make Ref.backend0 Ref.report0 ["data"; "night1"] None None Ref.world0
  = (Ref.world0, Raise FileNotFoundError)
  /\ make Ref.backend0 Ref.report0
       ["pkg"; "latex"; "prose-report.cls"; "night1"] None None Ref.world0
     = (Ref.world0, Raise NotADirectoryError).
Proof.
  split.
  - apply (make_needs_parent Ref.backend0 Ref.report0 ["data"; "night1"]);
      reflexivity.
  - apply (make_needs_parent Ref.backend0 Ref.report0
             ["pkg"; "latex"; "prose-report.cls"; "night1"]); reflexivity.
Defined.

(** ** The time span of the metadata table *)

(** The time span tells the hours and minutes of the duration without its
    days: an observation that ends whole days later is written the same. *)
Theorem obs_duration_forgets_days (dmin dmax : datetime) (days : Z) :
  obs_duration dmin (days_later dmax days) = obs_duration dmin dmax.
Proof.
  unfold obs_duration, strftime_HM.
  assert (E : td_seconds (dt_sub (days_later dmax days) dmin)
              = td_seconds (dt_sub dmax dmin)).
  { assert (M : micros (days_later dmax days)
                = (micros dmax + days * 86400 * 1000000)%Z)
      by (unfold micros, days_later; cbn; lia).
    unfold dt_sub. cbn [td_seconds]. rewrite M.
    replace (micros dmax + days * 86400 * 1000000 - micros dmin)%Z
      with (micros dmax - micros dmin + days * 86400 * 1000000)%Z by lia.
    rewrite Z.div_add by lia.
    rewrite Z.add_mod by lia.
    rewrite Z.mod_mul by lia. rewrite Z.add_0_r. apply Z.mod_mod. lia. }
  rewrite E. reflexivity.
Qed.

(** ** The table for the MCMC fit *)

Lemma mcmc_columns_table (self : observation) (lc : light_curve) :
  mcmc_columns self lc = as_frame (mcmc_table self lc).
Proof. reflexivity. Qed.

(** When [save_mcmc_file] writes its table, the file is named after the
    destination and the products, the columns are the eleven of the
    dictionary in its order, there is one row for each epoch, and row [r]
    holds the value of each array at epoch [r]: the three FWHM columns are
    the same array. *)
Theorem save_mcmc_file_table (self : observation) (lc : light_curve)
    (observation_date target destination name : string) (csv : csv_file) :
  save_mcmc_file self lc observation_date target destination
  = Ok (name, csv) ->
  name = destination +:+ "/MCMC_" +:+ telescope_name self +:+ "_"
         +:+ observation_date +:+ "_" +:+ target +:+ "_"
         +:+ filter_name self +:+ ".txt"
  /\ csv_sep csv = " "
  /\ csv_header csv
     = map Some [ "BJD-TDB"; "DIFF_FLUX"; "ERROR"; "dx_MOVE"; "dy_MOVE";
                  "FWHM"; "FWHMx"; "FWHMy"; "SKYLEVEL"; "AIRMASS";
                  "EXPOSURE" ]
  /\ csv_rows csv
     = map (fun r => [ time self !! r; lc_flux lc !! r; lc_error lc !! r;
                       dx self !! r; dy self !! r;
                       fwhm self !! r; fwhm self !! r; fwhm self !! r;
                       sky self !! r; airmass self !! r; exptime self !! r ])
           (seq 0 (length (time self)))
  /\ aligned self lc.
Proof.
  unfold save_mcmc_file. intros H.
  apply bind_Ok in H as ([] & _ & H).
  apply bind_Ok in H as (df & Hdf & H).
  injection H as <- <-.
  rewrite mcmc_columns_table in Hdf.
  apply csv_of_table in Hdf as (Hh & Hl & _ & Hr).
  split; [unfold products_denominator; rewrite !append_assoc; reflexivity|].
  split; [reflexivity|]. split; [exact Hh|]. split; [exact Hr|exact Hl].
Qed.



Lemma save_mcmc_file_table_witness :
  exists csv,
    Demo.mcmc
    = Ok ("out/MCMC_Trappist-South_20210315_TOI-1234_I+z.txt", csv)
    /\ length (csv_rows csv) = 4%nat
    /\ csv_rows csv !! 2%nat
       = Some (map Some [2459001; 0.5; 0.25; 0; 0.5; 4; 4; 4; 8; 1.5;
                         21600]%float).
Proof.
  destruct Demo.mcmc as [[name csv]|e] eqn:E; [|discriminate E].
  assert (H : save_mcmc_file Ref.demo Demo.lc "20210315" "TOI-1234" "out"
              = Ok (name, csv)) by exact E.
  destruct (save_mcmc_file_table _ _ _ _ _ _ _ H) as (Hn & _ & _ & Hr & _).
  exists csv. split.
  - f_equal. f_equal. rewrite Hn. reflexivity.
  - rewrite Hr. split; reflexivity.
Defined.

(** ** [show_stars] *)

Lemma clamp_0 (len : Z) : (0 <= len)%Z -> clamp len 0 = 0%nat.
Proof. intros H. unfold clamp. cbn. lia. Qed.

Lemma py_slice_head {A} (l : list A) (n : Z) :
  (0 <= n)%Z -> py_slice l 0 n = firstn (Z.to_nat n) l.
Proof.
  intros Hn. unfold py_slice. rewrite clamp_0 by lia.
  rewrite Nat.sub_0_r, drop_0. unfold clamp.
  destruct (Z.ltb_spec n 0) as [E|_]; [lia|].
  destruct (Z.le_gt_cases n (Z.of_nat (length l))) as [H|H].
  - f_equal. lia.
  - replace (Z.to_nat _) with (length l) by lia.
    rewrite !firstn_all2 by lia. reflexivity.
Qed.

(** [show_stars] fails with its assertion when there is no stack image,
    and, the stack being there, when [n_stars] is given together with the
    reference view; a view that is neither [all] nor [reference] draws
    nothing and raises nothing; and a chart drawn when the target is [-1]
    is not zoomed. *)
Theorem show_stars_guards (self : observation) (f : field) (size : float)
    (flip zoom : bool) (view : option string) (n_stars : option Z) :
  (has_stack f = false ->
   show_stars self f size flip view zoom n_stars
   = Raise (AssertionError "No stack found"))
  /\ (has_stack f = true ->
      forall n, show_stars self f size flip (Some "reference") zoom (Some n)
                = Raise (AssertionError n_stars_msg))
  /\ (has_stack f = true ->
      forall v, v <> "all" -> v <> "reference" ->
                show_stars self f size flip (Some v) zoom n_stars = Ok None)
  /\ (forall chart,
        show_stars self f size flip view zoom n_stars = Ok (Some chart) ->
        target f = (-1)%Z -> sc_zoom chart = false).
Proof.
  unfold show_stars, check_stack. repeat split.
  - intros ->. reflexivity.
  - intros -> n. reflexivity.
  - intros -> v Ha Hr. cbn [py_assert mbind result_bind].
    destruct n_stars as [n|];
      [rewrite bool_decide_eq_false_2 by congruence|];
      cbn [mbind result_bind];
      apply String.eqb_neq in Ha, Hr; rewrite Ha, Hr; reflexivity.
  - intros chart H Ht. rewrite Ht in H. cbn [Z.eqb] in H.
    destruct (has_stack f); [|discriminate H].
    cbn [py_assert mbind result_bind] in H.
    match type of H with
    | (?m ≫= _) = _ => destruct m as [st|e]; [|discriminate H]
    end.
    cbn [mbind result_bind] in H.
    repeat match type of H with
           | (if ?c then _ else _) = _ => destruct c
           | (?m ≫= _) = _ => destruct m; cbn [mbind result_bind] in H
           end;
      try discriminate H; injection H as <-; reflexivity.
Qed.

(** With [n_stars] given and no view asked for, an observation that has
    comparison stars is drawn in the reference view with the first
    [n_stars] stars only: the view is chosen after the check that refuses
    [n_stars] for the reference view. *)
Theorem show_stars_default_view_takes_n_stars (self : observation)
    (f : field) (size : float) (flip zoom : bool) (n : Z)
    (ref_stars : list nat) :
  has_stack f = true ->
  has_comps f = true ->
  comps self !! aperture self = Some ref_stars ->
  (0 <= n)%Z ->
  exists chart,
    show_stars self f size flip None zoom (Some n) = Ok (Some chart)
    /\ sc_view chart = Some "reference"
    /\ sc_ref_stars chart = Some ref_stars
    /\ sc_stars chart = firstn (Z.to_nat n) (stars f).
Proof.
  intros Hs Hc Hr Hn. unfold show_stars, check_stack, getitem.
  rewrite Hs, Hc, Hr. cbn.
  eexists. split; [reflexivity|]. cbn. repeat split.
  apply py_slice_head, Hn.
Qed.

Lemma show_stars_default_view_takes_n_stars_witness :
  exists chart,
    show_stars Ref.demo DemoField.field0 10 false None false (Some 2%Z)
    = Ok (Some chart)
    /\ sc_view chart = Some "reference"
    /\ sc_ref_stars chart = Some [2; 1]%nat
    /\ sc_stars chart = [(10, 12); (40, 8)]%float.
Proof.
  destruct (show_stars_default_view_takes_n_stars Ref.demo DemoField.field0
              10 false false 2 [2; 1]%nat)
    as (chart & H1 & H2 & H3 & H4); try reflexivity; [lia|].
  exists chart. auto.
Defined.

(** ** The stacked curves of [plot_systematics] and [plot_comps_lcs] *)

Lemma action_bind_Return {S A B} (m : action S A) (f : A -> action S B)
    (s s' : S) (a : A) :
  m s = (s', Return a) -> (m ≫= f) s = f a s'.
Proof. intros E. unfold mbind, action_bind. rewrite E. reflexivity. Qed.

Lemma annotations_app (l1 l2 : list plt_call) :
  annotations (l1 ++ l2) = annotations l1 ++ annotations l2.
Proof. unfold annotations. apply omap_app. Qed.

(** One turn of the loop of [plot_systematics]. *)
Lemma systematics_curve_run (lib : stats) (flux time : list float)
    (offset tmin : float) (i : Z) (field : string) (values : list float)
    (s : list plt_call) :
  np_amin time = Ok tmin ->
  exists y,
    systematics_curve lib flux time offset i field values s
    = (s ++ [ PlotLc time y;
              Annotate field (tmin + 0x1.47ae147ae147bp-8)
                       (label_height offset (i + 1)) ],
       Return tt).
Proof.
  intros Ht. unfold systematics_curve, mbind, action_bind, call, pure.
  rewrite Ht. cbn [std]. eexists. rewrite <- app_assoc. reflexivity.
Qed.

Lemma systematics_loop_run (lib : stats)
    (variables : list (string * list float)) (flux time : list float)
    (offset tmin : float) :
  np_amin time = Ok tmin ->
  forall (fields : list string) (k : nat) (i : option Z)
         (s : list plt_call),
  exists new,
    systematics_loop lib variables flux time offset fields k i s
    = (s ++ new,
       Return match last fields with
              | None => i
              | Some f =>
                  Some (Z.of_nat (k + length fields)
                        - (if present variables f then 1 else 2))%Z
              end)
    /\ annotations new
       = omap (fun kf : nat * string =>
                 if present variables kf.2
                 then Some (kf.2, label_height offset (Z.of_nat kf.1 + 1))
                 else None)
              (zip (seq k (length fields)) fields).
Proof.
  intros Ht fields.
  induction fields as [|f fields IH]; intros k i s.
  - exists []. rewrite app_nil_r. split; reflexivity.
  - cbn [systematics_loop].
    destruct (dict_get variables f) as [values|] eqn:Ef.
    + assert (Hp : present variables f = true)
        by (unfold present; rewrite Ef; reflexivity).
      destruct (systematics_curve_run lib flux time offset tmin
                  (Z.of_nat k) f values s Ht) as (y & Ey).
      match type of Ey with _ = (?s', _) => set (s1 := s') in * end.
      rewrite (action_bind_Return _ _ s s1 (Z.of_nat k)).
      2: { rewrite (action_bind_Return _ _ s s1 tt Ey). reflexivity. }
      destruct (IH (S k) (Some (Z.of_nat k)) s1) as (new & En & An).
      subst s1. eexists. rewrite En, <- app_assoc. split.
      * f_equal. f_equal. destruct fields as [|f' fields'].
        -- cbn. rewrite Hp. f_equal. lia.
        -- change (last (f :: f' :: fields')) with (last (f' :: fields')).
           destruct (last (f' :: fields')) eqn:El;
             [|apply last_None in El; discriminate El].
           f_equal. cbn [length]. lia.
      * rewrite annotations_app, An.
        cbn [length seq zip zip_with omap list_omap snd fst].
        rewrite Hp. reflexivity.
    + assert (Hp : present variables f = false)
        by (unfold present; rewrite Ef; reflexivity).
      rewrite (action_bind_Return _ _ s s (Z.of_nat k - 1)%Z) by reflexivity.
      destruct (IH (S k) (Some (Z.of_nat k - 1)%Z) s) as (new & En & An).
      exists new. rewrite En. split.
      * f_equal. f_equal. destruct fields as [|f' fields'].
        -- cbn. rewrite Hp. f_equal. lia.
        -- change (last (f :: f' :: fields')) with (last (f' :: fields')).
           destruct (last (f' :: fields')) eqn:El;
             [|apply last_None in El; discriminate El].
           f_equal. cbn [length]. lia.
      * rewrite An.
        cbn [length seq zip zip_with omap list_omap snd fst].
        rewrite Hp. reflexivity.
Qed.

(** With an empty list of fields [plot_systematics] draws the light curve
    of the target and then fails with [UnboundLocalError]: the lower limit
    of the axis is computed from the loop variable, which no turn of the
    loop has set. *)
Theorem plot_systematics_no_fields (lib : stats) (self : observation)
    (variables : list (string * list float)) (flux : list float)
    (ylim : option (float * float)) (lo hi : float) (s : list plt_call) :
  resolve_ylim flux ylim = Ok (lo, hi) ->
  plot_systematics lib self variables flux (Some []) ylim s
  = (s ++ (if no_axes lib s then [Figure 5 10] else []) ++ [PlotTarget],
     Throw (UnboundLocalError "i")).
Proof.
  intros Hy.
  unfold plot_systematics, mbind, action_bind, pure, ensure_figure, call,
    throw, mret, action_ret.
  rewrite Hy. cbn [std default systematics_loop].
  destruct (no_axes lib s); cbn; rewrite <- ?app_assoc; reflexivity.
Qed.

Lemma plot_systematics_no_fields_witness :
  plot_systematics plain_stats Ref.demo DemoCurves.variables
    (diff_flux Ref.demo) (Some []) (Some default_ylim) []
  = ([Figure 5 10; PlotTarget], Throw (UnboundLocalError "i")).
Proof.
  apply (plot_systematics_no_fields plain_stats Ref.demo
           DemoCurves.variables (diff_flux Ref.demo) (Some default_ylim)
           (fst default_ylim) (snd default_ylim) []).
  reflexivity.
Defined.

(** Each field of [fields] that the observation has is drawn with its
    label at the height of its position in [fields]: a field the
    observation lacks leaves its place empty, and the later curves do not
    move up. The lower limit of the axis is taken from the position of the
    last field, one place higher when that field is lacking, whatever the
    other fields are. *)
Theorem plot_systematics_slots (lib : stats) (self : observation)
    (variables : list (string * list float)) (flux : list float)
    (fields : list string) (ylim : option (float * float))
    (lo hi tmin : float) (last_field : string) (s : list plt_call) :
  resolve_ylim flux ylim = Ok (lo, hi) ->
  np_amin (time self) = Ok tmin ->
  last fields = Some last_field ->
  exists new,
    plot_systematics lib self variables flux (Some fields) ylim s
    = (s ++ new, Return tt)
    /\ annotations new
       = omap (fun kf : nat * string =>
                 if present variables kf.2
                 then Some (kf.2,
                            label_height (hi - lo) (Z.of_nat kf.1 + 1))
                 else None)
              (enumerate fields)
    /\ SetYlim
         (1 - (py_float (Z.of_nat (length fields)
                         - (if present variables last_field then 1 else 2))
               + 0x1.8p+0) * (hi - lo))
         hi
       ∈ new.
Proof.
  intros Hy Ht Hl.
  unfold plot_systematics, mbind, action_bind, pure, ensure_figure.
  rewrite Hy. cbn [std default fst snd].
  set (s1 := ((if no_axes lib s then call (Figure 5 10) else mret ()) s).1).
  assert (E1 : (if no_axes lib s then call (Figure 5 10) else mret ()) s
               = (s1, Return tt))
    by (subst s1; destruct (no_axes lib s); reflexivity).
  assert (P1 : exists pre, s1 = s ++ pre /\ annotations pre = []).
  { subst s1. destruct (no_axes lib s).
    - exists [Figure 5 10]. split; reflexivity.
    - exists []. rewrite app_nil_r. split; reflexivity. }
  rewrite E1. cbv beta iota. unfold call at 1. cbv beta iota.
  destruct (systematics_loop_run lib variables flux (time self) (hi - lo)
              tmin Ht fields 0 None (s1 ++ [PlotTarget]))
    as (new & En & An).
  change (id fields) with fields.
  rewrite En, Hl. cbv beta iota. unfold call. cbn [fst snd].
  destruct P1 as (pre & -> & Ap).
  eexists. split; [rewrite <- !app_assoc; reflexivity|]. split.
  - rewrite !annotations_app, Ap, An. cbn. rewrite app_nil_r. reflexivity.
  - rewrite !elem_of_app, !elem_of_cons. cbn [Nat.add]. tauto.
Qed.

Lemma plot_systematics_slots_witness :
  exists new,
    plot_systematics plain_stats Ref.demo DemoCurves.variables
      (diff_flux Ref.demo) (Some ["dx"; "humidity"; "sky"; "wind"])
      (Some default_ylim) []
    = (new, Return tt)
    /\ annotations new
       = [ ("dx", label_height (snd default_ylim - fst default_ylim) 1);
           ("sky", label_height (snd default_ylim - fst default_ylim) 3) ]
    /\ SetYlim (1 - (py_float 2 + 0x1.8p+0)
                    * (snd default_ylim - fst default_ylim))%float
               (snd default_ylim)
       ∈ new.
Proof.
  destruct (plot_systematics_slots plain_stats Ref.demo DemoCurves.variables
              (diff_flux Ref.demo) ["dx"; "humidity"; "sky"; "wind"]
              (Some default_ylim) (fst default_ylim) (snd default_ylim)
              2459000.5%float "wind" [])
    as (new & E & A & Y); try reflexivity.
  exists new. auto.
Defined.

Lemma curves_app (l1 l2 : list plt_call) :
  curves (l1 ++ l2) = curves l1 ++ curves l2.
Proof. unfold curves. apply omap_app. Qed.

Lemma comps_loop_run (time : list float) (offset tmin : float) :
  np_amin time = Ok tmin ->
  forall (idxs : list Z) (lcs : list (list float)) (k : nat) (i : option Z)
         (s : list plt_call),
  length idxs = length lcs ->
  exists new,
    comps_loop time offset (zip idxs lcs) k i s
    = (s ++ new,
       Return match idxs with
              | [] => i
              | _ :: _ => Some (Z.of_nat (k + length idxs) - 1)%Z
              end)
    /\ annotations new
       = map (fun ki : nat * Z =>
                (pretty ki.2, label_height offset (Z.of_nat ki.1)))
             (zip (seq k (length idxs)) idxs)
    /\ curves new
       = map (fun kc : nat * list float =>
                map (fun v => Some (v - py_float (Z.of_nat kc.1) * offset)%float)
                    kc.2)
             (zip (seq k (length lcs)) lcs).
Proof.
  intros Ht idxs.
  induction idxs as [|idx idxs IH]; intros [|lc lcs] k i s Hlen;
    try discriminate Hlen.
  - exists []. rewrite app_nil_r. repeat split; reflexivity.
  - cbn [zip zip_with comps_loop].
    unfold mbind, action_bind, call at 1 2, pure.
    rewrite Ht. cbn [std].
    injection Hlen as Hlen.
    match goal with
    | |- context [comps_loop _ _ _ _ _ ?s'] =>
        destruct (IH lcs (S k) (Some (Z.of_nat k)) s' Hlen)
          as (new & En & An & Cn)
    end.
    eexists. rewrite En, <- !app_assoc. split; [|split].
    + f_equal. f_equal. destruct idxs; f_equal; cbn [length]; lia.
    + rewrite !annotations_app, An. reflexivity.
    + rewrite !curves_app, Cn. reflexivity.
Qed.

Lemma comprehension_length {A B} (f : A -> result B) (l : list A)
    (ys : list B) :
  comprehension f l = Ok ys -> length l = length ys.
Proof.
  revert ys. induction l as [|x l IH]; intros ys H.
  - injection H as <-. reflexivity.
  - cbn in H. apply bind_Ok in H as (y & _ & H).
    apply bind_Ok in H as (ys' & H' & H). injection H as <-.
    cbn. f_equal. apply IH, H'.
Qed.

(** [plot_comps_lcs] draws the light curve of the target and then those of
    the first [n] comparison stars of the aperture, each one [offset] lower
    than the one before, and sets the lower limit of the axis half an
    offset below the last one; as the target is always drawn, the loop
    variable is always set. *)
Theorem plot_comps_lcs_curves (lib : stats) (self : observation)
    (target : Z) (fluxes : list (list (list float))) (flux : list float)
    (n : Z) (ylim : option (float * float)) (lo hi tmin : float)
    (comparison_stars : list nat) (lcs : list (list float))
    (s : list plt_call) :
  comps self !! aperture self = Some comparison_stars ->
  comprehension
    (fun i => m ← getitem fluxes (aperture self); py_index m i)
    (target :: map Z.of_nat (py_slice comparison_stars 0 n))
  = Ok lcs ->
  resolve_ylim flux ylim = Ok (lo, hi) ->
  np_amin (time self) = Ok tmin ->
  exists new,
    plot_comps_lcs lib self target fluxes flux n ylim s
    = (s ++ new, Return tt)
    /\ annotations new
       = map (fun ki : nat * Z =>
                (pretty ki.2, label_height (hi - lo) (Z.of_nat ki.1)))
             (enumerate
                (target :: map Z.of_nat (py_slice comparison_stars 0 n)))
    /\ curves new
       = map (fun kc : nat * list float =>
                map (fun v =>
                       Some (v - py_float (Z.of_nat kc.1) * (hi - lo))%float)
                    kc.2)
             (enumerate lcs)
    /\ SetYlim
         (1 - (py_float (Z.of_nat (length (py_slice comparison_stars 0 n)))
               + 0x1p-1) * (hi - lo))
         hi
       ∈ new.
Proof.
  intros Hc Hl Hy Ht.
  pose proof (comprehension_length _ _ _ Hl) as Hlen.
  assert (Hg : getitem (comps self) (aperture self) = Ok comparison_stars)
    by (unfold getitem; rewrite Hc; reflexivity).
  unfold plot_comps_lcs, pure, ensure_figure. rewrite Hg, Hy.
  rewrite (action_bind_Return _ _ s s comparison_stars) by reflexivity.
  rewrite Hl.
  rewrite (action_bind_Return _ _ s s lcs) by reflexivity.
  rewrite (action_bind_Return _ _ s s (lo, hi)) by reflexivity.
  unfold mbind, action_bind.
  cbn [std fst snd].
  set (idxs := target :: map Z.of_nat (py_slice comparison_stars 0 n)) in *.
  assert (P1 : exists pre,
             (if no_axes lib s then call (Figure 5 10) else mret ()) s
             = (s ++ pre, Return tt)
             /\ annotations pre = [] /\ curves pre = []).
  { destruct (no_axes lib s).
    - exists [Figure 5 10]. repeat split; reflexivity.
    - exists []. rewrite app_nil_r. repeat split; reflexivity. }
  destruct P1 as (pre & E1 & Ap & Cp). rewrite E1. cbv beta iota.
  destruct (comps_loop_run (time self) (hi - lo) tmin Ht idxs lcs 0 None
              (s ++ pre) Hlen)
    as (new & En & An & Cn).
  rewrite En. subst idxs. cbv beta iota. unfold call. cbn [fst snd].
  eexists. split; [rewrite <- !app_assoc; reflexivity|]. split; [|split].
  - rewrite !annotations_app, Ap, An. cbn. rewrite app_nil_r. reflexivity.
  - rewrite !curves_app, Cp, Cn. cbn. rewrite app_nil_r. reflexivity.
  - rewrite !elem_of_app, !elem_of_cons. cbn [Nat.add length].
    right. right. left. left. rewrite length_map.
    do 5 f_equal. lia.
Qed.

Lemma plot_comps_lcs_curves_witness :
  exists new,
    plot_comps_lcs plain_stats Ref.demo 0 DemoCurves.fluxes
      (diff_flux Ref.demo) 5 (Some default_ylim) []
    = (new, Return tt)
    /\ map fst (annotations new) = ["0"; "2"; "1"]
    /\ length (curves new) = 3%nat.
Proof.
  destruct (plot_comps_lcs_curves plain_stats Ref.demo 0 DemoCurves.fluxes
              (diff_flux Ref.demo) 5 (Some default_ylim)
              (fst default_ylim) (snd default_ylim) 2459000.5%float
              [2; 1]%nat
              [[3; 5; 3; 5]; [1; 3; 1; 3]; [2; 2; 2; 2]]%float [])
    as (new & E & A & C & _); try reflexivity.
  exists new. split; [exact E|]. rewrite A, C. split; reflexivity.
Defined.

(** ** Ingress and egress of the transit model *)

(** [np.nonzero] from position [k] on. *)
Lemma np_nonzero_from (k : nat) (a : list float) :
  let nz := map fst (filter (fun p : nat * float => (p.2 =? 0)%float = false)
                            (zip (seq k (length a)) a)) in
  (forall i, i ∈ nz <->
             exists v, a !! (i - k)%nat = Some v /\ (k <= i)%nat
                       /\ (v =? 0)%float = false)
  /\ StronglySorted lt nz.
Proof.
  revert k. induction a as [|v a IH]; intros k nz.
  - split; [|constructor]. intros i. split.
    + intros H. apply elem_of_nil in H. contradiction.
    + intros (w & H & _). discriminate H.
  - subst nz. cbn [length seq zip zip_with]. rewrite filter_cons.
    destruct (IH (S k)) as [M S']. cbv zeta in M, S'.
    assert (Hlow : Forall (lt k)
              (map fst (filter (fun p : nat * float => (p.2 =? 0)%float = false)
                               (zip (seq (S k) (length a)) a)))).
    { apply Forall_forall. intros i Hi. apply M in Hi as (_ & _ & Hi & _).
      lia. }
    assert (Hshift : forall i,
              (exists w, a !! (i - S k)%nat = Some w /\ (S k <= i)%nat
                         /\ (w =? 0)%float = false)
              <-> (exists w, (v :: a) !! (i - k)%nat = Some w
                             /\ (k < i)%nat /\ (w =? 0)%float = false)).
    { intros i. split; intros (w & H1 & H2 & H3); exists w.
      - replace (i - k)%nat with (S (i - S k)) by lia. auto.
      - replace (i - k)%nat with (S (i - S k)) in H1 by lia. auto. }
    cbn [snd].
    destruct (decide ((v =? 0)%float = false)) as [Hv|Hv].
    + cbn [map fst]. split; [|constructor; assumption].
      intros i. rewrite elem_of_cons, M, Hshift. split.
      * intros [->|(w & H1 & H2 & H3)].
        -- exists v. rewrite Nat.sub_diag. auto.
        -- exists w. split; [exact H1|]. split; [lia|exact H3].
      * intros (w & H1 & H2 & H3).
        destruct (decide (i = k)) as [->|Hne]; [left; reflexivity|].
        right. exists w. split; [exact H1|]. split; [lia|exact H3].
    + split; [|exact S'].
      intros i. rewrite M, Hshift. split.
      * intros (w & H1 & H2 & H3). exists w. split; [exact H1|].
        split; [lia|exact H3].
      * intros (w & H1 & H2 & H3).
        destruct (decide (i = k)) as [->|Hne].
        -- rewrite Nat.sub_diag in H1. injection H1 as ->. contradiction.
        -- exists w. split; [exact H1|]. split; [lia|exact H3].
Qed.

Lemma elem_of_np_nonzero (a : list float) (i : nat) :
  i ∈ np_nonzero a
  <-> exists v, a !! i = Some v /\ (v =? 0)%float = false.
Proof.
  destruct (np_nonzero_from 0 a) as [M _]. cbv zeta in M.
  unfold np_nonzero. rewrite M, Nat.sub_0_r. split.
  - intros (v & H1 & _ & H2). eauto.
  - intros (v & H1 & H2). exists v. split; [exact H1|]. split; [lia|exact H2].
Qed.

Lemma np_nonzero_sorted (a : list float) : StronglySorted lt (np_nonzero a).
Proof. destruct (np_nonzero_from 0 a) as [_ S']. exact S'. Qed.

Lemma sorted_before_last (pre : list nat) (j k : nat) :
  StronglySorted lt (pre ++ [j]) -> k ∈ pre -> (k < j)%nat.
Proof.
  induction pre as [|p pre IH]; intros Hs Hk.
  - apply elem_of_nil in Hk. contradiction.
  - cbn in Hs. apply StronglySorted_inv in Hs as [Hs Hp].
    apply elem_of_cons in Hk as [->|Hk]; [|exact (IH Hs Hk)].
    rewrite Forall_forall in Hp. apply Hp.
    apply elem_of_app. right. apply list_elem_of_here.
Qed.

Lemma py_index_last {A} (l : list A) (x : A) :
  py_index l (-1) = Ok x -> last l = Some x.
Proof.
  unfold py_index. cbn [Z.ltb Z.compare].
  destruct (Z.leb_spec 0 (-1 + Z.of_nat (length l))) as [H|H];
    [|discriminate].
  intros E. apply getitem_Ok in E. rewrite last_lookup.
  replace (pred (length l)) with (Z.to_nat (-1 + Z.of_nat (length l)))
    by lia.
  exact E.
Qed.

(** [np.nonzero] is empty exactly for an array of zeros. *)
Lemma np_nonzero_nil (a : list float) :
  np_nonzero a = [] <-> Forall (fun v => (v =? 0)%float = true) a.
Proof.
  split.
  - intros E. apply Forall_forall. intros v Hv.
    apply list_elem_of_lookup in Hv as [i Hi].
    destruct (v =? 0)%float eqn:Ev; [reflexivity|].
    assert (Hin : i ∈ np_nonzero a) by (apply elem_of_np_nonzero; eauto).
    rewrite E in Hin. apply elem_of_nil in Hin. contradiction.
  - intros H. destruct (np_nonzero a) as [|i l] eqn:E; [reflexivity|].
    assert (Hin : i ∈ np_nonzero a) by (rewrite E; apply list_elem_of_here).
    apply elem_of_np_nonzero in Hin as (v & Hv & Hz).
    rewrite Forall_forall in H.
    assert (Hv' : v ∈ a) by (apply list_elem_of_lookup; eauto).
    rewrite (H v Hv') in Hz. discriminate Hz.
Qed.

(** For a transit model that is zero at every epoch, [plot_ingress_egress]
    draws the two lines of the observed ingress and egress and then fails
    with [IndexError]; the attributes of the predicted ingress and egress
    stay as they were. *)
Theorem plot_ingress_egress_flat_model (self : observation)
    (model : list float) (t0 duration : float) (c : canvas) :
  Forall (fun v => (v =? 0)%float = true) model ->
  plot_ingress_egress self (Some model) t0 duration c
  = ({| calls := calls c
                 ++ [ Axvline (t0 + duration / 2) "-"
                              (Some "observed ingress/egress");
                      Axvline (t0 - duration / 2) "-" None ];
        ingress := ingress c;
        egress := egress c |},
     Throw (Std IndexError)).
Proof.
  intros H. apply np_nonzero_nil in H.
  unfold plot_ingress_egress, mbind, action_bind, draw_call, pure.
  rewrite H. cbn. rewrite <- app_assoc. reflexivity.
Qed.

Lemma plot_ingress_egress_flat_model_witness :
  (plot_ingress_egress Ref.demo (Some [0; 0; 0; 0]%float) 0.5 0.25
     {| calls := []; ingress := None; egress := None |}).2
  = Throw (Std IndexError).
Proof.
  rewrite (plot_ingress_egress_flat_model Ref.demo [0; 0; 0; 0]%float
             0.5 0.25 {| calls := []; ingress := None; egress := None |}).
  - reflexivity.
  - repeat constructor.
Defined.

(** When [plot_ingress_egress] returns for a transit model, the predicted
    ingress and egress it stores and draws are the epochs of the first and
    of the last value of the model that is not zero: the model is zero at
    every epoch before the one and after the other. *)
Theorem plot_ingress_egress_bounds (self : observation)
    (model : list float) (t0 duration : float) (c c' : canvas) :
  plot_ingress_egress self (Some model) t0 duration c = (c', Return tt) ->
  exists (i j : nat) (t_in t_out v_in v_out : float),
    (i <= j)%nat
    /\ time self !! i = Some t_in /\ time self !! j = Some t_out
    /\ model !! i = Some v_in /\ (v_in =? 0)%float = false
    /\ model !! j = Some v_out /\ (v_out =? 0)%float = false
    /\ (forall k v, model !! k = Some v -> (k < i \/ j < k)%nat ->
                    (v =? 0)%float = true)
    /\ ingress c' = Some t_in /\ egress c' = Some t_out
    /\ calls c'
       = calls c
         ++ [ Axvline (t0 + duration / 2) "-"
                      (Some "observed ingress/egress");
              Axvline (t0 - duration / 2) "-" None;
              Axvline t_in "--" (Some "predicted ingress/egress");
              Axvline t_out "--" None ].
Proof.
  unfold plot_ingress_egress, mbind, action_bind, draw_call, pure,
    set_ingress, set_egress.
  cbn [calls ingress egress].
  destruct (getitem (np_nonzero model) 0) as [i|e] eqn:Ei;
    [|discriminate]. cbn [std].
  destruct (getitem (time self) i) as [t_in|e] eqn:Eti; [|discriminate].
  cbn [std calls ingress egress].
  destruct (py_index (np_nonzero model) (-1)) as [j|e] eqn:Ej;
    [|discriminate]. cbn [std].
  destruct (getitem (time self) j) as [t_out|e] eqn:Etj; [|discriminate].
  cbn [std calls ingress egress]. intros [= <-].
  apply getitem_Ok in Ei, Eti, Etj. apply py_index_last in Ej.
  pose proof (np_nonzero_sorted model) as Hs.
  assert (Hi : i ∈ np_nonzero model)
    by (apply list_elem_of_lookup; eauto).
  assert (Hj : j ∈ np_nonzero model).
  { rewrite last_lookup in Ej. apply list_elem_of_lookup. eauto. }
  assert (Hfirst : forall k, k ∈ np_nonzero model -> (i <= k)%nat).
  { destruct (np_nonzero model) as [|i' rest]; [discriminate Ei|].
    injection Ei as ->. apply StronglySorted_inv in Hs as [_ Hs].
    intros k Hk. apply elem_of_cons in Hk as [->|Hk]; [lia|].
    rewrite Forall_forall in Hs. specialize (Hs k Hk). lia. }
  assert (Hlast : forall k, k ∈ np_nonzero model -> (k <= j)%nat).
  { apply last_Some in Ej as [pre Ej]. rewrite Ej in Hs |- *.
    intros k Hk. apply elem_of_app in Hk as [Hk|Hk].
    - pose proof (sorted_before_last pre j k Hs Hk). lia.
    - apply list_elem_of_singleton in Hk as ->. lia. }
  apply elem_of_np_nonzero in Hi as (v_in & Hvi & Hzi).
  pose proof Hj as Hj'.
  apply elem_of_np_nonzero in Hj as (v_out & Hvj & Hzj).
  exists i, j, t_in, t_out, v_in, v_out.
  split; [apply Hfirst, Hj'|].
  repeat (split; [assumption|]).
  split.
  - intros k v Hk Hout. destruct (v =? 0)%float eqn:Ev; [reflexivity|].
    assert (Hin : k ∈ np_nonzero model)
      by (apply elem_of_np_nonzero; eauto).
    specialize (Hfirst k Hin). specialize (Hlast k Hin). lia.
  - split; [reflexivity|]. split; [reflexivity|].
    rewrite <- !app_assoc. reflexivity.
Qed.

Lemma plot_ingress_egress_bounds_witness :
  exists c',
    plot_ingress_egress Ref.demo (Some [0; -0.5; -0.5; 0]%float)
      2459000.875 0.25
      {| calls := []; ingress := None; egress := None |}
    = (c', Return tt)
    /\ ingress c' = Some 2459000.75%float
    /\ egress c' = Some 2459001%float.
Proof.
  eexists. split; [reflexivity|].
  destruct (plot_ingress_egress_bounds Ref.demo [0; -0.5; -0.5; 0]%float
              2459000.875 0.25
              {| calls := []; ingress := None; egress := None |}
              _ eq_refl)
    as (i & j & t_in & t_out & v_in & v_out & _ & _ & _ & _ & _ & _ & _ & _
        & H1 & H2 & _).
  split; reflexivity.
Defined.

(** ** The light curve with its models *)

Lemma quiet_ret {A} (a : A) : quiet (mret a : action canvas A).
Proof. intros c H. exact H. Qed.

Lemma quiet_bind {A B} (m : action canvas A) (f : A -> action canvas B) :
  quiet m -> (forall a, quiet (f a)) -> quiet (m ≫= f).
Proof.
  intros Hm Hf c Hc. unfold mbind, action_bind.
  specialize (Hm c Hc). destruct (m c) as [c1 [a|e]]; cbn [fst] in *.
  - apply Hf, Hm.
  - exact Hm.
Qed.

Lemma quiet_draw_call (d : fig_call) : d <> PlotSelf -> quiet (draw_call d).
Proof.
  intros Hd c Hc. cbn. intros H. apply elem_of_app in H as [H|H].
  - exact (Hc H).
  - apply list_elem_of_singleton in H. congruence.
Qed.

Lemma quiet_still {A} (m : action canvas A) :
  (forall c, calls (m c).1 = calls c) -> quiet m.
Proof. intros H c Hc. rewrite H. exact Hc. Qed.

Ltac quiet_steps :=
  repeat first
    [ apply quiet_ret
    | apply quiet_draw_call; discriminate
    | apply quiet_still; intros ?; reflexivity
    | apply quiet_bind; [|intros ?] ].

Lemma quiet_ingress_egress (self : observation)
    (transit_model : option (list float)) (t0 duration : float) :
  quiet (plot_ingress_egress self transit_model t0 duration).
Proof.
  unfold plot_ingress_egress. destruct transit_model; quiet_steps.
Qed.

Lemma quiet_meridian_flip (t : option float) : quiet (plot_meridian_flip t).
Proof. unfold plot_meridian_flip. destruct t; quiet_steps. Qed.

Lemma quiet_style (name : string) : quiet (style name).
Proof.
  unfold style.
  destruct (String.eqb name "paper"); [quiet_steps|].
  destruct (String.eqb name "bokeh"); quiet_steps.
Qed.

(** [plot_lc_model] never falls back on the plain light curve: the test
    that chooses between the two drawings holds for every pair of models.
    When the trend model or the transit model is missing, the figure is
    opened and the method fails with [TypeError]. *)
Theorem plot_lc_model_never_plain (self : observation) (m : models)
    (t0 duration : float) (c : canvas) :
  (PlotSelf ∉ calls c ->
   PlotSelf ∉ calls (plot_lc_model self m t0 duration c).1)
  /\ (trend_model m = None \/ transit_model m = None ->
      (plot_lc_model self m t0 duration c).2 = Throw TypeError
      /\ calls (plot_lc_model self m t0 duration c).1
         = calls c ++ [NewFigure 6 (if bool_decide (is_Some (trend_model m))
                                    then 7 else 4)]).
Proof.
  split.
  - revert c. change (quiet (plot_lc_model self m t0 duration)).
    unfold plot_lc_model, is_not_None, array_action.
    apply quiet_bind; [quiet_steps|intros _].
    apply quiet_bind; [quiet_steps|intros difference].
    apply quiet_bind.
    + quiet_steps; apply quiet_ingress_egress.
    + intros _. apply quiet_bind; [apply quiet_meridian_flip|intros _].
      quiet_steps. apply quiet_style.
  - intros H. unfold plot_lc_model, mbind, action_bind, draw_call,
      array_action, array_op.
    destruct H as [-> | ->]; [|destruct (trend_model m)];
      split; reflexivity.
Qed.

(** ** The radial profile and the cutout of [plot_psf] *)

Lemma pick_argwhere_from {A} (p : A -> bool) (pre l : list A) :
  pick (pre ++ l)
       (map fst (filter (fun q : nat * bool => q.2 = true)
                        (zip (seq (length pre) (length l)) (map p l))))
  = filter (fun x => p x = true) l.
Proof.
  revert pre. induction l as [|x l IH]; intros pre; [reflexivity|].
  cbn [length seq map zip zip_with]. rewrite !filter_cons. cbn [snd].
  specialize (IH (pre ++ [x])).
  rewrite <- app_assoc, length_app, Nat.add_comm in IH. cbn [app] in IH.
  cbn [length Nat.add] in IH.
  destruct (decide (p x = true)) as [Hp|Hp].
  - cbn [map fst]. unfold pick in *. cbn [omap list_omap].
    rewrite list_lookup_middle by reflexivity. f_equal. exact IH.
  - exact IH.
Qed.

Lemma pick_argwhere {A} (p : A -> bool) (l : list A) :
  pick l (np_argwhere (map p l)) = filter (fun x => p x = true) l.
Proof.
  unfold np_argwhere. rewrite length_map. apply (pick_argwhere_from p [] l).
Qed.

Lemma np_argwhere_in_range (mask : list bool) :
  Forall (fun i => i < length mask)%nat (np_argwhere mask).
Proof.
  unfold np_argwhere. apply Forall_forall. intros i Hi.
  apply list_elem_of_fmap in Hi as ([j b] & -> & Hi).
  apply list_elem_of_filter in Hi as [_ Hi].
  apply list_elem_of_lookup in Hi as [k Hk].
  apply lookup_zip_with_Some in Hk as (j' & b' & [= <- <-] & Hj & _).
  apply lookup_seq in Hj as [-> Hlt]. cbn. lia.
Qed.

Lemma take_pick {A} (l : list A) (idxs : list nat) :
  Forall (fun i => i < length l)%nat idxs ->
  take l idxs = Ok (pick l idxs).
Proof.
  intros H. pose proof (take_map_pick id l idxs H) as E.
  rewrite !map_id in E. exact E.
Qed.

(** The radial profile is always obtained. It lists the pixels of the
    square around the star, each with its own distance, in ascending order
    of the distance. *)
Theorem radial_profile_sorted (stack : list (list float)) (x y n : float) :
  exists profile : list pixel,
    radial_profile stack x y n
    = Ok (map (radius x y) profile, map px_value profile)
    /\ Permutation profile
         (filter (fun p => cutout_mask x y n p = true) (flatten stack))
    /\ Sorted (fun p q => np_le (radius x y p) (radius x y q) = true)
              profile.
Proof.
  set (flat := flatten stack).
  set (kept := filter (fun p => cutout_mask x y n p = true) flat).
  set (inside := np_argwhere (map (cutout_mask x y n) flat)).
  assert (Hin : Forall (fun i => i < length flat)%nat inside).
  { subst inside. pose proof (np_argwhere_in_range
                                (map (cutout_mask x y n) flat)) as H.
    rewrite length_map in H. exact H. }
  assert (Hk : pick flat inside = kept) by apply pick_argwhere.
  set (idxs := np_argsort (map (radius x y) kept)).
  assert (Hidx : Forall (fun i => i < length kept)%nat idxs).
  { subst idxs. pose proof (np_argsort_in_range (map (radius x y) kept)) as H.
    rewrite length_map in H. exact H. }
  exists (pick kept idxs). split; [|apply pick_argsort].
  unfold radial_profile. fold flat. fold inside.
  rewrite (take_map_pick (radius x y) flat inside Hin), Hk. cbn.
  fold idxs. rewrite (take_map_pick (radius x y) kept idxs Hidx). cbn.
  rewrite (take_map_pick px_value flat inside Hin), Hk. cbn.
  rewrite (take_map_pick px_value kept idxs Hidx). reflexivity.
Qed.

Lemma py_slice_wrapped {A} (l : list A) (start stop : Z) :
  (start < 0)%Z -> (0 <= stop)%Z ->
  (stop - start <= Z.of_nat (length l))%Z ->
  py_slice l start stop = [].
Proof.
  intros H1 H2 H3. unfold py_slice, clamp.
  destruct (Z.ltb_spec start 0); [|lia].
  destruct (Z.ltb_spec stop 0); [lia|].
  replace (_ - _)%nat with 0%nat by lia. reflexivity.
Qed.

(** When the lower bound [int(y - n)] of the rows of the cutout is
    negative, which it is once the star is a whole pixel or more nearer to
    the first row than the half-width [n] ([int] rounds towards zero, so
    that a bound between -1 and 0 is 0), and the image is at least as high
    as the cutout, the cutout has no rows: the negative lower bound of the
    slice counts from the last row. The same holds for the lower bound
    [int(x - n)] of the columns and the columns of every row. *)
Theorem cutout_near_low_edge (stack : list (list float)) (x y n : float)
    (r0 r1 c0 c1 : Z) :
  py_int (y - n) = Ok r0 ->
  py_int (y + n) = Ok r1 ->
  py_int (x - n) = Ok c0 ->
  py_int (x + n) = Ok c1 ->
  ((r0 < 0)%Z -> (0 <= r1)%Z ->
   (r1 - r0 <= Z.of_nat (length stack))%Z ->
   cutout stack x y n = Ok [])
  /\ ((c0 < 0)%Z -> (0 <= c1)%Z ->
      Forall (fun row => (c1 - c0 <= Z.of_nat (length row))%Z) stack ->
      exists im, cutout stack x y n = Ok im /\ Forall (fun row => row = []) im).
Proof.
  intros E0 E1 E2 E3. unfold cutout. rewrite E0, E1, E2, E3. cbn.
  split.
  - intros H1 H2 H3. rewrite (py_slice_wrapped stack r0 r1 H1 H2 H3).
    reflexivity.
  - intros H1 H2 H3. eexists. split; [reflexivity|].
    apply Forall_forall. intros row Hrow.
    apply list_elem_of_fmap in Hrow as (row' & -> & Hrow').
    apply py_slice_wrapped; [exact H1|exact H2|].
    rewrite Forall_forall in H3. apply H3.
    unfold py_slice in Hrow'.
    apply elem_of_take in Hrow' as (i & Hi & _).
    rewrite lookup_drop in Hi.
    apply list_elem_of_lookup. eexists. exact Hi.
Qed.

Lemma cutout_near_low_edge_witness :
  cutout DemoImage.stack8 3 1 0x1.4p+1 = Ok [].
Proof.
  refine (proj1 (cutout_near_low_edge DemoImage.stack8 3 1 0x1.4p+1
                   (-1) 3 0 5 eq_refl eq_refl eq_refl eq_refl) _ _ _);
    [lia|lia|cbn; lia].
Defined.

(** ** [save_report] *)

Lemma fails_bind_l {S A B} (m : action S A) (f : A -> action S B) :
  fails m -> fails (m ≫= f).
Proof.
  intros Hm s. unfold mbind, action_bind. destruct (Hm s) as [e He].
  destruct (m s) as [s' [a|e']]; cbn [snd] in *; [discriminate He|eauto].
Qed.

Lemma fails_bind_r {S A B} (m : action S A) (f : A -> action S B) :
  (forall a, fails (f a)) -> fails (m ≫= f).
Proof.
  intros Hf s. unfold mbind, action_bind.
  destruct (m s) as [s' [a|e']]; [apply Hf|eauto].
Qed.

Lemma TypeError_bind_step {S A} (m : prog S unit) (f : unit -> action S A) :
  succeeds m -> (forall a, fails_with_TypeError (f a)) ->
  fails_with_TypeError (SaveReport.step m ≫= f).
Proof.
  intros Hm Hf s. unfold mbind, action_bind, SaveReport.step.
  destruct (Hm s) as [s' ->]. cbn [std]. apply Hf.
Qed.

Lemma TypeError_bind_when {S A} (cond : bool) (m : prog S unit)
    (f : unit -> action S A) :
  succeeds m -> (forall a, fails_with_TypeError (f a)) ->
  fails_with_TypeError (SaveReport.when cond (SaveReport.step m) ≫= f).
Proof.
  intros Hm Hf. destruct cond; cbn [SaveReport.when].
  - apply TypeError_bind_step; assumption.
  - intros s. apply Hf.
Qed.

Lemma TypeError_bind_read {S A B} (g : S -> A) (f : A -> action S B) :
  (forall a, fails_with_TypeError (f a)) ->
  fails_with_TypeError ((fun s => (s, Return (g s))) ≫= f).
Proof. intros Hf s. apply Hf. Qed.

(** [save_report] never returns: its call of [plot_raw_diff] passes the
    keyword [std], which the method does not take, so that whatever comes
    before it, lines 429 to 533, where the report is written, are never
    reached. When the stack image and the comparison stars are there and
    no call to the libraries raises, the exception is that [TypeError]. *)
Theorem save_report_never_returns {W} (sys : SaveReport.system W)
    (self : observation) (f : field) (folder denominator : string)
    (destination : option string) (raw_diff : action W unit)
    (rest : string -> string -> action W unit) (w : W) :
  (exists e,
     (SaveReport.save_report sys self f folder denominator destination
        raw_diff rest w).2 = Throw e)
  /\ ((forall p, succeeds (SaveReport.shutil_rmtree sys p)) ->
      (forall p, succeeds (SaveReport.os_mkdir sys p)) ->
      (forall c, succeeds (SaveReport.fancy_show_stars sys c)) ->
      (forall st, succeeds (SaveReport.plt sys st)) ->
      has_stack f = true ->
      is_Some (comps self !! aperture self) ->
      (SaveReport.save_report sys self f folder denominator destination
         raw_diff rest w).2 = Throw TypeError).
Proof.
  split.
  - revert w.
    change (fails (SaveReport.save_report sys self f folder denominator
                     destination raw_diff rest)).
    unfold SaveReport.save_report.
    do 12 (apply fails_bind_r; intros ?).
    apply fails_bind_l. intros s. exists TypeError. reflexivity.
  - intros Hrm Hmk Hfs Hplt Hs [ref Hc]. revert w.
    change (fails_with_TypeError
              (SaveReport.save_report sys self f folder denominator
                 destination raw_diff rest)).
    unfold SaveReport.save_report.
    apply TypeError_bind_read. intros file_name.
    apply TypeError_bind_read. intros temp_here.
    apply TypeError_bind_when; [apply Hrm|intros _].
    apply TypeError_bind_read. intros temp_there.
    apply TypeError_bind_when; [apply Hrm|intros _].
    apply TypeError_bind_step; [apply Hmk|intros _].
    assert (E : show_stars self f 10 false (Some "reference") false None
                = Ok (Some {| sc_stars := stars f;
                              sc_ref_stars := Some ref;
                              sc_target := target f; sc_flip := false;
                              sc_size := 10; sc_view := Some "reference";
                              sc_pixel_scale := pixel_scale f;
                              sc_zoom := false |})).
    { unfold show_stars, check_stack, getitem. rewrite Hs, Hc. cbn.
      destruct (target f =? -1)%Z; reflexivity. }
    rewrite E.
    match goal with
    | |- fails_with_TypeError (pure (Ok ?c) ≫= ?k) =>
        change (fails_with_TypeError (k c))
    end.
    cbv beta iota.
    apply TypeError_bind_step; [apply Hfs|intros _].
    do 4 (apply TypeError_bind_step; [apply Hplt|intros _]).
    intros s. reflexivity.
Qed.

(** ** More on the precision estimator *)

Lemma div_nan_l (x y : float) :
  Prim2SF x = S754_nan -> Prim2SF (x / y) = S754_nan.
Proof. intros H. rewrite div_spec, H. reflexivity. Qed.

Lemma div_nan_r (x y : float) :
  Prim2SF y = S754_nan -> Prim2SF (x / y) = S754_nan.
Proof.
  intros H. rewrite div_spec, H. destruct (Prim2SF x); reflexivity.
Qed.

Lemma div_positive_by_zero (x : float) :
  (0 <? x)%float = true -> Prim2SF (x / 0) = S754_infinity false.
Proof.
  rewrite ltb_spec, div_spec. unfold SFltb.
  change (Prim2SF 0) with (S754_zero false).
  destruct (Prim2SF x) as [s|s| |s m e]; cbn; try discriminate;
    destruct s; try discriminate; reflexivity.
Qed.

(** The number of bins cannot be computed when the mean exposure time is
    zero or is not a number: [plot_precision] then fails with
    [OverflowError] for a positive bin width, and with [ValueError]. *)
Theorem plot_precision_bad_exposure (np : numpy) (self : observation)
    (bins : float) (ap : option nat) (a : nat) :
  pick_aperture self ap = Ok a ->
  (np_mean np (exptime self) = 0%float -> (0 <? bins)%float = true ->
   plot_precision np self bins ap = Raise OverflowError)
  /\ (is_nan (np_mean np (exptime self)) = true ->
      plot_precision np self bins ap = Raise ValueError).
Proof.
  intros Ha. unfold plot_precision, bin_count, py_int. rewrite Ha.
  cbn [mbind result_bind]. split.
  - intros -> Hb. change (0 / 86400)%float with 0%float.
    rewrite (div_positive_by_zero bins Hb). reflexivity.
  - intros Hn. apply is_nan_true in Hn.
    rewrite (div_nan_r bins _ (div_nan_l _ 86400 Hn)). reflexivity.
Qed.

(** A figure is returned only when at least one star has a positive
    estimate of its inverse signal-to-noise ratio: none of the four curves
    of a returned figure is empty. *)
Theorem plot_precision_draws_a_star (np : numpy) (self : observation)
    (bins : float) (ap : option nat) (a : nat) (fl er : list (list float))
    (fig : list series) :
  pick_aperture self ap = Ok a ->
  as_array self a = Ok (fl, er) ->
  length fl = length er ->
  plot_precision np self bins ap = Ok fig ->
  (exists n_bin rms s,
     bin_count np self bins = Ok n_bin
     /\ error_estimates np self n_bin fl = Ok rms
     /\ s ∈ stars_of fl er rms /\ positive_snr np s)
  /\ length fig = 4%nat
  /\ Forall (fun c => s_x c <> [] /\ length (s_y c) = length (s_x c)) fig.
Proof.
  intros Ha Has Hlen H.
  destruct (plot_precision_Ok _ _ _ _ _ _ Ha H) as (n & Hn & _ & Hc).
  destruct (precision_curves_first _ _ _ _ _ Hc)
    as (first & rest & Ef & Hx & _).
  destruct (precision_curves_stars _ _ _ _ _ _ _ Has Hlen Hc)
    as (rms & area & Hr & _ & _ & Hfig).
  cbv zeta in Hfig.
  set (kept := filter (positive_snr np) (stars_of fl er rms)) in *.
  destruct (pick_argsort (fun s => np_mean np (st_flux s)) kept) as [Hp _].
  cbv zeta in Hp.
  set (sorted := pick kept _) in *.
  assert (Hk : kept <> []).
  { intros E. apply Hx. rewrite Hfig in Ef. injection Ef as <- _.
    rewrite E. reflexivity. }
  assert (Hs : sorted <> []).
  { intros E. rewrite E in Hp. apply Permutation_nil in Hp. auto. }
  split.
  - destruct kept as [|s kept'] eqn:Ek; [contradiction|].
    assert (Hin : s ∈ filter (positive_snr np) (stars_of fl er rms))
      by (fold kept; rewrite Ek; apply list_elem_of_here).
    apply list_elem_of_filter in Hin as [Hpos Hin].
    exists n, rms, s. auto.
  - rewrite Hfig. split; [reflexivity|].
    unfold curve. repeat constructor; cbn [s_x s_y];
      rewrite ?length_map; try reflexivity.
    all: intros E; apply (f_equal length) in E; rewrite length_map in E;
      first [destruct kept; [contradiction|discriminate E]
            | destruct sorted; [contradiction|discriminate E]].
Qed.

Lemma plot_precision_draws_a_star_witness :
  exists fig,
    plot_precision Ref.numpy Ref.demo 0.5 None = Ok fig
    /\ length fig = 4%nat
    /\ Forall (fun c => s_x c <> [] /\ length (s_y c) = length (s_x c)) fig.
Proof.
  destruct (plot_precision Ref.numpy Ref.demo 0.5 None) as [fig|e] eqn:E;
    [|vm_compute in E; discriminate E].
  exists fig. split; [reflexivity|].
  exact (proj2 (plot_precision_draws_a_star Ref.numpy Ref.demo 0.5 None
                  0%nat _ _ fig eq_refl eq_refl eq_refl E)).
Defined.

Lemma plot_precision_bad_exposure_witness :
  plot_precision Ref.numpy
    (DemoExposure.with_exptime Ref.demo [0; 0; 0; 0]%float) 0.5 None
  = Raise OverflowError
  /\ plot_precision Ref.numpy (DemoExposure.with_exptime Ref.demo []) 0.5 None
     = Raise ValueError.
Proof.
  split.
  - apply (proj1 (plot_precision_bad_exposure Ref.numpy
                    (DemoExposure.with_exptime Ref.demo [0; 0; 0; 0]%float)
                    0.5 None 0%nat eq_refl)); reflexivity.
  - apply (proj2 (plot_precision_bad_exposure Ref.numpy
                    (DemoExposure.with_exptime Ref.demo []) 0.5 None 0%nat
                    eq_refl)); reflexivity.
Defined.



(** Nothing is sent and nothing is printed when the upload stops in its
    first lines or finds no figures folder: without an epoch it fails with
    [IndexError]; with epochs whose span is not finite it fails with the
    exception of [round]; with a finite span and no user name it fails with
    [TypeError]; and with a user name and no figures folder it returns. *)
Theorem upload_sends_nothing (rt : Exofop.runtime) (self : Exofop.uploader)
    (log : list Exofop.event) :
  (Exofop.obs_time self = [] ->
   Exofop.upload rt self log = (log, Raise IndexError))
  /\ (forall x, span_minutes self = Some x ->
        match py_round x with
        | Raise e => Exofop.upload rt self log = (log, Raise e)
        | Ok _ =>
            match Exofop.username self with
            | None => Exofop.upload rt self log = (log, Raise TypeError)
            | Some _ =>
                Exofop.figures_is_dir rt = false ->
                Exofop.upload rt self log = (log, Ok tt)
            end
        end).
Proof.
  destruct (upload_idle rt self log) as [Hr Ho]. split.
  - intros E. apply Hr. unfold preamble. rewrite E. reflexivity.
  - intros x Hx. pose proof (preamble_span self x Hx) as Ep.
    destruct (py_round x) as [n|e]; [|apply Hr; exact Ep].
    unfold Exofop.user_name in Ep.
    destruct (Exofop.username self) as [u|]; [|apply Hr; exact Ep].
    intros Hd. exact (Ho _ Ep Hd).
Qed.

Lemma upload_sends_nothing_witness :
  Exofop.upload Ref.service
    (Services.uploader_of [] (Some "observer")) []
  = ([], Raise IndexError)
  /\ Exofop.upload Ref.service
       (Services.uploader_of [nan; 2459000.75]%float (Some "observer")) []
     = ([], Raise ValueError)
  /\ Exofop.upload Ref.service
       (Services.uploader_of [2459000.5; infinity]%float (Some "observer")) []
     = ([], Raise OverflowError)
  /\ Exofop.upload Ref.service
       (Services.uploader_of [2459000.5; 2459001.25]%float None) []
     = ([], Raise TypeError)
  /\ Exofop.upload DemoExposure.no_folder Ref.uploader [] = ([], Ok tt).
Proof.
  split; [|split; [|split; [|split]]].
  - apply (proj1 (upload_sends_nothing Ref.service
                    (Services.uploader_of [] (Some "observer")) [])).
    reflexivity.
  - exact (proj2 (upload_sends_nothing Ref.service
                    (Services.uploader_of [nan; 2459000.75]%float
                       (Some "observer")) [])
             nan eq_refl).
  - exact (proj2 (upload_sends_nothing Ref.service
                    (Services.uploader_of [2459000.5; infinity]%float
                       (Some "observer")) [])
             infinity eq_refl).
  - exact (proj2 (upload_sends_nothing Ref.service
                    (Services.uploader_of [2459000.5; 2459001.25]%float
                       None) [])
             1080%float eq_refl).
  - exact (proj2 (upload_sends_nothing DemoExposure.no_folder
                    Ref.uploader [])
             1080%float eq_refl eq_refl).
Defined.

(** ** [make] on a fresh destination *)

Lemma prog_bind_ret {S A B} (m : prog S A) (f : A -> prog S B) (w w1 : S)
    (a : A) :
  m w = (w1, Ok a) -> (m ≫= f) w = f a w1.
Proof. intros E. unfold mbind, prog_bind. rewrite E. reflexivity. Qed.

Lemma last_char_app (s t : string) :
  t <> "" -> last_char (s +:+ t) = last_char t.
Proof.
  intros Ht. induction s as [|c s IH]; [reflexivity|].
  change (String c s +:+ t) with (String c (s +:+ t)).
  cbn [last_char]. destruct (s +:+ t) eqn:E; [|exact IH].
  destruct s; [|discriminate E]. cbn in E. contradiction.
Qed.

Lemma is_dir_lookup (w : world) (p : path) :
  p <> [] -> is_dir w p = true <-> w_fs w !! p = Some Dir.
Proof.
  intros Hp. unfold is_dir. destruct p; [contradiction|].
  match goal with
  | |- context [match ?x with _ => _ end] => destruct x as [[|c]|] eqn:E
  end.
  - split; reflexivity.
  - split; intros H; discriminate H.
  - split; intros H; discriminate H.
Qed.

Lemma os_mkdir_succeeds (p : path) (w : world) :
  w_fs w !! p = None -> is_dir w (removelast p) = true ->
  p <> [] ->
  os_mkdir p w
  = ({| w_fs := <[p := Dir]> (w_fs w); w_log := w_log w ++ [Mkdir p] |},
     Ok tt).
Proof.
  intros Hn Hd Hp. unfold os_mkdir. destruct p; [contradiction|].
  rewrite Hn, Hd. reflexivity.
Qed.

Lemma write_file_settled (dest p : path) (c : content) (e : effect)
    (w : world) :
  settled dest w ->
  (exists n, n <> "figures" /\ p = dest ++ [n])
  \/ (exists n, p = dest ++ ["figures"; n]) ->
  write_file p c e w
  = ({| w_fs := <[p := File c]> (w_fs w); w_log := w_log w ++ [e] |}, Ok tt)
  /\ settled dest
       {| w_fs := <[p := File c]> (w_fs w); w_log := w_log w ++ [e] |}.
Proof.
  intros (Hd & Hf & Ho) Hp.
  assert (Hpre : dest `prefix_of` p).
  { destruct Hp as [(n & _ & ->)|(n & ->)]; eexists; reflexivity. }
  assert (Hne : p <> dest /\ p <> dest ++ ["figures"]).
  { destruct Hp as [(n & Hn & ->)|(n & ->)]; split; intros E.
    - apply (f_equal length) in E. rewrite length_app in E. cbn in E. lia.
    - apply app_inv_head in E. congruence.
    - apply (f_equal length) in E. rewrite length_app in E. cbn in E. lia.
    - apply app_inv_head in E. discriminate E. }
  assert (Hnil : p <> []).
  { destruct Hp as [(n & _ & ->)|(n & ->)]; intros E;
      apply (f_equal length) in E; rewrite length_app in E; cbn in E; lia. }
  assert (Hpar : is_dir w (removelast p) = true).
  { destruct Hp as [(n & _ & ->)|(n & ->)].
    - rewrite removelast_last. destruct dest; [reflexivity|].
      apply is_dir_lookup; [discriminate|exact Hd].
    - change (dest ++ ["figures"; n]) with (dest ++ ["figures"] ++ [n]).
      rewrite app_assoc, removelast_last.
      apply is_dir_lookup; [|exact Hf].
      intros E. apply (f_equal length) in E. rewrite length_app in E.
      cbn in E. lia. }
  assert (Hnd : is_dir w p = false).
  { destruct (is_dir w p) eqn:E; [|reflexivity].
    apply is_dir_lookup in E; [|exact Hnil].
    destruct (Ho p Hpre E); tauto. }
  split.
  - unfold write_file. rewrite Hnd, Hpar. reflexivity.
  - cbn [settled w_fs]. unfold settled. cbn [w_fs].
    destruct Hne as [N1 N2].
    rewrite !lookup_insert_ne
      by (intros E; first [exact (N1 E) | exact (N2 E)]).
    split; [exact Hd|]. split; [exact Hf|].
    intros q Hq Hl. destruct (decide (q = p)) as [->|Hqp].
    + rewrite lookup_insert_eq in Hl. discriminate Hl.
    + rewrite lookup_insert_ne in Hl
        by (intros E; apply Hqp; symmetry; exact E).
      exact (Ho q Hq Hl).
Qed.

Lemma plot_and_save_settled (bk : backend) (k : plot_kind) (dest : path)
    (name png : string) (w : world) :
  settled dest w -> draw bk k = Ok png ->
  let w' := {| w_fs := <[dest ++ ["figures"; name] := File (Bytes png)]>
                         (w_fs w);
               w_log := w_log w
                        ++ [Savefig (dest ++ ["figures"; name])] |} in
  plot_and_save bk k (dest ++ ["figures"]) name w = (w', Ok tt)
  /\ settled dest w'.
Proof.
  intros Hs Hd w'. unfold plot_and_save, lift.
  rewrite (prog_bind_ret _ _ w w png) by (rewrite Hd; reflexivity).
  rewrite <- app_assoc. cbn [app].
  apply write_file_settled; [exact Hs|]. right. eauto.
Qed.

Lemma works_ret (dest : path) : works dest (mret tt).
Proof. intros w Hs. exists w. auto. Qed.

Lemma works_bind (dest : path) (m : prog world unit)
    (f : unit -> prog world unit) :
  works dest m -> works dest (f tt) -> works dest (m ≫= f).
Proof.
  intros Hm Hf w Hs.
  destruct (Hm w Hs) as (w1 & E1 & S1 & O1).
  destruct (Hf w1 S1) as (w2 & E2 & S2 & O2).
  exists w2. rewrite (prog_bind_ret _ _ w w1 tt E1).
  split; [exact E2|]. split; [exact S2|].
  intros q Hq. rewrite (O2 q Hq). apply O1, Hq.
Qed.

Lemma works_write (dest p : path) (c : content) (e : effect) :
  (exists n, n <> "figures" /\ p = dest ++ [n])
  \/ (exists n, p = dest ++ ["figures"; n]) ->
  works dest (write_file p c e).
Proof.
  intros Hp w Hs.
  destruct (write_file_settled dest p c e w Hs Hp) as [E S'].
  eexists. split; [exact E|]. split; [exact S'|].
  intros q Hq. cbn [w_fs]. apply lookup_insert_ne. intros ->. apply Hq.
  destruct Hp as [(n & _ & ->)|(n & ->)]; eexists; reflexivity.
Qed.

Lemma works_plot_and_save (bk : backend) (k : plot_kind) (dest : path)
    (name : string) :
  (exists png, draw bk k = Ok png) ->
  works dest (plot_and_save bk k (dest ++ ["figures"]) name).
Proof.
  intros [png Hd] w Hs. unfold plot_and_save, lift.
  rewrite (prog_bind_ret _ _ w w png) by (rewrite Hd; reflexivity).
  rewrite <- app_assoc. cbn [app].
  apply works_write; [|exact Hs]. right. eauto.
Qed.

Lemma works_make_figures (bk : backend) (dest : path)
    (t0 duration : option float) :
  (forall k, exists png, draw bk k = Ok png) ->
  works dest (make_figures bk (dest ++ ["figures"]) t0 duration).
Proof.
  intros Hd. unfold make_figures.
  repeat (apply works_bind; [apply works_plot_and_save, Hd|]).
  destruct (truthy t0 && bool_decide (is_Some duration));
    [|apply works_ret].
  destruct t0, duration;
    first [apply works_plot_and_save, Hd | apply works_ret].
Qed.

Lemma exists_in_absent (w : world) (p : path) :
  p <> [] -> w_fs w !! p = None -> exists_in w p = false.
Proof.
  intros Hp Hl. unfold exists_in. destruct p; [contradiction|].
  rewrite Hl. reflexivity.
Qed.

Lemma copyfile_file (src dst : path) (c : content) (w : world) :
  w_fs w !! src = Some (File c) ->
  copyfile src dst w = write_file dst c (Copyfile src dst) w.
Proof. intros L. unfold copyfile. rewrite L. reflexivity. Qed.

Lemma make_report_folder_fresh (dest : path) (w : world) :
  dest <> [] ->
  (forall p, dest `prefix_of` p -> w_fs w !! p = None) ->
  is_dir w (removelast dest) = true ->
  exists w',
    make_report_folder dest w
    = (w', Ok {| destination := dest;
                 report_name := List.last dest "";
                 figure_destination := dest ++ ["figures"];
                 measurement_destination :=
                   dest ++ [List.last dest "" +:+ ".txt"] |})
    /\ settled dest w'
    /\ forall q, ~ dest `prefix_of` q -> w_fs w' !! q = w_fs w !! q.
Proof.
  intros Hne Hfresh Hpar.
  assert (Hd : w_fs w !! dest = None) by (apply Hfresh; reflexivity).
  assert (Hf : w_fs w !! (dest ++ ["figures"]) = None)
    by (apply Hfresh; eexists; reflexivity).
  assert (Hdf : dest <> dest ++ ["figures"]).
  { intros E. apply (f_equal length) in E. rewrite length_app in E.
    cbn in E. lia. }
  set (w1 := {| w_fs := <[dest := Dir]> (w_fs w);
                w_log := w_log w ++ [Mkdir dest] |}).
  set (w2 := {| w_fs := <[dest ++ ["figures"] := Dir]> (w_fs w1);
                w_log := w_log w1 ++ [Mkdir (dest ++ ["figures"])] |}).
  exists w2. split; [|split].
  - unfold make_report_folder.
    assert (E1 : path_exists dest w = (w, Ok false)).
    { rewrite path_exists_eq, (exists_in_absent w dest Hne Hd).
      reflexivity. }
    rewrite (prog_bind_ret _ _ w w false E1). cbn [negb].
    rewrite (prog_bind_ret _ _ w w1 tt)
      by (apply os_mkdir_succeeds; assumption).
    assert (E2 : path_exists (dest ++ ["figures"]) w1 = (w1, Ok false)).
    { rewrite path_exists_eq, exists_in_absent; [reflexivity| |].
      - intros E. apply app_eq_nil in E as [_ E]. discriminate E.
      - subst w1. cbn [w_fs]. rewrite lookup_insert_ne by exact Hdf.
        exact Hf. }
    rewrite (prog_bind_ret _ _ w1 w1 false E2). cbn [negb].
    rewrite (prog_bind_ret _ _ w1 w2 tt); [reflexivity|].
    apply os_mkdir_succeeds.
    + subst w1. cbn [w_fs]. rewrite lookup_insert_ne by exact Hdf. exact Hf.
    + rewrite removelast_last. apply is_dir_lookup; [exact Hne|].
      subst w1. cbn [w_fs]. apply lookup_insert_eq.
    + intros E. apply app_eq_nil in E as [_ E]. discriminate E.
  - subst w2 w1. unfold settled. cbn [w_fs]. split; [|split].
    + rewrite lookup_insert_ne by (intros E; apply Hdf; symmetry; exact E).
      apply lookup_insert_eq.
    + apply lookup_insert_eq.
    + intros p Hp Hl.
      destruct (decide (p = dest ++ ["figures"])) as [->|N1]; [auto|].
      rewrite lookup_insert_ne in Hl
        by (intros E; apply N1; symmetry; exact E).
      destruct (decide (p = dest)) as [->|N2]; [auto|].
      rewrite lookup_insert_ne in Hl
        by (intros E; apply N2; symmetry; exact E).
      rewrite (Hfresh p Hp) in Hl. discriminate Hl.
  - intros q Hq. subst w2 w1. cbn [w_fs].
    rewrite !lookup_insert_ne; [reflexivity| |].
    + intros ->. apply Hq. reflexivity.
    + intros <-. apply Hq. eexists. reflexivity.
Qed.

(** On a destination that does not exist yet, under a folder that does,
    [make] returns whenever every figure can be drawn, the measurement
    table can be built and the style file is among the templates; the
    destination then holds the table, a copy of the style file and the
    rendered document. *)
Theorem make_on_fresh_destination (bk : backend) (self : report)
    (dest : path) (t0 duration : option float) (w : world)
    (table : csv_file) (cls : content) :
  (forall p, dest `prefix_of` p -> w_fs w !! p = None) ->
  is_dir w (removelast dest) = true ->
  (forall k, exists png, draw bk k = Ok png) ->
  csv_report (obs self) " " = Ok table ->
  w_fs w !! (template_folder bk ++ ["prose-report.cls"])
  = Some (File cls) ->
  exists w',
    make bk self dest t0 duration w = (w', Ok tt)
    /\ w_fs w' !! (dest ++ [List.last dest "" +:+ ".txt"])
       = Some (File (Table table))
    /\ w_fs w' !! (dest ++ ["prose-report.cls"]) = Some (File cls)
    /\ w_fs w' !! (dest ++ [List.last dest "" +:+ ".tex"])
       = Some (File (Bytes (template_render bk (r_obstable self)
                              (target_name (obs self))
                              (r_description self)))).
Proof.
  intros Hfresh Hpar Hdraw Hcsv Hsrc.
  set (src := template_folder bk ++ ["prose-report.cls"]) in *.
  set (name := List.last dest "").
  assert (Hout : ~ dest `prefix_of` src).
  { intros Hp. rewrite (Hfresh src Hp) in Hsrc. discriminate Hsrc. }
  assert (Hne : dest <> []).
  { intros ->. apply Hout. apply prefix_nil. }
  destruct (make_report_folder_fresh dest w Hne Hfresh Hpar)
    as (w1 & E1 & S1 & O1).
  destruct (works_make_figures bk dest t0 duration Hdraw w1 S1)
    as (w2 & E2 & S2 & O2).
  assert (Ntxt : name +:+ ".txt" <> "figures").
  { intros E. apply (f_equal last_char) in E.
    rewrite last_char_app in E by discriminate. discriminate E. }
  assert (Ntex : name +:+ ".tex" <> "figures").
  { intros E. apply (f_equal last_char) in E.
    rewrite last_char_app in E by discriminate. discriminate E. }
  destruct (write_file_settled dest (dest ++ [name +:+ ".txt"])
              (Table table) (ToCsv (dest ++ [name +:+ ".txt"])) w2 S2)
    as [E3 S3]; [left; eauto|].
  set (w3 := {| w_fs := <[dest ++ [name +:+ ".txt"] := File (Table table)]>
                          (w_fs w2);
                w_log := w_log w2 ++ [ToCsv (dest ++ [name +:+ ".txt"])] |})
    in *.
  destruct (write_file_settled dest (dest ++ ["prose-report.cls"]) cls
              (Copyfile src (dest ++ ["prose-report.cls"])) w3 S3)
    as [E4 S4]; [left; exists "prose-report.cls"; split;
                 [discriminate|reflexivity]|].
  set (w4 := {| w_fs := <[dest ++ ["prose-report.cls"] := File cls]>
                          (w_fs w3);
                w_log := w_log w3
                         ++ [Copyfile src (dest ++ ["prose-report.cls"])] |})
    in *.
  set (doc := Bytes (template_render bk (r_obstable self)
                       (target_name (obs self)) (r_description self))).
  destruct (write_file_settled dest (dest ++ [name +:+ ".tex"]) doc
              (WriteText (dest ++ [name +:+ ".tex"])) w4 S4)
    as [E5 S5]; [left; eauto|].
  eexists. split.
  - unfold make.
    rewrite (prog_bind_ret _ _ w w1 _ E1).
    cbn [figure_destination measurement_destination destination
         report_name].
    rewrite (prog_bind_ret _ _ w1 w2 tt E2).
    rewrite (prog_bind_ret _ _ w2 w3 tt).
    2: { unfold to_csv_report, lift.
         rewrite (prog_bind_ret _ _ w2 w2 table)
           by (rewrite Hcsv; reflexivity).
         exact E3. }
    rewrite (prog_bind_ret _ _ w3 w4 tt).
    2: { assert (L : w_fs w3 !! src = Some (File cls)).
         { subst w3. cbn [w_fs]. rewrite lookup_insert_ne.
           - rewrite (O2 src Hout), (O1 src Hout). exact Hsrc.
           - intros E. apply Hout. rewrite <- E. eexists. reflexivity. }
         etransitivity; [apply (copyfile_file src _ cls w3 L)|exact E4]. }
    exact E5.
  - cbn [w_fs]. subst w4 w3. cbn [w_fs].
    assert (D1 : dest ++ [name +:+ ".tex"] <> dest ++ [name +:+ ".txt"]).
    { intros E. apply app_inv_head in E. injection E as E.
      apply (f_equal last_char) in E.
      rewrite !last_char_app in E by discriminate. discriminate E. }
    assert (D2 : dest ++ [name +:+ ".tex"] <> dest ++ ["prose-report.cls"]).
    { intros E. apply app_inv_head in E. injection E as E.
      apply (f_equal last_char) in E.
      rewrite last_char_app in E by discriminate. discriminate E. }
    assert (D3 : dest ++ ["prose-report.cls"] <> dest ++ [name +:+ ".txt"]).
    { intros E. apply app_inv_head in E. injection E as E.
      apply (f_equal last_char) in E.
      rewrite last_char_app in E by discriminate. discriminate E. }
    split; [|split].
    + rewrite lookup_insert_ne by exact D1.
      rewrite lookup_insert_ne by exact D3.
      apply lookup_insert_eq.
    + rewrite lookup_insert_ne by exact D2. apply lookup_insert_eq.
    + apply lookup_insert_eq.
Qed.

Lemma make_on_fresh_destination_witness :
  exists w',
    make Ref.backend0 Ref.report0 ["home"; "night1"] None None Ref.world0
    = (w', Ok tt)
    /\ w_fs w' !! ["home"; "night1"; "night1.txt"]
       = Some (File (Table Ref.demo_csv))
    /\ w_fs w' !! ["home"; "night1"; "prose-report.cls"]
       = Some (File (Bytes "cls"))
    /\ w_fs w' !! ["home"; "night1"; "night1.tex"]
       = Some (File (Bytes "TOI-1234: 2021 03 15")).
Proof.
  apply (make_on_fresh_destination Ref.backend0 Ref.report0
           ["home"; "night1"] None None Ref.world0 Ref.demo_csv
           (Bytes "cls")).
  - intros p [k ->]. apply not_elem_of_list_to_map_1. cbn.
    rewrite !elem_of_cons, elem_of_nil.
    intros [E|[E|[E|[E|[]]]]]; discriminate E.
  - reflexivity.
  - intros k. eexists. reflexivity.
  - reflexivity.
  - reflexivity.
Defined.
